(** * DeployManager: the deployment graph resolver and materializer

    A shallow embedding of [DeployManager] (rush-lib, [DeployManager.ts]):
    scenario loading, the recursive collection of package folders, path
    remapping, folder copy, link re-creation and the top-level driver.

    The class talks to the outside world through Node's [path] module, the
    [FileSystem] / [JsonFile] / [PackageJsonLookup] helpers, the [resolve]
    package, [fs-extra]'s [copySync], the [SymlinkAnalyzer] and the
    [RushConfiguration].  None of these is part of the file under study; they
    are taken as interfaces (records of operations) below, and a small
    in-memory implementation is given to run the code on examples.

    The file also embeds the dependency-path helpers of lockfile-explorer
    ([commands/utils.ts]) in the module [LockfileExplorer], with JavaScript's
    string indices as integers and its numbers as rationals, NaN and the
    infinities. *)

From Stdlib Require Import String Ascii List Bool Arith Lia.
From Stdlib Require Import ZArith.
From Stdlib Require QArith Qround.
Import ListNotations.

Local Open Scope string_scope.
Local Open Scope list_scope.

(** JavaScript's string [+]. *)
Infix "+++" := String.append (at level 60, right associativity).

(** A string between double quotes, and the line feed. *)
Definition quoted (s : string) : string :=
  String (ascii_of_nat 34) (s +++ String (ascii_of_nat 34) EmptyString).

Definition newline : string := String (ascii_of_nat 10) EmptyString.

(* ================================================================== *)
(** ** Data model *)

(** [kind] of an [ILinkInfo] (SymlinkAnalyzer). *)
Inductive LinkKind := fileLink | folderLink.

Record ILinkInfo := mkLinkInfo {
  kind : LinkKind;
  linkPath : string;
  targetPath : string
}.

Record IDeployScenarioProjectJson := mkProjectJson {
  projectName : string;
  subdeploymentFolderName : option string;
  additionalProjectsToInclude : option (list string)
}.

Record IDeploySubdeploymentsJson := mkSubdeploymentsJson {
  enabled : option bool;
  subdeploymentProjects : option (list string)
}.

Inductive SymlinkCreation := symlinkDefault | symlinkScript | symlinkNone.

Record IDeployScenarioJson := mkScenarioJson {
  includeDevDependencies : option bool;
  includeNpmIgnoreFiles : option bool;
  symlinkCreation : option SymlinkCreation;
  projectSettings : option (list IDeployScenarioProjectJson);
  subdeployments : option IDeploySubdeploymentsJson
}.

(** The four dependency tables of a [package.json]; each is an optional
    object, given as the list of its (name, version specifier) entries in
    [Object.keys] order. *)
Record IPackageJson := mkPackageJson {
  dependencies : option (list (string * string));
  devDependencies : option (list (string * string));
  peerDependencies : option (list (string * string));
  optionalDependencies : option (list (string * string))
}.

(** [symlinkAnalyzer] is represented by the paths handed to [analyzePath], in
    call order; [foldersToCopy] is a JavaScript [Set], kept in insertion
    order. *)
Record ISubdeploymentState := mkSubdeploymentState {
  targetSubdeploymentFolder : string;
  symlinkAnalyzer : list string;
  foldersToCopy : list string
}.

Record RushConfigurationProject := mkProject {
  projectFolder : string
}.

(* ------------------------------------------------------------------ *)
(** *** JavaScript values: truthiness, [Set<string>], [Map<string, V>] *)

(** [!!x] for [x : string | undefined]. *)
Definition truthy (x : option string) : bool :=
  match x with
  | Some s => negb (s =? EmptyString)
  | None => false
  end.

(** [!!x] for [x : boolean | undefined]. *)
Definition truthyBool (x : option bool) : bool :=
  match x with
  | Some b => b
  | None => false
  end.

(** [x || []] and [x || ''] *)
Definition orEmpty {A : Type} (x : option (list A)) : list A :=
  match x with
  | Some l => l
  | None => []
  end.

Definition orEmptyString (x : option string) : string :=
  match x with
  | Some s => s
  | None => EmptyString
  end.

Definition isSome {A : Type} (x : option A) : bool :=
  match x with
  | Some _ => true
  | None => false
  end.

(** [Object.keys(x || {})] *)
Definition Object_keys (x : option (list (string * string))) : list string :=
  map fst (orEmpty x).

Definition Set_has (x : string) (s : list string) : bool :=
  existsb (String.eqb x) s.

Definition Set_add (x : string) (s : list string) : list string :=
  if Set_has x s then s else s ++ [x].

(** [for (const name of names) { s.add(name); }] *)
Definition Set_addAll (names : list string) (s : list string) : list string :=
  fold_left (fun acc name => Set_add name acc) names s.

Fixpoint Map_get {V : Type} (k : string) (m : list (string * V)) : option V :=
  match m with
  | [] => None
  | (k', v) :: m' => if k =? k' then Some v else Map_get k m'
  end.

Fixpoint Map_set {V : Type} (k : string) (v : V) (m : list (string * V))
  : list (string * V) :=
  match m with
  | [] => [(k, v)]
  | (k', v') :: m' =>
      if k =? k' then (k, v) :: m' else (k', v') :: Map_set k v m'
  end.

(** [Sort.sortSet]: the set re-inserted in ascending order of its strings. *)
Fixpoint insertSorted (x : string) (l : list string) : list string :=
  match l with
  | [] => [x]
  | y :: l' => if String.leb x y then x :: l else y :: insertSorted x l'
  end.

Definition Sort_sortSet (s : list string) : list string :=
  fold_left (fun acc x => insertSorted x acc) s [].

(* ------------------------------------------------------------------ *)
(** *** The dependency names of a manifest (lines 96-116) *)

(** [allDependencyNames] once the four loops have run. *)
Definition allDependencyNames (includeDev : bool) (packageJson : IPackageJson)
  : list string :=
  let s := Set_addAll (Object_keys (dependencies packageJson)) [] in
  let s := if includeDev
           then Set_addAll (Object_keys (devDependencies packageJson)) s
           else s in
  let s := Set_addAll (Object_keys (peerDependencies packageJson)) s in
  Set_addAll (Object_keys (optionalDependencies packageJson)) s.

(** [optionalDependencyNames] once the four loops have run: the peers are
    added to it as well ("consider peers optional"). *)
Definition optionalDependencyNames (packageJson : IPackageJson) : list string :=
  let s := Set_addAll (Object_keys (peerDependencies packageJson)) [] in
  Set_addAll (Object_keys (optionalDependencies packageJson)) s.

(* ================================================================== *)
(** ** The interfaces the class is written against *)

(** Node's [process] and [path], [JSON.stringify], and
    [Path.isUnderOrEqual] of node-core-library. *)
Record NodeHost := mkNodeHost {
  process_platform : string;
  path_dirname : string -> string;
  path_join : string -> string -> string;
  path_relative : string -> string -> string;
  path_resolve : string -> string;
  Path_isUnderOrEqual : string -> string -> bool;
  JSON_stringify : string -> string;
  JSON_stringify_link : ILinkInfo -> string
}.

(** What [lstat] and [readdir] show of a folder: the walk of [copySync] reads
    the source through this snapshot. *)
Inductive DirTree :=
| TreeFile
| TreeLink
| TreeFolder (entries : DirEntries)
with DirEntries :=
| NoEntries
| Entry (name : string) (child : DirTree) (rest : DirEntries).

Scheme DirTree_mut := Induction for DirTree Sort Prop
  with DirEntries_mut := Induction for DirEntries Sort Prop.
Combined Scheme DirTree_mutind from DirTree_mut, DirEntries_mut.

Definition isSymbolicLink (t : DirTree) : bool :=
  match t with
  | TreeLink => true
  | _ => false
  end.

(** The calls that write to the disk. *)
Inductive FsOp :=
| EnsureFolder (folderPath : string)
| EnsureEmptyFolder (folderPath : string)
| CopyFolder (src dest : string)
| CopyFile (src dest : string)
| CopyLink (src dest : string)
| CreateSymbolicLinkJunction (linkTargetPath newLinkPath : string)
| CreateHardLink (linkTargetPath newLinkPath : string)
| CreateSymbolicLinkFolder (linkTargetPath newLinkPath : string)
| CreateSymbolicLinkFile (linkTargetPath newLinkPath : string).

(** What [resolve.sync] hands back: a value or an exception.  Line 143 tests
    the value for being falsy, so the value is taken as it is typed there;
    the package itself returns the path it found and throws for a module it
    cannot find (and the [realpathSync] callback rethrows what is not
    ENOENT). *)
Inductive ResolveResult :=
| ResolveReturned (resolvedDependency : option string)
| ResolveThrew (message : string).

(** The disk and everything that reads or writes it.  [fs_apply] is [None]
    when the call throws.  [resolve_sync d name basedir] gives, with its
    result, the paths its [realpathSync] callback passed to [analyzePath]. *)
Record FileSystemApi := mkFileSystemApi {
  Disk : Type;
  FileSystem_exists : Disk -> string -> bool;
  FileSystem_readFolder : Disk -> string -> list string;
  FileSystem_getRealPath : Disk -> string -> string;
  fs_tree : Disk -> string -> option DirTree;
  fs_apply : FsOp -> Disk -> option Disk;
  JsonFile_load_scenario : Disk -> string -> option IDeployScenarioJson;
  JsonFile_load_package : Disk -> string -> option IPackageJson;
  resolve_sync : Disk -> string -> string -> list string * ResolveResult;
  tryGetPackageJsonFilePathFor : Disk -> string -> option string;
  reportSymlinks : Disk -> list string -> list ILinkInfo
}.

Record RushConfiguration := mkRushConfiguration {
  commonFolder : string;
  rushJsonFolder : string;
  getProjectByName : string -> option RushConfigurationProject;
  getUnscopedName : string -> string
}.

(* ================================================================== *)
(** ** lockfile-explorer: [commands/utils.ts]

    The helpers that read pnpm dependency paths and lockfile versions.
    JavaScript strings are taken as strings of code units below 256; a
    number is NaN, an infinity or a finite rational (every finite double is
    one); the package [@pnpm/dependency-path] is an interface. *)

Module LockfileExplorer.

(* ------------------------------------------------------------------ *)
(** *** JavaScript strings and numbers *)

(** [s.indexOf(search, from)] for a non-empty [search]: the first position
    at or after [from] where [search] starts, or -1. *)
Definition String_indexOf (search : string) (from : Z) (s : string) : Z :=
  match index (Z.to_nat (Z.max 0 from)) search s with
  | Some i => Z.of_nat i
  | None => (-1)%Z
  end.

(** [s.includes(search, position)] *)
Definition String_includes (search : string) (position : Z) (s : string)
  : bool :=
  negb (String_indexOf search position s =? -1)%Z.

(** [s.startsWith(search)] *)
Definition String_startsWith (search : string) (s : string) : bool :=
  prefix search s.

(** [s.substring(start, end)]: both ends are brought into [0, length], an
    absent end is the length, and the smaller end comes first. *)
Definition String_substring (start : Z) (end_ : option Z) (s : string)
  : string :=
  let len := Z.of_nat (String.length s) in
  let clamp x := Z.min (Z.max x 0) len in
  let a := clamp start in
  let b := match end_ with Some e => clamp e | None => len end in
  substring (Z.to_nat (Z.min a b)) (Z.to_nat (Z.max a b - Z.min a b)) s.

Inductive JsNumber :=
| NumberNaN
| NumberInfinity (negative : bool)
| NumberFinite (q : QArith_base.Q).

(** A number known to be NaN, an infinity or an integer: what [parseInt]
    and [Math.floor] give. *)
Inductive JsIntegral :=
| NaN
| Infinity (negative : bool)
| Integer (z : Z).

Definition Math_floor (n : JsNumber) : JsIntegral :=
  match n with
  | NumberNaN => NaN
  | NumberInfinity negative => Infinity negative
  | NumberFinite q => Integer (Qround.Qfloor q)
  end.

(** [x < n] and [x > n] for an integer [n]; false on NaN. *)
Definition lessThan (x : JsIntegral) (n : Z) : bool :=
  match x with
  | NaN => false
  | Infinity negative => negative
  | Integer z => (z <? n)%Z
  end.

Definition greaterThan (x : JsIntegral) (n : Z) : bool :=
  match x with
  | NaN => false
  | Infinity negative => negb negative
  | Integer z => (n <? z)%Z
  end.

(** [x === n] *)
Definition strictEquals (x : JsIntegral) (n : Z) : bool :=
  match x with
  | Integer z => (z =? n)%Z
  | _ => false
  end.

(** The white space [parseInt] skips: TAB, LF, VT, FF, CR, SP, NBSP. *)
Definition isStrWhiteSpaceChar (c : ascii) : bool :=
  let n := nat_of_ascii c in
  (Nat.leb 9 n && Nat.leb n 13) || Nat.eqb n 32 || Nat.eqb n 160.

Fixpoint trimStart (s : string) : string :=
  match s with
  | String c s' => if isStrWhiteSpaceChar c then trimStart s' else s
  | EmptyString => EmptyString
  end.

Definition digitValue (c : ascii) : option Z :=
  let n := nat_of_ascii c in
  if Nat.leb 48 n && Nat.leb n 57 then Some (Z.of_nat (n - 48)) else None.

(** The value of the longest run of decimal digits at the start of [s];
    [acc] is what has been read so far, [None] if nothing. *)
Fixpoint parseDigits (s : string) (acc : option Z) : option Z :=
  match s with
  | String c s' =>
      match digitValue c with
      | Some d =>
          parseDigits s'
            (Some (10 * match acc with Some a => a | None => 0 end + d)%Z)
      | None => acc
      end
  | EmptyString => acc
  end.

(** [parseInt(s, 10)]: white space, a sign, then digits; NaN without a
    digit.  (The integer is exact here; JavaScript rounds it to a double,
    which matters only far above the versions compared with below.) *)
Definition parseInt10 (s : string) : JsIntegral :=
  let trimmed := trimStart s in
  let (sign, digits) :=
    match trimmed with
    | String c rest =>
        if Ascii.eqb c "-"%char then ((-1)%Z, rest)
        else if Ascii.eqb c "+"%char then (1%Z, rest)
        else (1%Z, trimmed)
    | EmptyString => (1%Z, trimmed)
    end in
  match parseDigits digits None with
  | Some v => Integer (sign * v)
  | None => NaN
  end.

(** A call returns a value or throws. *)
Inductive Completion (A : Type) :=
| Normal (a : A)
| Abrupt (message : string).

Arguments Normal {A} a.
Arguments Abrupt {A} message.

(* ------------------------------------------------------------------ *)
(** *** [@pnpm/dependency-path] *)

Record DependencyPath := mkDependencyPath {
  dp_name : option string;
  dp_peersSuffix : option string;
  dp_version : option string
}.

Record DependencyPathApi := mkDependencyPathApi {
  dp_indexOfPeersSuffix : string -> Z;
  dp_parse : string -> DependencyPath
}.

(* ------------------------------------------------------------------ *)
(** *** The helpers *)

Record IPackageInfo := mkPackageInfo {
  name : option string;
  peersSuffix : option string;
  version : option string
}.

Definition convertLockfileV6DepPathToV5DepPath (dp : DependencyPathApi)
  (newDepPath : string) : string :=
  if negb (String_includes "@" 2 newDepPath)
     || String_startsWith "file:" newDepPath
  then newDepPath
  else
    let index :=
      String_indexOf "@" (String_indexOf "/@" 0 newDepPath + 2) newDepPath in
    if String_includes "(" 0 newDepPath
       && (dp_indexOfPeersSuffix dp newDepPath <? index)%Z
    then newDepPath
    else
      String_substring 0 (Some index) newDepPath +++ "/"
        +++ String_substring (index + 1) None newDepPath.

Definition parseDependencyPath (dp : DependencyPathApi)
  (shrinkwrapFileMajorVersion : JsIntegral) (newDepPath : string)
  : IPackageInfo :=
  let dependencyPath :=
    if strictEquals shrinkwrapFileMajorVersion 6
    then convertLockfileV6DepPathToV5DepPath dp newDepPath
    else newDepPath in
  let packageInfo := dp_parse dp dependencyPath in
  mkPackageInfo (dp_name packageInfo) (dp_peersSuffix packageInfo)
    (dp_version packageInfo).

(** [lockfileVersion]: a string, a number, or anything else. *)
Inductive LockfileVersion :=
| VersionString (s : string)
| VersionNumber (n : JsNumber)
| VersionOther.

Definition getShrinkwrapFileMajorVersion (lockfileVersion : LockfileVersion)
  : Completion JsIntegral :=
  let shrinkwrapFileMajorVersion :=
    match lockfileVersion with
    | VersionString s =>
        let isDotIncluded := String_includes "." 0 s in
        parseInt10
          (String_substring 0
             (if isDotIncluded then Some (String_indexOf "." 0 s) else None)
             s)
    | VersionNumber n => Math_floor n
    | VersionOther => Integer 0
    end in
  if lessThan shrinkwrapFileMajorVersion 5
     || greaterThan shrinkwrapFileMajorVersion 6
  then Abrupt "The current lockfile version is not supported."
  else Normal shrinkwrapFileMajorVersion.

(* ------------------------------------------------------------------ *)
(** *** Vocabulary of the properties *)

(** The character [c] occurs in [s]. *)
Fixpoint contains (c : ascii) (s : string) : bool :=
  match s with
  | String c' s' => Ascii.eqb c' c || contains c s'
  | EmptyString => false
  end.

Definition isDigit (c : ascii) : bool := isSome (digitValue c).

Fixpoint allDigits (s : string) : bool :=
  match s with
  | String c s' => isDigit c && allDigits s'
  | EmptyString => true
  end.

(** The number a string of decimal digits writes. *)
Definition decimalValue (s : string) : Z :=
  fold_left
    (fun acc c =>
       (10 * acc + match digitValue c with Some d => d | None => 0 end)%Z)
    (list_ascii_of_string s) 0%Z.

Definition notSupported : string :=
  "The current lockfile version is not supported.".

End LockfileExplorer.

(* ================================================================== *)
(** ** In-memory implementations of the interfaces

    Used to run the class on concrete inputs.  Paths are handled the way
    Node's [path] does for the paths that occur here (separators, [.] and
    [..] segments, a POSIX root or a Windows drive root); trailing
    separators are dropped and Windows comparisons are case-sensitive. *)

Module InMemory.

(** [sameName] compares two segments or two roots the way the platform's
    [path.relative] does: as they are on POSIX, without regard to case on
    Windows. *)
Record PathStyle := mkPathStyle {
  sep : string;
  isSep : ascii -> bool;
  rootOf : string -> string;
  cwd : string;
  sameName : string -> string -> bool
}.

Definition toLowerAscii (c : ascii) : ascii :=
  let n := nat_of_ascii c in
  if Nat.leb 65 n && Nat.leb n 90 then ascii_of_nat (n + 32) else c.

Fixpoint toLowerCase (s : string) : string :=
  match s with
  | EmptyString => EmptyString
  | String c s' => String (toLowerAscii c) (toLowerCase s')
  end.

Definition sameIgnoringCase (a b : string) : bool :=
  toLowerCase a =? toLowerCase b.

Definition isSlash (c : ascii) : bool := Ascii.eqb c "/"%char.

Definition isSlashOrBackslash (c : ascii) : bool :=
  Ascii.eqb c "/"%char || Ascii.eqb c (ascii_of_nat 92).

Definition posixRoot (p : string) : string :=
  match p with
  | String c _ => if isSlash c then "/" else EmptyString
  | EmptyString => EmptyString
  end.

Definition win32Root (p : string) : string :=
  match p with
  | String d (String colon (String c _)) =>
      if Ascii.eqb colon ":"%char && isSlashOrBackslash c
      then String d (String colon (String (ascii_of_nat 92) EmptyString))
      else EmptyString
  | _ => EmptyString
  end.

Definition posix : PathStyle :=
  mkPathStyle "/" isSlash posixRoot "/" String.eqb.

(** Windows paths, for a process whose working directory is [workingDir]. *)
Definition win32In (workingDir : string) : PathStyle :=
  mkPathStyle (String (ascii_of_nat 92) EmptyString) isSlashOrBackslash
    win32Root workingDir sameIgnoringCase.

Definition win32 : PathStyle :=
  win32In (String "C" (String ":" (String (ascii_of_nat 92) EmptyString))).

Fixpoint splitAux (sepb : ascii -> bool) (s cur : string) : list string :=
  match s with
  | EmptyString => [cur]
  | String c s' =>
      if sepb c then cur :: splitAux sepb s' EmptyString
      else splitAux sepb s' (cur +++ String c EmptyString)
  end.

(** Drops empty and [.] segments and resolves [..] against what precedes
    it; [acc] holds the segments kept so far, last first. *)
Fixpoint normalizeSegments (absolute : bool) (segs acc : list string)
  : list string :=
  match segs with
  | [] => rev acc
  | seg :: rest =>
      if (seg =? EmptyString) || (seg =? ".") then
        normalizeSegments absolute rest acc
      else if seg =? ".." then
        match acc with
        | prev :: acc' =>
            if prev =? ".." then normalizeSegments absolute rest (seg :: acc)
            else normalizeSegments absolute rest acc'
        | [] =>
            if absolute then normalizeSegments absolute rest []
            else normalizeSegments absolute rest [seg]
        end
      else normalizeSegments absolute rest (seg :: acc)
  end.

Definition dropChars (n : nat) (s : string) : string :=
  substring n (String.length s - n) s.

(** A path as its root (empty for a relative path) and its segments. *)
Definition parsePath (ps : PathStyle) (p : string) : string * list string :=
  let root := rootOf ps p in
  (root,
   normalizeSegments (negb (root =? EmptyString))
     (splitAux (isSep ps) (dropChars (String.length root) p) EmptyString) []).

Definition renderPath (ps : PathStyle) (root : string) (segs : list string)
  : string :=
  match segs with
  | [] => if root =? EmptyString then "." else root
  | _ => root +++ String.concat (sep ps) segs
  end.

Definition normalize (ps : PathStyle) (p : string) : string :=
  let (root, segs) := parsePath ps p in renderPath ps root segs.

Definition join (ps : PathStyle) (a b : string) : string :=
  if a =? EmptyString then normalize ps b
  else if b =? EmptyString then normalize ps a
  else normalize ps (a +++ sep ps +++ b).

Definition resolve (ps : PathStyle) (p : string) : string :=
  if rootOf ps p =? EmptyString then join ps (cwd ps) p else normalize ps p.

Definition dirname (ps : PathStyle) (p : string) : string :=
  let (root, segs) := parsePath ps p in renderPath ps root (removelast segs).

Fixpoint dropCommon (same : string -> string -> bool) (a b : list string)
  : list string * list string :=
  match a, b with
  | x :: a', y :: b' => if same x y then dropCommon same a' b' else (a, b)
  | _, _ => (a, b)
  end.

Definition relative (ps : PathStyle) (from to : string) : string :=
  let (fromRoot, fromSegs) := parsePath ps (resolve ps from) in
  let (toRoot, toSegs) := parsePath ps (resolve ps to) in
  if negb (sameName ps fromRoot toRoot) then renderPath ps toRoot toSegs
  else
    let (up, down) := dropCommon (sameName ps) fromSegs toSegs in
    String.concat (sep ps) (map (fun _ => "..") up ++ down).

(** What "under or equal" means for two paths: the same root, and the
    segments of the folder begin those of the path. *)
Fixpoint beginsWith (same : string -> string -> bool) (start l : list string)
  : bool :=
  match start, l with
  | [], _ => true
  | x :: start', y :: l' => same x y && beginsWith same start' l'
  | _ :: _, [] => false
  end.

Definition liesUnderOrEqual (ps : PathStyle) (childPath parentFolderPath : string)
  : bool :=
  let (childRoot, childSegs) := parsePath ps (resolve ps childPath) in
  let (parentRoot, parentSegs) := parsePath ps (resolve ps parentFolderPath) in
  sameName ps childRoot parentRoot
  && beginsWith (sameName ps) parentSegs childSegs.

Definition onlyDotsAndSeparators (s : string) : bool :=
  forallb (fun c => Ascii.eqb c "."%char || isSlashOrBackslash c)
    (list_ascii_of_string s).

(** [Path.isUnderOrEqual]: the way back from the child to the parent is
    empty or made of dots and separators only. *)
Definition isUnderOrEqual (ps : PathStyle) (childPath parentFolderPath : string)
  : bool :=
  let relativePath := relative ps childPath parentFolderPath in
  (relativePath =? EmptyString) || onlyDotsAndSeparators relativePath.

(** [JSON.stringify] of a string: the quote and the backslash are escaped,
    the control characters are written as [\b], [\t], [\n], [\f], [\r] or
    [\u00XX]. *)
Definition backslash : string := String (ascii_of_nat 92) EmptyString.

Definition hexDigit (n : nat) : string :=
  String (ascii_of_nat (if Nat.ltb n 10 then 48 + n else 87 + n)) EmptyString.

Definition jsonEscape (c : ascii) : string :=
  let n := nat_of_ascii c in
  if Nat.eqb n 34 then backslash +++ String c EmptyString
  else if Nat.eqb n 92 then backslash +++ backslash
  else if Nat.eqb n 8 then backslash +++ "b"
  else if Nat.eqb n 9 then backslash +++ "t"
  else if Nat.eqb n 10 then backslash +++ "n"
  else if Nat.eqb n 12 then backslash +++ "f"
  else if Nat.eqb n 13 then backslash +++ "r"
  else if Nat.ltb n 32 then
    backslash +++ "u00" +++ hexDigit (Nat.div n 16) +++ hexDigit (Nat.modulo n 16)
  else String c EmptyString.

Fixpoint jsonEscapeAll (s : string) : string :=
  match s with
  | EmptyString => EmptyString
  | String c s' => jsonEscape c +++ jsonEscapeAll s'
  end.

Definition stringifyString (s : string) : string := quoted (jsonEscapeAll s).

(** [JSON.stringify(link, undefined, 2)]: one key a line, two spaces in. *)
Definition stringifyLink (l : ILinkInfo) : string :=
  "{" +++ newline
    +++ "  " +++ quoted "kind" +++ ": "
    +++ quoted
          match kind l with fileLink => "fileLink" | folderLink => "folderLink" end
    +++ "," +++ newline
    +++ "  " +++ quoted "linkPath" +++ ": " +++ stringifyString (linkPath l)
    +++ "," +++ newline
    +++ "  " +++ quoted "targetPath" +++ ": " +++ stringifyString (targetPath l)
    +++ newline +++ "}".

Definition host (platform : string) (ps : PathStyle) : NodeHost :=
  mkNodeHost platform (dirname ps) (join ps) (relative ps) (resolve ps)
    (isUnderOrEqual ps) stringifyString stringifyLink.

(** What is on the disk besides the bare existence of paths: the JSON
    files, what [resolve.sync] and the package.json lookup answer, the
    folder snapshots, and the links the analyzer reports. *)
Record Fixture := mkFixture {
  scenarioFiles : list (string * IDeployScenarioJson);
  packageFiles : list (string * IPackageJson);
  resolutions : list (string * list (string * (list string * ResolveResult)));
  packageJsonFor : list (string * string);
  trees : list (string * DirTree);
  links : list (string * ILinkInfo)
}.

(** The disk is the list of the paths that exist.  A call that creates
    something throws when the path is taken; a hard link is made to an
    existing file, whose path the system resolves against the working
    directory (a symbolic link or a junction may point nowhere). *)
Definition memApply (h : NodeHost) (op : FsOp) (d : list string)
  : option (list string) :=
  let create p := if Set_has p d then None else Some (d ++ [p]) in
  match op with
  | EnsureFolder p => Some (Set_add p d)
  | EnsureEmptyFolder p =>
      Some (Set_add p (filter (fun q => negb (Path_isUnderOrEqual h q p)) d))
  | CopyFolder _ dest => Some (Set_add dest d)
  | CopyFile _ dest => create dest
  | CopyLink _ dest => create dest
  | CreateSymbolicLinkJunction _ newLinkPath => create newLinkPath
  | CreateHardLink linkTargetPath newLinkPath =>
      if Set_has (path_resolve h linkTargetPath) d then create newLinkPath
      else None
  | CreateSymbolicLinkFolder _ newLinkPath => create newLinkPath
  | CreateSymbolicLinkFile _ newLinkPath => create newLinkPath
  end.

Definition memReadFolder (h : NodeHost) (d : list string) (p : string)
  : list string :=
  map (path_relative h p)
    (filter (fun q => negb (q =? p) && (path_dirname h q =? p)) d).

(** [resolve.sync] hands back the path of the module it found; for a module
    that is not installed it throws (code MODULE_NOT_FOUND), it does not
    return a falsy value. *)
Definition moduleNotFound (name basedir : string) : string :=
  "Cannot find module '" +++ name +++ "' from '" +++ basedir +++ "'".

Definition memResolve (fx : Fixture) (name basedir : string)
  : list string * ResolveResult :=
  match Map_get basedir (resolutions fx) with
  | Some answers =>
      match Map_get name answers with
      | Some answer => answer
      | None => ([], ResolveThrew (moduleNotFound name basedir))
      end
  | None => ([], ResolveThrew (moduleNotFound name basedir))
  end.

Definition memReport (fx : Fixture) (analyzed : list string) : list ILinkInfo :=
  flat_map
    (fun p => match Map_get p (links fx) with Some l => [l] | None => [] end)
    analyzed.

Definition memFs (h : NodeHost) (fx : Fixture) : FileSystemApi :=
  mkFileSystemApi (list string)
    (fun d p => Set_has p d)
    (memReadFolder h)
    (fun _ p => p)
    (fun _ p => Map_get p (trees fx))
    (memApply h)
    (fun _ p => Map_get p (scenarioFiles fx))
    (fun _ p => Map_get p (packageFiles fx))
    (fun _ => memResolve fx)
    (fun _ p => Map_get p (packageJsonFor fx))
    (fun _ => memReport fx).

Definition unscoped (name : string) : string :=
  match splitAux isSlash name EmptyString with
  | scope :: rest :: _ => if prefix "@" scope then rest else name
  | _ => name
  end.

Definition registry (common root : string) (projects : list (string * string))
  : RushConfiguration :=
  mkRushConfiguration common root
    (fun name => option_map mkProject (Map_get name projects))
    unscoped.

End InMemory.

(* ================================================================== *)
(** ** A sample workspace

    A repository at [/repo] with two projects that depend on each other
    ([app] and [lib]: a cycle), a third-party package, a peer dependency
    that is not installed, and scenario files. *)

Module Samples.

Import InMemory.

Definition posixHost : NodeHost := host "linux" posix.

Definition win32Host : NodeHost := host "win32" win32.

Definition appManifest : IPackageJson :=
  mkPackageJson
    (Some [("lib", "1.0.0"); ("left-pad", "^1.3.0")])
    (Some [("jest", "^25.0.0")])
    None
    None.

(** [widget] has [left-pad] installed; its peer [react], which it also lists
    under [dependencies], and its optional [fsevents] are not installed. *)
Definition widgetManifest : IPackageJson :=
  mkPackageJson
    (Some [("left-pad", "^1.3.0"); ("react", "^16.0.0")])
    None
    (Some [("react", "^16.0.0")])
    (Some [("fsevents", "^2.0.0")]).

Definition libManifest : IPackageJson :=
  mkPackageJson (Some [("app", "1.0.0")]) None None None.

Definition leftPadManifest : IPackageJson :=
  mkPackageJson None None None None.

Definition appTree : DirTree :=
  TreeFolder
    (Entry "package.json" TreeFile
       (Entry "src" (TreeFolder (Entry "index.js" TreeFile NoEntries))
          (Entry "node_modules"
             (TreeFolder (Entry "lib" TreeLink NoEntries))
             (Entry "README.md" TreeLink NoEntries)))).

Definition libLink : ILinkInfo :=
  mkLinkInfo folderLink "/repo/apps/app/node_modules/lib" "/repo/libs/lib".

Definition readmeLink : ILinkInfo :=
  mkLinkInfo fileLink "/repo/apps/app/README.md" "/repo/libs/lib/README.md".

(** [projectSettings] names the registered project [app] and asks for the
    additional project [ghost], which is not registered. *)
Definition ghostScenario : IDeployScenarioJson :=
  mkScenarioJson None None None
    (Some [mkProjectJson "app" None (Some ["ghost"])])
    None.

(** Subdeployments enabled, no subdeployment project, no project setting. *)
Definition emptyScenario : IDeployScenarioJson :=
  mkScenarioJson None None None None
    (Some (mkSubdeploymentsJson (Some true) None)).

Definition workspace : Fixture :=
  mkFixture
    [("/repo/common/config/deploy-scenarios/ghost.json", ghostScenario);
     ("/repo/common/config/deploy-scenarios/empty.json", emptyScenario)]
    [("/repo/apps/app/package.json", appManifest);
     ("/repo/libs/lib/package.json", libManifest);
     ("/repo/common/temp/node_modules/left-pad/package.json", leftPadManifest);
     ("/repo/libs/widget/package.json", widgetManifest)]
    [("/repo/apps/app",
      [("lib",
        (["/repo/apps/app/node_modules/lib"],
         ResolveReturned (Some "/repo/libs/lib/package.json")));
       ("left-pad",
        ([],
         ResolveReturned
           (Some "/repo/common/temp/node_modules/left-pad/package.json")))]);
     ("/repo/libs/lib",
      [("app", ([], ResolveReturned (Some "/repo/apps/app/package.json")))]);
     ("/repo/libs/widget",
      [("left-pad",
        ([],
         ResolveReturned
           (Some "/repo/common/temp/node_modules/left-pad/package.json")))])]
    [("/repo/libs/lib/package.json", "/repo/libs/lib/package.json");
     ("/repo/apps/app/package.json", "/repo/apps/app/package.json");
     ("/repo/common/temp/node_modules/left-pad/package.json",
      "/repo/common/temp/node_modules/left-pad/package.json")]
    [("/repo/apps/app", appTree)]
    [("/repo/apps/app/node_modules/lib", libLink);
     ("/repo/apps/app/README.md", readmeLink)].

Definition posixFs : FileSystemApi := memFs posixHost workspace.

Definition rush : RushConfiguration :=
  registry "/repo/common" "/repo"
    [("app", "/repo/apps/app"); ("lib", "/repo/libs/lib")].

(** The folders that hold a manifest. *)
Definition packageFolders : list string :=
  ["/repo/apps/app"; "/repo/libs/lib";
   "/repo/common/temp/node_modules/left-pad"].

(** The scenario files, and a deploy folder left over from an earlier run. *)
Definition usedDisk : list string :=
  ["/repo/common/config/deploy-scenarios/ghost.json";
   "/repo/common/config/deploy-scenarios/empty.json";
   "/repo/common/deploy";
   "/repo/common/deploy/apps";
   "/repo/common/deploy/apps/app"].

(** The same with nothing deployed yet. *)
Definition freshDisk : list string :=
  ["/repo/common/config/deploy-scenarios/ghost.json";
   "/repo/common/config/deploy-scenarios/empty.json"].

(** A Windows workspace: a tool of [lib] linked into [app]. *)
Definition win32Fs : FileSystemApi :=
  memFs win32Host (mkFixture [] [] [] [] [] []).

Definition toolLink : ILinkInfo :=
  mkLinkInfo fileLink "C:\repo\apps\app\tool.cmd" "C:\repo\libs\lib\tool.cmd".

(** The tool in the source tree, and its copy in the deploy folder. *)
Definition win32Disk : list string :=
  ["C:\repo\libs\lib\tool.cmd"; "C:\deploy\libs\lib\tool.cmd"].

(** The same workspace for a process started in the folder of [app]. *)
Definition win32HostInApp : NodeHost :=
  host "win32" (win32In "C:\repo\apps\app").

Definition win32FsInApp : FileSystemApi :=
  memFs win32HostInApp (mkFixture [] [] [] [] [] []).

(** Two projects without dependencies or links, and two more scenarios. *)
Definition plainTree : DirTree :=
  TreeFolder (Entry "package.json" TreeFile NoEntries).

(** [projectSettings] names [app], then [stray], which is not in rush.json,
    then [lib]. *)
Definition strayScenario : IDeployScenarioJson :=
  mkScenarioJson None None None
    (Some [mkProjectJson "app" None None; mkProjectJson "stray" None None;
           mkProjectJson "lib" None None])
    None.

(** Neither subdeployments nor project settings. *)
Definition bareScenario : IDeployScenarioJson :=
  mkScenarioJson None None None None None.

Definition plainWorkspace : Fixture :=
  mkFixture
    [("/repo/common/config/deploy-scenarios/stray.json", strayScenario);
     ("/repo/common/config/deploy-scenarios/bare.json", bareScenario)]
    [("/repo/apps/app/package.json", leftPadManifest);
     ("/repo/libs/lib/package.json", leftPadManifest)]
    []
    []
    [("/repo/apps/app", plainTree); ("/repo/libs/lib", plainTree)]
    [].

Definition plainFs : FileSystemApi := memFs posixHost plainWorkspace.

Definition plainDisk : list string :=
  ["/repo/common/config/deploy-scenarios/stray.json";
   "/repo/common/config/deploy-scenarios/bare.json"].

End Samples.

(** How a call ends: it returns, it throws, or (for the recursion of
    [_collectFoldersRecursive], which is bounded by a fuel) the bound was
    reached. *)
Inductive Outcome (A : Type) :=
| Returned (a : A)
| Threw (message : string)
| OutOfFuel.

Arguments Returned {A} a.
Arguments Threw {A} message.
Arguments OutOfFuel {A}.

(* ================================================================== *)
(** ** The class *)

Section DeployManager.

Context (H : NodeHost) (F : FileSystemApi) (R : RushConfiguration).

(** The fields of the [DeployManager] instance, the one live
    [ISubdeploymentState], the disk, and (for stating what happened) the
    write calls made so far and the lines printed by [console.log]. *)
Record State := mkState {
  disk : Disk F;
  trace : list FsOp;
  console : list string;
  _targetRootFolder : string;
  _sourceRootFolder : string;
  _deployScenarioJson : IDeployScenarioJson;
  _deployScenarioProjectJsonsByName : list (string * IDeployScenarioProjectJson);
  subdemploymentState : ISubdeploymentState
}.

Definition M (A : Type) : Type := State -> Outcome A * State.

Definition ret {A : Type} (a : A) : M A := fun st => (Returned a, st).

Definition bind {A B : Type} (m : M A) (k : A -> M B) : M B :=
  fun st =>
    match m st with
    | (Returned a, st') => k a st'
    | (Threw message, st') => (Threw message, st')
    | (OutOfFuel, st') => (OutOfFuel, st')
    end.

Definition throw {A : Type} (message : string) : M A :=
  fun st => (Threw message, st).

Definition outOfFuel {A : Type} : M A := fun st => (OutOfFuel, st).

Definition get : M State := fun st => (Returned st, st).

Definition modify (f : State -> State) : M unit :=
  fun st => (Returned tt, f st).

Notation "x <- m ;; k" := (bind m (fun x => k))
  (at level 61, m at next level, right associativity).
Notation "m ;; k" := (bind m (fun _ => k))
  (at level 61, right associativity).

(** [for (const x of xs) body(x)] *)
Fixpoint forOf {A : Type} (xs : list A) (body : A -> M unit) : M unit :=
  match xs with
  | [] => ret tt
  | x :: xs' => body x ;; forOf xs' body
  end.

(* ------------------------------------------------------------------ *)
(** *** Field updates *)

Definition set_disk (d : Disk F) (op : FsOp) (st : State) : State :=
  mkState d (trace st ++ [op]) (console st) (_targetRootFolder st)
    (_sourceRootFolder st) (_deployScenarioJson st)
    (_deployScenarioProjectJsonsByName st) (subdemploymentState st).

Definition set_console (c : list string) (st : State) : State :=
  mkState (disk st) (trace st) c (_targetRootFolder st)
    (_sourceRootFolder st) (_deployScenarioJson st)
    (_deployScenarioProjectJsonsByName st) (subdemploymentState st).

Definition set_targetRootFolder (p : string) (st : State) : State :=
  mkState (disk st) (trace st) (console st) p
    (_sourceRootFolder st) (_deployScenarioJson st)
    (_deployScenarioProjectJsonsByName st) (subdemploymentState st).

Definition set_sourceRootFolder (p : string) (st : State) : State :=
  mkState (disk st) (trace st) (console st) (_targetRootFolder st)
    p (_deployScenarioJson st)
    (_deployScenarioProjectJsonsByName st) (subdemploymentState st).

Definition set_deployScenarioJson (j : IDeployScenarioJson) (st : State)
  : State :=
  mkState (disk st) (trace st) (console st) (_targetRootFolder st)
    (_sourceRootFolder st) j
    (_deployScenarioProjectJsonsByName st) (subdemploymentState st).

Definition set_projectJsonsByName
  (m : list (string * IDeployScenarioProjectJson)) (st : State) : State :=
  mkState (disk st) (trace st) (console st) (_targetRootFolder st)
    (_sourceRootFolder st) (_deployScenarioJson st)
    m (subdemploymentState st).

Definition set_subdemploymentState (s : ISubdeploymentState) (st : State)
  : State :=
  mkState (disk st) (trace st) (console st) (_targetRootFolder st)
    (_sourceRootFolder st) (_deployScenarioJson st)
    (_deployScenarioProjectJsonsByName st) s.

(** [subdemploymentState.foldersToCopy.add(p)] *)
Definition foldersToCopy_add (p : string) (st : State) : State :=
  let s := subdemploymentState st in
  set_subdemploymentState
    (mkSubdeploymentState (targetSubdeploymentFolder s) (symlinkAnalyzer s)
       (Set_add p (foldersToCopy s))) st.

(** [subdemploymentState.symlinkAnalyzer.analyzePath(p)], for each [p]. *)
Definition analyzePaths (ps : list string) (st : State) : State :=
  let s := subdemploymentState st in
  set_subdemploymentState
    (mkSubdeploymentState (targetSubdeploymentFolder s)
       (symlinkAnalyzer s ++ ps) (foldersToCopy s)) st.

Definition console_log (line : string) : M unit :=
  modify (fun st => set_console (console st ++ [line]) st).

(** A write call: it changes the disk and is recorded, or it throws. *)
Definition fs_do (op : FsOp) : M unit :=
  fun st =>
    match fs_apply F op (disk st) with
    | Some d => (Returned tt, set_disk d op st)
    | None => (Threw "file system error", st)
    end.

(* ------------------------------------------------------------------ *)
(** *** [_loadConfigFile] (lines 62-86) *)

Definition loadConfigFile_projectSetting
  (projectSetting : IDeployScenarioProjectJson) : M unit :=
  (* Validate projectSetting.projectName *)
  if negb (isSome (getProjectByName R (projectName projectSetting))) then
    throw ("The " +++ quoted "projectSettings"
             +++ " section refers to the project name "
             +++ quoted (projectName projectSetting)
             +++ " which was not found in rush.json")
  else
    forOf (orEmpty (additionalProjectsToInclude projectSetting))
      (fun additionalProjectsToInclude =>
         if negb (isSome (getProjectByName R (projectName projectSetting)))
         then
           throw ("The " +++ quoted "additionalProjectsToInclude"
                    +++ " setting refers to the" +++ " project name "
                    +++ quoted additionalProjectsToInclude
                    +++ " which was not found in rush.json")
         else ret tt) ;;
    modify (fun st =>
      set_projectJsonsByName
        (Map_set (projectName projectSetting) projectSetting
           (_deployScenarioProjectJsonsByName st)) st).

Definition loadConfigFile (scenarioName : string) : M unit :=
  let deployScenarioPath :=
    path_join H (path_join H (commonFolder R) "config/deploy-scenarios")
      (scenarioName +++ ".json") in
  st <- get ;;
  if negb (FileSystem_exists F (disk st) deployScenarioPath) then
    throw ("The scenario config file was not found: " +++ deployScenarioPath)
  else
    match JsonFile_load_scenario F (disk st) deployScenarioPath with
    | None => throw ("JsonFile.load: " +++ deployScenarioPath)
    | Some json =>
        modify (set_deployScenarioJson json) ;;
        forOf (orEmpty (projectSettings json)) loadConfigFile_projectSetting
    end.

(* ------------------------------------------------------------------ *)
(** *** [_collectFoldersRecursive] (lines 88-160) *)

(** The body of the loop over [allDependencyNames] (lines 118-158);
    [recurse] is the recursive call of line 157. *)
Definition collectDependency (recurse : string -> M unit)
  (packageJsonPath packageJsonFolderPath : string)
  (optionalDependencyNames : list string) (dependencyPackageName : string)
  : M unit :=
  st <- get ;;
  let (analyzed, result) :=
    resolve_sync F (disk st) dependencyPackageName packageJsonFolderPath in
  modify (analyzePaths analyzed) ;;
  match result with
  | ResolveThrew message => throw message
  | ResolveReturned resolvedDependency =>
      if negb (truthy resolvedDependency) then
        if Set_has dependencyPackageName optionalDependencyNames then
          (* Ignore missing optional dependency *)
          ret tt
        else
          throw ("Error resolving " +++ dependencyPackageName +++ " from "
                   +++ packageJsonPath)
      else
        let dependencyPackageJsonPath :=
          tryGetPackageJsonFilePathFor F (disk st)
            (orEmptyString resolvedDependency) in
        if negb (truthy dependencyPackageJsonPath) then
          throw ("Error finding package.json for "
                   +++ orEmptyString resolvedDependency)
        else
          recurse (orEmptyString dependencyPackageJsonPath)
  end.

Fixpoint collectFoldersRecursive (fuel : nat) (packageJsonPath : string)
  : M unit :=
  match fuel with
  | 0 => outOfFuel
  | S fuel' =>
      let packageJsonFolderPath := path_dirname H packageJsonPath in
      st <- get ;;
      if negb (Set_has packageJsonFolderPath
                 (foldersToCopy (subdemploymentState st)))
      then
        modify (foldersToCopy_add packageJsonFolderPath) ;;
        match JsonFile_load_package F (disk st) packageJsonPath with
        | None => throw ("JsonFile.load: " +++ packageJsonPath)
        | Some packageJson =>
            forOf
              (allDependencyNames
                 (truthyBool (includeDevDependencies (_deployScenarioJson st)))
                 packageJson)
              (collectDependency (collectFoldersRecursive fuel')
                 packageJsonPath packageJsonFolderPath
                 (optionalDependencyNames packageJson))
        end
      else ret tt
  end.

(* ------------------------------------------------------------------ *)
(** *** [_remapPathForDeployFolder] (lines 162-171) *)

Definition remapPathForDeployFolder (absolutePathInSourceFolder : string)
  : M string :=
  st <- get ;;
  if negb (Path_isUnderOrEqual H absolutePathInSourceFolder
             (_sourceRootFolder st))
  then
    throw ("Source path is not under " +++ _sourceRootFolder st
             +++ newline +++ absolutePathInSourceFolder)
  else
    let relativePath :=
      path_relative H (_sourceRootFolder st) absolutePathInSourceFolder in
    let absolutePathInTargetFolder :=
      path_join H (targetSubdeploymentFolder (subdemploymentState st))
        relativePath in
    ret absolutePathInTargetFolder.

(* ------------------------------------------------------------------ *)
(** *** [_deployFolder] (lines 173-198) *)

(** The [filter] callback of lines 184-196; [stats] is what
    [FileSystem.getLinkStatistics(src)] reports. *)
Definition deployFolder_filter (pathToIgnore : string) (src : string)
  (stats : DirTree) : M bool :=
  if Path_isUnderOrEqual H src pathToIgnore then ret false
  else if isSymbolicLink stats then
    modify (analyzePaths [src]) ;;
    ret false
  else ret true.

(** [fsx.copySync(src, dest, { overwrite: false, errorOnExist: true, filter })]
    over the snapshot of [src]: every entry reached is first put to the
    filter; an entry the filter rejects is skipped together with everything
    below it; an accepted folder is created at the destination and its
    entries are visited in turn; an accepted file is copied (the write
    throws if the destination exists).  [copySync] may put the folder it is
    called on to the filter a second time once it has been accepted; the
    filter below changes nothing when it accepts, so one call stands for
    both. *)
Fixpoint copySync (filter : string -> DirTree -> M bool) (t : DirTree)
  (src dest : string) {struct t} : M unit :=
  accepted <- filter src t ;;
  if (accepted : bool) then
    match t with
    | TreeFile => fs_do (CopyFile src dest)
    | TreeLink => fs_do (CopyLink src dest)
    | TreeFolder entries =>
        fs_do (CopyFolder src dest) ;;
        copySync_entries filter entries src dest
    end
  else ret tt
with copySync_entries (filter : string -> DirTree -> M bool)
  (entries : DirEntries) (src dest : string) {struct entries} : M unit :=
  match entries with
  | NoEntries => ret tt
  | Entry name child rest =>
      copySync filter child (path_join H src name) (path_join H dest name) ;;
      copySync_entries filter rest src dest
  end.

Definition deployFolder (sourceFolderPath : string) : M unit :=
  targetFolderPath <- remapPathForDeployFolder sourceFolderPath ;;
  (* When copying a package folder, we always ignore the node_modules folder *)
  let pathToIgnore := path_join H sourceFolderPath "node_modules" in
  st <- get ;;
  match fs_tree F (disk st) sourceFolderPath with
  | None => throw ("copySync: " +++ sourceFolderPath)
  | Some tree =>
      copySync (deployFolder_filter pathToIgnore) tree sourceFolderPath
        targetFolderPath
  end.

(* ------------------------------------------------------------------ *)
(** *** [_deploySymlink] (lines 200-253) *)

Definition deploySymlink (originalLinkInfo : ILinkInfo) : M bool :=
  remappedLinkPath <- remapPathForDeployFolder (linkPath originalLinkInfo) ;;
  remappedTargetPath <- remapPathForDeployFolder (targetPath originalLinkInfo) ;;
  let linkInfo :=
    mkLinkInfo (kind originalLinkInfo) remappedLinkPath remappedTargetPath in
  st <- get ;;
  (* Has the link target been created yet?  If not, we should try again later *)
  if negb (FileSystem_exists F (disk st) (targetPath linkInfo)) then ret false
  else
    let newLinkFolder := path_dirname H (linkPath linkInfo) in
    fs_do (EnsureFolder newLinkFolder) ;;
    st <- get ;;
    (* Link to the relative path for symlinks *)
    let relativeTargetPath :=
      path_relative H (FileSystem_getRealPath F (disk st) newLinkFolder)
        (targetPath linkInfo) in
    (if process_platform H =? "win32" then
       match kind linkInfo with
       | folderLink =>
           fs_do (CreateSymbolicLinkJunction relativeTargetPath
                    (linkPath linkInfo))
       | fileLink =>
           (* NOTE: We cannot use the relative path for hard links *)
           fs_do (CreateHardLink relativeTargetPath (linkPath linkInfo))
       end
     else
       match kind linkInfo with
       | folderLink =>
           fs_do (CreateSymbolicLinkFolder relativeTargetPath
                    (linkPath linkInfo))
       | fileLink =>
           fs_do (CreateSymbolicLinkFile relativeTargetPath
                    (linkPath linkInfo))
       end) ;;
    ret true.

(* ------------------------------------------------------------------ *)
(** *** [_deploySubdeployment] (lines 255-302) *)

(** [includedProjectNamesSet] after the loop of lines 258-268. *)
Definition includedProjectNamesSet
  (byName : list (string * IDeployScenarioProjectJson))
  (includedProjectNames : list string) : list string :=
  fold_left
    (fun acc projectName =>
       let acc := Set_add projectName acc in
       match Map_get projectName byName with
       | Some projectSettings =>
           match additionalProjectsToInclude projectSettings with
           | Some additional => Set_addAll additional acc
           | None => acc
           end
       | None => acc
       end)
    includedProjectNames [].

Definition sortFoldersToCopy (st : State) : State :=
  let s := subdemploymentState st in
  set_subdemploymentState
    (mkSubdeploymentState (targetSubdeploymentFolder s) (symlinkAnalyzer s)
       (Sort_sortSet (foldersToCopy s))) st.

Definition deploySubdeployment (fuel : nat)
  (includedProjectNames : list string)
  (subdeploymentFolderName : option string) : M unit :=
  st <- get ;;
  (* Include the additionalProjectsToInclude *)
  let names :=
    includedProjectNamesSet (_deployScenarioProjectJsonsByName st)
      includedProjectNames in
  modify (set_subdemploymentState
            (mkSubdeploymentState
               (path_join H (_targetRootFolder st)
                  (orEmptyString subdeploymentFolderName))
               [] [])) ;;
  forOf names
    (fun projectName =>
       console_log ("Analyzing project " +++ quoted projectName) ;;
       match getProjectByName R projectName with
       | None =>
           throw ("The project " +++ projectName
                    +++ " is not defined in rush.json")
       | Some project =>
           collectFoldersRecursive fuel
             (path_join H (projectFolder project) "package.json")
       end) ;;
  modify sortFoldersToCopy ;;
  console_log "Copying folders..." ;;
  st <- get ;;
  forOf (foldersToCopy (subdemploymentState st)) deployFolder ;;
  console_log "Copying symlinks..." ;;
  st <- get ;;
  let linksToCopy :=
    reportSymlinks F (disk st) (symlinkAnalyzer (subdemploymentState st)) in
  forOf linksToCopy
    (fun linkToCopy =>
       deployed <- deploySymlink linkToCopy ;;
       if negb deployed then
         throw ("Target does not exist: " +++ JSON_stringify_link H linkToCopy)
       else ret tt).

(* ------------------------------------------------------------------ *)
(** *** [deployScenario] (lines 304-373) *)

(** Lines 309-319: the target root and the source root. *)
Definition deployScenario_target (targetFolderParameter : option string)
  : M unit :=
  (if truthy targetFolderParameter then
     modify (set_targetRootFolder
               (path_resolve H (orEmptyString targetFolderParameter))) ;;
     st <- get ;;
     if negb (FileSystem_exists F (disk st) (_targetRootFolder st)) then
       throw ("The specified target folder does not exist: "
                +++ JSON_stringify H (orEmptyString targetFolderParameter))
     else ret tt
   else
     modify (set_targetRootFolder (path_join H (commonFolder R) "deploy"))) ;;
  modify (set_sourceRootFolder (rushJsonFolder R)) ;;
  st <- get ;;
  console_log ("Deploying to target folder: " +++ _targetRootFolder st).

(** Lines 321-332: the target folder is made ready. *)
Definition deployScenario_prepare (overwriteExisting : bool) : M unit :=
  st <- get ;;
  fs_do (EnsureFolder (_targetRootFolder st)) ;;
  st <- get ;;
  (* Is the target folder empty? *)
  if Nat.ltb 0
       (List.length (FileSystem_readFolder F (disk st) (_targetRootFolder st)))
  then
    if overwriteExisting then
      console_log ("Deleting folder contents because " +++ quoted "--overwrite"
                     +++ " was specified...") ;;
      fs_do (EnsureEmptyFolder (_targetRootFolder st))
    else
      throw ("The deploy target folder is not empty. You can specify "
               +++ quoted "--overwrite"
               +++ " to recursively delete all folder contents.")
  else ret tt.

(** The loop of lines 336-362; [usedSubdeploymentFolderNames] is the set
    built up across its iterations. *)
Fixpoint deployScenario_subdeployments (fuel : nat)
  (subdeploymentProjectNames : list string)
  (usedSubdeploymentFolderNames : list string) : M unit :=
  match subdeploymentProjectNames with
  | [] => ret tt
  | subdeploymentProjectName :: rest =>
      match getProjectByName R subdeploymentProjectName with
      | None =>
          throw ("The subdeploymentProjects specified the name "
                   +++ quoted subdeploymentProjectName
                   +++ " which was not found in rush.json")
      | Some rushProject =>
          st <- get ;;
          let projectSettings :=
            Map_get subdeploymentProjectName
              (_deployScenarioProjectJsonsByName st) in
          let subdeploymentFolderName :=
            match projectSettings with
            | Some settings =>
                if truthy (subdeploymentFolderName settings)
                then orEmptyString (subdeploymentFolderName settings)
                else getUnscopedName R subdeploymentProjectName
            | None => getUnscopedName R subdeploymentProjectName
            end in
          if Set_has subdeploymentFolderName usedSubdeploymentFolderNames then
            throw ("The subdeployment folder name "
                     +++ quoted subdeploymentFolderName +++ " is not unique."
                     +++ "  Use the " +++ quoted "subdeploymentFolderName"
                     +++ " setting to specify a different name.")
          else
            console_log (newline +++ "Preparing subdeployment for "
                           +++ quoted subdeploymentFolderName) ;;
            deploySubdeployment fuel [subdeploymentProjectName]
              (Some subdeploymentFolderName) ;;
            deployScenario_subdeployments fuel rest
              (Set_add subdeploymentFolderName usedSubdeploymentFolderNames)
      end
  end.

(** Lines 334-372: the subdeployments, then "SUCCESS". *)
Definition deployScenario_deploy (fuel : nat) : M unit :=
  st <- get ;;
  let json := _deployScenarioJson st in
  (if match subdeployments json with
      | Some sub => truthyBool (enabled sub)
      | None => false
      end
   then
     deployScenario_subdeployments fuel
       (match subdeployments json with
        | Some sub => orEmpty (subdeploymentProjects sub)
        | None => []
        end) []
   else
     if match projectSettings json with
        | Some settings => Nat.eqb (List.length settings) 0
        | None => true
        end
     then
       throw ("No projects were specified to be deployed."
                +++ " If subdeployments.enabled is false,"
                +++ " then the " +++ quoted "projectSettings"
                +++ " section must specify at least one project.")
     else
       deploySubdeployment fuel
         (map projectName (orEmpty (projectSettings json))) None) ;;
  console_log "SUCCESS".

Definition deployScenario (fuel : nat) (scenarioName : string)
  (overwriteExisting : bool) (targetFolderParameter : option string)
  : M unit :=
  loadConfigFile scenarioName ;;
  deployScenario_target targetFolderParameter ;;
  deployScenario_prepare overwriteExisting ;;
  deployScenario_deploy fuel.

(** The constructor: no scenario loaded, an empty map. *)
Definition newDeployManager (d : Disk F) : State :=
  mkState d [] [] EmptyString EmptyString
    (mkScenarioJson None None None None None) []
    (mkSubdeploymentState EmptyString [] []).

(* ================================================================== *)
(** ** Vocabulary of the properties *)

(** The call lines 219-250 make for a link of kind [k]. *)
Definition deploySymlink_call (k : LinkKind)
  (relativeTargetPath newLinkPath : string) : FsOp :=
  if process_platform H =? "win32" then
    match k with
    | folderLink => CreateSymbolicLinkJunction relativeTargetPath newLinkPath
    | fileLink => CreateHardLink relativeTargetPath newLinkPath
    end
  else
    match k with
    | folderLink => CreateSymbolicLinkFolder relativeTargetPath newLinkPath
    | fileLink => CreateSymbolicLinkFile relativeTargetPath newLinkPath
    end.

(** The path a source path is remapped to. *)
Definition remapped (st : State) (absolutePath : string) : string :=
  path_join H (targetSubdeploymentFolder (subdemploymentState st))
    (path_relative H (_sourceRootFolder st) absolutePath).

(** What [_collectFoldersRecursive] may change: the recorder and
    [foldersToCopy], which only grows and stays free of repetitions. *)
Definition extends (st st' : State) : Prop :=
  disk st' = disk st
  /\ trace st' = trace st
  /\ console st' = console st
  /\ _targetRootFolder st' = _targetRootFolder st
  /\ _sourceRootFolder st' = _sourceRootFolder st
  /\ _deployScenarioJson st' = _deployScenarioJson st
  /\ _deployScenarioProjectJsonsByName st'
     = _deployScenarioProjectJsonsByName st
  /\ targetSubdeploymentFolder (subdemploymentState st')
     = targetSubdeploymentFolder (subdemploymentState st)
  /\ incl (foldersToCopy (subdemploymentState st))
       (foldersToCopy (subdemploymentState st'))
  /\ (NoDup (foldersToCopy (subdemploymentState st)) ->
      NoDup (foldersToCopy (subdemploymentState st'))).

(** How many folders of [U] are not yet in the set [s]. *)
Definition countMissing (s U : list string) : nat :=
  List.length (filter (fun u => negb (Set_has u s)) U).

Definition missing (U : list string) (st : State) : nat :=
  countMissing (foldersToCopy (subdemploymentState st)) U.

(** The manifests that the package.json lookup can answer with all lie in
    the folders of [U]: the disk holds finitely many packages. *)
Definition manifests_within (d : Disk F) (U : list string) : Prop :=
  forall resolved p,
    tryGetPackageJsonFilePathFor F d resolved = Some p ->
    In (path_dirname H p) U.






(** Where the scenario [scenarioName] is read from. *)
Definition scenarioPath (scenarioName : string) : string :=
  path_join H (path_join H (commonFolder R) "config/deploy-scenarios")
    (scenarioName +++ ".json").

(** The target root that lines 309-316 settle on. *)
Definition targetRootOf (targetFolderParameter : option string) : string :=
  if truthy targetFolderParameter
  then path_resolve H (orEmptyString targetFolderParameter)
  else path_join H (commonFolder R) "deploy".

(** Scenario loading touches nothing but the two scenario fields. *)
Definition loadsOnly (st st' : State) : Prop :=
  disk st' = disk st
  /\ trace st' = trace st
  /\ console st' = console st
  /\ _targetRootFolder st' = _targetRootFolder st
  /\ _sourceRootFolder st' = _sourceRootFolder st
  /\ subdemploymentState st' = subdemploymentState st.

(* ------------------------------------------------------------------ *)
(** *** The manifest graph *)

(** [includeDevDependencies] as line 104 reads it. *)
Definition includesDev (st : State) : bool :=
  truthyBool (includeDevDependencies (_deployScenarioJson st)).

(** An edge of the manifest graph as the loop of lines 118-158 follows it:
    a name of the manifest at [p] resolves, from the folder of [p], to a
    package whose manifest is at [q]. *)
Definition dependsOn (d : Disk F) (includeDev : bool) (p q : string) : Prop :=
  exists packageJson name analyzed resolved,
    JsonFile_load_package F d p = Some packageJson
    /\ In name (allDependencyNames includeDev packageJson)
    /\ resolve_sync F d name (path_dirname H p)
       = (analyzed, ResolveReturned (Some resolved))
    /\ resolved <> EmptyString
    /\ tryGetPackageJsonFilePathFor F d resolved = Some q
    /\ q <> EmptyString.

(** The manifests that can be come to from [p] along such edges. *)
Inductive reaches (d : Disk F) (includeDev : bool) (p : string)
  : string -> Prop :=
| reaches_self : reaches d includeDev p p
| reaches_step (q r : string) :
    reaches d includeDev p q -> dependsOn d includeDev q r ->
    reaches d includeDev p r.

(** The manifest paths the resolver can be handed: the ones it is started
    on ([roots]) and the ones the package.json lookup answers with. *)
Definition isManifest (d : Disk F) (roots : list string) (q : string) : Prop :=
  In q roots \/ exists resolved, tryGetPackageJsonFilePathFor F d resolved = Some q.

(** A folder holds one manifest. *)
Definition manifestsByFolder (d : Disk F) (roots : list string) : Prop :=
  forall q q',
    isManifest d roots q -> isManifest d roots q' ->
    path_dirname H q = path_dirname H q' -> q = q'.

(** Every edge out of a manifest whose folder is in [S] leads into [S]. *)
Definition closedUnder (d : Disk F) (includeDev : bool) (roots : list string)
  (S : list string) : Prop :=
  forall q,
    isManifest d roots q -> In (path_dirname H q) S ->
    forall r, dependsOn d includeDev q r -> In (path_dirname H r) S.

(** The folders added are folders of manifests reachable from [p]. *)
Definition onlyReachable (d : Disk F) (includeDev : bool) (p : string)
  (st st' : State) : Prop :=
  disk st = d -> includesDev st = includeDev ->
  disk st' = d /\ includesDev st' = includeDev
  /\ forall f,
       In f (foldersToCopy (subdemploymentState st')) ->
       In f (foldersToCopy (subdemploymentState st))
       \/ exists q, reaches d includeDev p q /\ f = path_dirname H q.

(** The resolver returned: the folder of [p] is recorded, and every edge
    out of a manifest whose folder was added leads to a recorded folder. *)
Definition closesNew (d : Disk F) (includeDev : bool) (roots : list string)
  (p : string) (st st' : State) : Prop :=
  In (path_dirname H p) (foldersToCopy (subdemploymentState st'))
  /\ forall q,
       isManifest d roots q ->
       In (path_dirname H q) (foldersToCopy (subdemploymentState st')) ->
       ~ In (path_dirname H q) (foldersToCopy (subdemploymentState st)) ->
       forall r,
         dependsOn d includeDev q r ->
         In (path_dirname H r) (foldersToCopy (subdemploymentState st')).

(** The names asked for by the settings of the projects of [names]. *)
Definition additionalOf (byName : list (string * IDeployScenarioProjectJson))
  (names : list string) (n : string) : Prop :=
  exists p settings additional,
    In p names
    /\ Map_get p byName = Some settings
    /\ additionalProjectsToInclude settings = Some additional
    /\ In n additional.

(** The project is in rush.json. *)
Definition registered (name : string) : Prop :=
  isSome (getProjectByName R name) = true.

(** The last entry of [settings] for the project [name]. *)
Definition lastSettingFor (name : string)
  (settings : list IDeployScenarioProjectJson)
  : option IDeployScenarioProjectJson :=
  find (fun setting => projectName setting =? name) (rev settings).

(** The error of line 75 for the project [name]. *)
Definition unknownProjectSetting (name : string) : string :=
  "The " +++ quoted "projectSettings"
    +++ " section refers to the project name " +++ quoted name
    +++ " which was not found in rush.json".

(** A write call of the folder copy, and one of the link re-creation. *)
Definition isCopyCall (op : FsOp) : Prop :=
  match op with
  | CopyFolder _ _ | CopyFile _ _ => True
  | _ => False
  end.

Definition isLinkCall (op : FsOp) : Prop :=
  match op with
  | EnsureFolder _
  | CreateSymbolicLinkJunction _ _
  | CreateHardLink _ _
  | CreateSymbolicLinkFolder _ _
  | CreateSymbolicLinkFile _ _ => True
  | _ => False
  end.

(** From [st] to [st'] only write calls that satisfy [P] were made, and the
    fields of the manager (roots, scenario, map) were left alone. *)
Definition writes (P : FsOp -> Prop) (st st' : State) : Prop :=
  (exists ops, trace st' = trace st ++ ops /\ Forall P ops)
  /\ _targetRootFolder st' = _targetRootFolder st
  /\ _sourceRootFolder st' = _sourceRootFolder st
  /\ _deployScenarioJson st' = _deployScenarioJson st
  /\ _deployScenarioProjectJsonsByName st'
     = _deployScenarioProjectJsonsByName st.

(** The folder name of a subdeployment project (lines 344-352). *)
Definition subdeploymentFolderNameOf
  (byName : list (string * IDeployScenarioProjectJson)) (name : string)
  : string :=
  match Map_get name byName with
  | Some settings =>
      if truthy (subdeploymentFolderName settings)
      then orEmptyString (subdeploymentFolderName settings)
      else getUnscopedName R name
  | None => getUnscopedName R name
  end.

(* ================================================================== *)
(** ** Properties *)

(* ------------------------------------------------------------------ *)
(** *** Sets *)

Lemma Set_has_In (x : string) (s : list string) :
  Set_has x s = true <-> In x s.
Proof.
  unfold Set_has. rewrite existsb_exists. split.
  - intros [y [Hy Heq]]. apply String.eqb_eq in Heq. now subst.
  - intros Hx. exists x. split; [assumption | apply String.eqb_refl].
Qed.

Lemma Set_has_not_In (x : string) (s : list string) :
  Set_has x s = false <-> ~ In x s.
Proof.
  rewrite <- Set_has_In. destruct (Set_has x s); split; congruence.
Qed.

Lemma Set_add_In (x y : string) (s : list string) :
  In y (Set_add x s) <-> y = x \/ In y s.
Proof.
  unfold Set_add. destruct (Set_has x s) eqn:Hx.
  - apply Set_has_In in Hx. split; [now right | intros [-> | Hy]; assumption].
  - rewrite in_app_iff. simpl. intuition congruence.
Qed.

Lemma Set_addAll_In (names : list string) :
  forall (s : list string) (y : string),
    In y (Set_addAll names s) <-> In y names \/ In y s.
Proof.
  unfold Set_addAll. induction names as [|n names IH]; intros s y; simpl.
  - intuition.
  - rewrite IH, Set_add_In. intuition congruence.
Qed.

Lemma Set_add_NoDup (x : string) (s : list string) :
  NoDup s -> NoDup (Set_add x s).
Proof.
  intros Hs. unfold Set_add. destruct (Set_has x s) eqn:Hx; [assumption|].
  apply Set_has_not_In in Hx.
  apply NoDup_app; [assumption | repeat constructor; intros [] | ].
  intros y Hy [<- | []]. contradiction.
Qed.

(** What the four loops of lines 101-116 leave in the two sets. *)
Lemma dependency_names_membership (includeDev : bool)
  (packageJson : IPackageJson)
  (name : string) :
  (In name (allDependencyNames includeDev packageJson) <->
     In name (Object_keys (dependencies packageJson))
     \/ (includeDev = true
         /\ In name (Object_keys (devDependencies packageJson)))
     \/ In name (Object_keys (peerDependencies packageJson))
     \/ In name (Object_keys (optionalDependencies packageJson)))
  /\ (In name (optionalDependencyNames packageJson) <->
       In name (Object_keys (peerDependencies packageJson))
       \/ In name (Object_keys (optionalDependencies packageJson)))
  /\ (In name (Object_keys (dependencies packageJson))
       /\ In name (Object_keys (peerDependencies packageJson)) ->
       In name (allDependencyNames includeDev packageJson)
       /\ Set_has name (optionalDependencyNames packageJson) = true).
Proof.
  assert (Hall : In name (allDependencyNames includeDev packageJson) <->
     In name (Object_keys (dependencies packageJson))
     \/ (includeDev = true
         /\ In name (Object_keys (devDependencies packageJson)))
     \/ In name (Object_keys (peerDependencies packageJson))
     \/ In name (Object_keys (optionalDependencies packageJson))).
  { unfold allDependencyNames. destruct includeDev;
      repeat rewrite Set_addAll_In; simpl; intuition congruence. }
  assert (Hopt : In name (optionalDependencyNames packageJson) <->
       In name (Object_keys (peerDependencies packageJson))
       \/ In name (Object_keys (optionalDependencies packageJson))).
  { unfold optionalDependencyNames. repeat rewrite Set_addAll_In. simpl.
    intuition. }
  split; [exact Hall | split; [exact Hopt |]].
  intros [Hdep Hpeer]. split.
  - apply Hall. now left.
  - apply Set_has_In, Hopt. now left.
Qed.

(* ------------------------------------------------------------------ *)
(** *** Path remapping *)

Lemma remapPathForDeployFolder_under (absolutePath : string) (st : State) :
  Path_isUnderOrEqual H absolutePath (_sourceRootFolder st) = true ->
  remapPathForDeployFolder absolutePath st =
    (Returned
       (path_join H (targetSubdeploymentFolder (subdemploymentState st))
          (path_relative H (_sourceRootFolder st) absolutePath)),
     st).
Proof.
  intros Hunder. unfold remapPathForDeployFolder, bind, get.
  rewrite Hunder. reflexivity.
Qed.

Lemma remapPathForDeployFolder_outside (absolutePath : string) (st : State) :
  Path_isUnderOrEqual H absolutePath (_sourceRootFolder st) = false ->
  remapPathForDeployFolder absolutePath st =
    (Threw ("Source path is not under " +++ _sourceRootFolder st
              +++ newline +++ absolutePath),
     st).
Proof.
  intros Hunder. unfold remapPathForDeployFolder, bind, get.
  rewrite Hunder. reflexivity.
Qed.

(* ------------------------------------------------------------------ *)
(** *** Link re-creation *)

(** [_deploySymlink] once both remappings have gone through. *)
Lemma deploySymlink_remapped (l : ILinkInfo) (st : State) :
  Path_isUnderOrEqual H (linkPath l) (_sourceRootFolder st) = true ->
  Path_isUnderOrEqual H (targetPath l) (_sourceRootFolder st) = true ->
  deploySymlink l st =
    if negb (FileSystem_exists F (disk st) (remapped st (targetPath l)))
    then (Returned false, st)
    else
      match fs_apply F (EnsureFolder (path_dirname H (remapped st (linkPath l))))
              (disk st) with
      | None => (Threw "file system error", st)
      | Some d1 =>
          let st1 :=
            set_disk d1
              (EnsureFolder (path_dirname H (remapped st (linkPath l)))) st in
          let op :=
            deploySymlink_call (kind l)
              (path_relative H
                 (FileSystem_getRealPath F d1
                    (path_dirname H (remapped st (linkPath l))))
                 (remapped st (targetPath l)))
              (remapped st (linkPath l)) in
          match fs_apply F op d1 with
          | None => (Threw "file system error", st1)
          | Some d2 => (Returned true, set_disk d2 op st1)
          end
      end.
Proof.
  intros Hlink Htarget.
  unfold deploySymlink, bind.
  rewrite (remapPathForDeployFolder_under (linkPath l) st Hlink).
  rewrite (remapPathForDeployFolder_under (targetPath l) st Htarget).
  fold (remapped st (linkPath l)). fold (remapped st (targetPath l)).
  unfold get at 1. cbn [kind linkPath targetPath].
  destruct (FileSystem_exists F (disk st) (remapped st (targetPath l)));
    [|reflexivity].
  cbn [negb]. unfold fs_do at 1.
  destruct (fs_apply F _ (disk st)) as [d1|]; [|reflexivity].
  unfold get. cbn [disk set_disk]. unfold deploySymlink_call.
  destruct (process_platform H =? "win32"), (kind l); unfold fs_do;
    cbn [disk set_disk];
    match goal with
    | |- context [fs_apply F ?op d1] => destruct (fs_apply F op d1)
    end; reflexivity.
Qed.

(* ------------------------------------------------------------------ *)
(** *** Loops *)

Lemma forOf_cons {A : Type} (x : A) (xs : list A) (body : A -> M unit)
  (st : State) :
  forOf (x :: xs) body st =
    match body x st with
    | (Returned _, st') => forOf xs body st'
    | (Threw message, st') => (Threw message, st')
    | (OutOfFuel, st') => (OutOfFuel, st')
    end.
Proof. reflexivity. Qed.

(** A relation between the state before and after, kept by every turn of a
    loop, is kept by the loop. *)
Lemma forOf_preserves {A : Type} (Rel : State -> State -> Prop)
  (body : A -> M unit) :
  (forall st, Rel st st) ->
  (forall a b c, Rel a b -> Rel b c -> Rel a c) ->
  (forall x st, Rel st (snd (body x st))) ->
  forall xs st, Rel st (snd (forOf xs body st)).
Proof.
  intros Hrefl Htrans Hbody xs.
  induction xs as [|x xs IH]; intros st.
  - apply Hrefl.
  - rewrite forOf_cons. specialize (Hbody x st).
    destruct (body x st) as [[u | message |] st']; cbn [snd] in *;
      eauto.
Qed.

(** A loop whose turns never reach the fuel bound does not reach it. *)
Lemma forOf_fuel {A : Type} (J : State -> Prop) (body : A -> M unit) :
  (forall x st, J st -> J (snd (body x st))) ->
  (forall x st, J st -> fst (body x st) <> OutOfFuel) ->
  forall xs st, J st -> fst (forOf xs body st) <> OutOfFuel.
Proof.
  intros Hkeep Hbody xs.
  induction xs as [|x xs IH]; intros st HJ.
  - discriminate.
  - rewrite forOf_cons.
    specialize (Hkeep x st HJ). specialize (Hbody x st HJ).
    destruct (body x st) as [[u | message |] st']; cbn [fst snd] in *.
    + apply IH, Hkeep.
    + discriminate.
    + contradiction.
Qed.

(* ------------------------------------------------------------------ *)
(** *** The resolver *)

Lemma extends_refl (st : State) : extends st st.
Proof. unfold extends. intuition auto using incl_refl. Qed.

Lemma extends_trans (a b c : State) :
  extends a b -> extends b c -> extends a c.
Proof.
  unfold extends. intros Hab Hbc.
  repeat match goal with
         | Hc : _ /\ _ |- _ => destruct Hc
         end.
  repeat split; try congruence; eauto using incl_tran.
Qed.

Lemma extends_analyzePaths (ps : list string) (st : State) :
  extends st (analyzePaths ps st).
Proof. unfold extends. cbn. intuition auto using incl_refl. Qed.

Lemma extends_foldersToCopy_add (p : string) (st : State) :
  extends st (foldersToCopy_add p st).
Proof.
  unfold extends. cbn. repeat split; try reflexivity.
  - intros x Hx. apply Set_add_In. now right.
  - apply Set_add_NoDup.
Qed.

Lemma collectDependency_extends (recurse : string -> M unit)
  (packageJsonPath folder : string) (lenient : list string) (name : string) :
  (forall p st, extends st (snd (recurse p st))) ->
  forall st,
    extends st
      (snd (collectDependency recurse packageJsonPath folder lenient name st)).
Proof.
  intros Hrec st. unfold collectDependency, bind, get.
  destruct (resolve_sync F (disk st) name folder) as [analyzed result].
  unfold modify. pose proof (extends_analyzePaths analyzed st) as Han.
  destruct result as [resolved | message]; [|exact Han].
  destruct (truthy resolved); cbn [negb].
  - destruct (truthy (tryGetPackageJsonFilePathFor F (disk st)
                        (orEmptyString resolved))); cbn [negb].
    + eapply extends_trans; [exact Han | apply Hrec].
    + exact Han.
  - destruct (Set_has name lenient); exact Han.
Qed.

(** [_collectFoldersRecursive] with a new folder and a manifest that loads:
    the folder is recorded and the loop over the names runs. *)
Lemma collectFoldersRecursive_descend (fuel : nat) (packageJsonPath : string)
  (packageJson : IPackageJson) (st : State) :
  Set_has (path_dirname H packageJsonPath)
    (foldersToCopy (subdemploymentState st)) = false ->
  JsonFile_load_package F (disk st) packageJsonPath = Some packageJson ->
  collectFoldersRecursive (S fuel) packageJsonPath st =
    forOf
      (allDependencyNames
         (truthyBool (includeDevDependencies (_deployScenarioJson st)))
         packageJson)
      (collectDependency (collectFoldersRecursive fuel) packageJsonPath
         (path_dirname H packageJsonPath)
         (optionalDependencyNames packageJson))
      (foldersToCopy_add (path_dirname H packageJsonPath) st).
Proof.
  intros Hnew Hload. cbn [collectFoldersRecursive]. unfold bind, get.
  rewrite Hnew. cbn [negb]. unfold modify. rewrite Hload. reflexivity.
Qed.

(** A manifest whose folder is already recorded: nothing happens. *)
Lemma collectFoldersRecursive_present (fuel : nat) (packageJsonPath : string)
  (st : State) :
  Set_has (path_dirname H packageJsonPath)
    (foldersToCopy (subdemploymentState st)) = true ->
  collectFoldersRecursive (S fuel) packageJsonPath st = (Returned tt, st).
Proof.
  intros Hold. cbn [collectFoldersRecursive]. unfold bind, get.
  rewrite Hold. reflexivity.
Qed.

Lemma collectFoldersRecursive_extends (fuel : nat) :
  forall packageJsonPath st,
    extends st (snd (collectFoldersRecursive fuel packageJsonPath st)).
Proof.
  induction fuel as [|fuel IH]; intros p st.
  - apply extends_refl.
  - destruct (Set_has (path_dirname H p)
                (foldersToCopy (subdemploymentState st))) eqn:Hhas.
    + rewrite collectFoldersRecursive_present by assumption.
      apply extends_refl.
    + destruct (JsonFile_load_package F (disk st) p) as [packageJson|] eqn:Hload.
      * rewrite (collectFoldersRecursive_descend fuel p packageJson st Hhas Hload).
        eapply extends_trans; [apply extends_foldersToCopy_add|].
        apply forOf_preserves;
          [apply extends_refl | apply extends_trans |].
        intros name st'. apply collectDependency_extends, IH.
      * cbn [collectFoldersRecursive]. unfold bind, get. rewrite Hhas.
        cbn [negb]. unfold modify. rewrite Hload.
        apply extends_foldersToCopy_add.
Qed.

(** Lines 143-149, were [resolve.sync] to hand back a falsy value: a name
    in [optionalDependencyNames] is passed over and the loop goes on with
    the remaining names; for another name the loop throws an error made of
    the name and of the path of the requiring manifest. *)
Lemma falsy_resolution (fuel : nat) (packageJsonPath : string)
  (lenient : list string) (dependencyPackageName : string)
  (rest : list string) (st : State) (analyzed : list string)
  (resolvedDependency : option string) :
  resolve_sync F (disk st) dependencyPackageName
    (path_dirname H packageJsonPath)
    = (analyzed, ResolveReturned resolvedDependency) ->
  truthy resolvedDependency = false ->
  forOf (dependencyPackageName :: rest)
    (collectDependency (collectFoldersRecursive fuel) packageJsonPath
       (path_dirname H packageJsonPath) lenient) st
  = if Set_has dependencyPackageName lenient then
      forOf rest
        (collectDependency (collectFoldersRecursive fuel) packageJsonPath
           (path_dirname H packageJsonPath) lenient)
        (analyzePaths analyzed st)
    else
      (Threw ("Error resolving " +++ dependencyPackageName +++ " from "
                +++ packageJsonPath),
       analyzePaths analyzed st).
Proof.
  intros Hresolve Hfalsy. rewrite forOf_cons.
  unfold collectDependency at 1. unfold bind, get.
  rewrite Hresolve. unfold modify. rewrite Hfalsy. cbn [negb].
  destruct (Set_has dependencyPackageName lenient); reflexivity.
Qed.

(** An exception of [resolve.sync] leaves lines 119-141 as it is: nothing up
    to line 149 catches it, whatever [optionalDependencyNames] holds. *)
Lemma resolution_failure_aborts (recurse : string -> M unit)
  (packageJsonPath packageJsonFolderPath : string) (lenient : list string)
  (dependencyPackageName : string) (rest : list string) (st : State)
  (analyzed : list string) (message : string) :
  resolve_sync F (disk st) dependencyPackageName packageJsonFolderPath
    = (analyzed, ResolveThrew message) ->
  forOf (dependencyPackageName :: rest)
    (collectDependency recurse packageJsonPath packageJsonFolderPath lenient)
    st
  = (Threw message, analyzePaths analyzed st).
Proof.
  intros Hresolve. rewrite forOf_cons.
  unfold collectDependency, bind, get. rewrite Hresolve. reflexivity.
Qed.

(* ------------------------------------------------------------------ *)
(** *** Termination of the resolver *)

Lemma countMissing_le (s U : list string) :
  countMissing s U <= List.length U.
Proof. apply filter_length_le. Qed.

Lemma countMissing_mono (s s' U : list string) :
  incl s s' -> countMissing s' U <= countMissing s U.
Proof.
  intros Hincl. unfold countMissing.
  induction U as [|u U IH]; cbn [filter]; [lia|].
  destruct (Set_has u s') eqn:Hs'; destruct (Set_has u s) eqn:Hs;
    cbn [negb List.length]; try lia.
  apply Set_has_In, Hincl, Set_has_In in Hs. congruence.
Qed.

Lemma countMissing_add (s U : list string) (p : string) :
  In p U -> Set_has p s = false ->
  countMissing (Set_add p s) U < countMissing s U.
Proof.
  intros Hin Hnew.
  assert (Hincl : incl s (Set_add p s)).
  { intros x Hx. apply Set_add_In. now right. }
  induction U as [|u U IH]; [destruct Hin|].
  pose proof (countMissing_mono s (Set_add p s) U Hincl) as Hle.
  unfold countMissing in *. cbn [filter].
  destruct Hin as [-> | Hin].
  - rewrite Hnew.
    assert (Hhas : Set_has p (Set_add p s) = true).
    { apply Set_has_In, Set_add_In. now left. }
    rewrite Hhas. cbn [negb List.length]. lia.
  - specialize (IH Hin).
    destruct (Set_has u (Set_add p s)) eqn:Hs'; destruct (Set_has u s) eqn:Hs;
      cbn [negb List.length]; try lia.
    apply Set_has_In, Hincl, Set_has_In in Hs. congruence.
Qed.

Lemma collectDependency_fuel (U : list string) (fuel : nat) (d : Disk F) :
  manifests_within d U ->
  (forall p st,
     disk st = d -> In (path_dirname H p) U -> missing U st < fuel ->
     fst (collectFoldersRecursive fuel p st) <> OutOfFuel) ->
  forall packageJsonPath folder lenient names st,
    disk st = d -> missing U st < fuel ->
    fst (forOf names
           (collectDependency (collectFoldersRecursive fuel) packageJsonPath
              folder lenient) st) <> OutOfFuel.
Proof.
  intros Hwithin Hrec packageJsonPath folder lenient names st Hdisk Hmissing.
  apply (forOf_fuel (fun st' => disk st' = d /\ missing U st' < fuel));
    [| | split; assumption].
  - intros name st' [Hd Hm].
    pose proof (collectDependency_extends (collectFoldersRecursive fuel)
                  packageJsonPath folder lenient name
                  (collectFoldersRecursive_extends fuel) st') as Hext.
    destruct Hext as (Hd' & _ & _ & _ & _ & _ & _ & _ & Hincl & _).
    split; [congruence|].
    pose proof (countMissing_mono _ _ U Hincl). unfold missing in *. lia.
  - intros name st' [Hd Hm]. unfold collectDependency, bind, get.
    destruct (resolve_sync F (disk st') name folder) as [analyzed result].
    unfold modify.
    destruct result as [resolved | message]; [|discriminate].
    destruct (truthy resolved); cbn [negb];
      [|destruct (Set_has name lenient); discriminate].
    destruct (tryGetPackageJsonFilePathFor F (disk st')
                (orEmptyString resolved)) as [p|] eqn:Hlookup;
      [|discriminate].
    destruct (truthy (Some p)); cbn [negb]; [|discriminate].
    cbn [orEmptyString]. apply Hrec.
    + cbn. assumption.
    + rewrite Hd in Hlookup. eapply Hwithin, Hlookup.
    + exact Hm.
Qed.

Lemma collectFoldersRecursive_fuel (U : list string) (d : Disk F) :
  manifests_within d U ->
  forall fuel p st,
    disk st = d -> In (path_dirname H p) U -> missing U st < fuel ->
    fst (collectFoldersRecursive fuel p st) <> OutOfFuel.
Proof.
  intros Hwithin fuel.
  induction fuel as [|fuel IH]; intros p st Hdisk Hin Hmissing; [lia|].
  destruct (Set_has (path_dirname H p)
              (foldersToCopy (subdemploymentState st))) eqn:Hhas.
  - rewrite collectFoldersRecursive_present by assumption. discriminate.
  - destruct (JsonFile_load_package F (disk st) p) as [packageJson|] eqn:Hload.
    + rewrite (collectFoldersRecursive_descend fuel p packageJson st Hhas Hload).
      apply (collectDependency_fuel U fuel d Hwithin IH).
      * cbn. assumption.
      * pose proof (countMissing_add _ U _ Hin Hhas).
        unfold missing in *. cbn. lia.
    + cbn [collectFoldersRecursive]. unfold bind, get. rewrite Hhas.
      cbn [negb]. unfold modify. rewrite Hload. discriminate.
Qed.

(** Once the fuel is enough, more fuel changes nothing. *)
Lemma forOf_more_fuel {A : Type} (body body' : A -> M unit) :
  (forall x st, fst (body x st) <> OutOfFuel -> body' x st = body x st) ->
  forall xs st,
    fst (forOf xs body st) <> OutOfFuel ->
    forOf xs body' st = forOf xs body st.
Proof.
  intros Hbody xs. induction xs as [|x xs IH]; intros st Hfuel; [reflexivity|].
  rewrite forOf_cons in Hfuel. rewrite !forOf_cons.
  specialize (Hbody x st).
  destruct (body x st) as [[u | message |] st']; cbn [fst] in *.
  - rewrite Hbody by discriminate. apply IH, Hfuel.
  - rewrite Hbody by discriminate. reflexivity.
  - contradiction.
Qed.

Lemma collectDependency_more_fuel (recurse recurse' : string -> M unit)
  (packageJsonPath folder : string) (lenient : list string) (name : string) :
  (forall p st, fst (recurse p st) <> OutOfFuel -> recurse' p st = recurse p st) ->
  forall st,
    fst (collectDependency recurse packageJsonPath folder lenient name st)
      <> OutOfFuel ->
    collectDependency recurse' packageJsonPath folder lenient name st
    = collectDependency recurse packageJsonPath folder lenient name st.
Proof.
  intros Hrec st. unfold collectDependency, bind, get.
  destruct (resolve_sync F (disk st) name folder) as [analyzed result].
  unfold modify.
  destruct result as [resolved | message]; [|reflexivity].
  destruct (truthy resolved); cbn [negb]; [|reflexivity].
  destruct (truthy (tryGetPackageJsonFilePathFor F (disk st)
                      (orEmptyString resolved))); cbn [negb];
    [|reflexivity].
  apply Hrec.
Qed.

Lemma collectFoldersRecursive_S (fuel : nat) :
  forall p st,
    fst (collectFoldersRecursive fuel p st) <> OutOfFuel ->
    collectFoldersRecursive (S fuel) p st = collectFoldersRecursive fuel p st.
Proof.
  induction fuel as [|fuel IH]; intros p st Hfuel.
  - cbn in Hfuel. contradiction.
  - destruct (Set_has (path_dirname H p)
                (foldersToCopy (subdemploymentState st))) eqn:Hhas.
    + now rewrite !collectFoldersRecursive_present.
    + destruct (JsonFile_load_package F (disk st) p) as [packageJson|] eqn:Hload.
      * rewrite (collectFoldersRecursive_descend fuel p packageJson st Hhas
                   Hload) in Hfuel.
        rewrite (collectFoldersRecursive_descend (S fuel) p packageJson st Hhas
                   Hload).
        rewrite (collectFoldersRecursive_descend fuel p packageJson st Hhas
                   Hload).
        apply forOf_more_fuel; [|exact Hfuel].
        intros name st'. apply collectDependency_more_fuel, IH.
      * cbn [collectFoldersRecursive]. unfold bind, get. rewrite Hhas.
        cbn [negb]. unfold modify. rewrite Hload. reflexivity.
Qed.

Lemma collectFoldersRecursive_more_fuel (fuel fuel' : nat) (p : string)
  (st : State) :
  fuel <= fuel' ->
  fst (collectFoldersRecursive fuel p st) <> OutOfFuel ->
  collectFoldersRecursive fuel' p st = collectFoldersRecursive fuel p st.
Proof.
  intros Hle Hfuel. induction Hle as [|fuel' Hle IH]; [reflexivity|].
  rewrite collectFoldersRecursive_S; [exact IH|]. rewrite IH. exact Hfuel.
Qed.

(** C4.  On a disk whose manifests lie in finitely many folders [U], the
    resolver comes to an end whatever the dependency edges are (cycles
    included): with a recursion depth of [length U + 2] it returns or throws,
    and every larger bound gives the same result.  A manifest whose folder is
    already in [foldersToCopy] is returned from at once, the state
    untouched.  [foldersToCopy] never holds a folder twice. *)
Theorem resolver_terminates (U : list string) (fuel : nat)
  (packageJsonPath : string) (st : State) :
  manifests_within (disk st) U ->
  List.length U + 2 <= fuel ->
  fst (collectFoldersRecursive (List.length U + 2) packageJsonPath st)
    <> OutOfFuel
  /\ collectFoldersRecursive fuel packageJsonPath st
     = collectFoldersRecursive (List.length U + 2) packageJsonPath st
  /\ (Set_has (path_dirname H packageJsonPath)
        (foldersToCopy (subdemploymentState st)) = true ->
      collectFoldersRecursive fuel packageJsonPath st = (Returned tt, st))
  /\ (NoDup (foldersToCopy (subdemploymentState st)) ->
      NoDup (foldersToCopy
               (subdemploymentState
                  (snd (collectFoldersRecursive fuel packageJsonPath st))))).
Proof.
  intros Hwithin Hfuel.
  assert (Hend : fst (collectFoldersRecursive (List.length U + 2)
                        packageJsonPath st) <> OutOfFuel).
  { replace (List.length U + 2) with (S (S (List.length U))) by lia.
    destruct (Set_has (path_dirname H packageJsonPath)
                (foldersToCopy (subdemploymentState st))) eqn:Hhas.
    - rewrite collectFoldersRecursive_present by assumption. discriminate.
    - destruct (JsonFile_load_package F (disk st) packageJsonPath)
        as [packageJson|] eqn:Hload.
      + rewrite (collectFoldersRecursive_descend _ _ packageJson st Hhas Hload).
        apply (collectDependency_fuel U _ (disk st) Hwithin).
        * apply collectFoldersRecursive_fuel, Hwithin.
        * reflexivity.
        * pose proof (countMissing_le
                        (foldersToCopy
                           (subdemploymentState
                              (foldersToCopy_add
                                 (path_dirname H packageJsonPath) st))) U).
          unfold missing. lia.
      + cbn [collectFoldersRecursive]. unfold bind, get. rewrite Hhas.
        cbn [negb]. unfold modify. rewrite Hload. discriminate. }
  repeat split.
  - exact Hend.
  - apply collectFoldersRecursive_more_fuel; assumption.
  - intros Hhas. destruct fuel as [|fuel]; [lia|].
    apply collectFoldersRecursive_present, Hhas.
  - apply collectFoldersRecursive_extends.
Qed.

(* ------------------------------------------------------------------ *)
(** *** Folder copy *)






Lemma deployFolder_filter_eq (ignore src : string) (t : DirTree) (st : State) :
  deployFolder_filter ignore src t st =
    if Path_isUnderOrEqual H src ignore then (Returned false, st)
    else if isSymbolicLink t then (Returned false, analyzePaths [src] st)
    else (Returned true, st).
Proof.
  unfold deployFolder_filter.
  destruct (Path_isUnderOrEqual H src ignore); [reflexivity|].
  destruct (isSymbolicLink t); reflexivity.
Qed.

Lemma copySync_unfold (filter : string -> DirTree -> M bool) (t : DirTree)
  (src dest : string) (st : State) :
  copySync filter t src dest st =
    match filter src t st with
    | (Returned true, st') =>
        match t with
        | TreeFile => fs_do (CopyFile src dest) st'
        | TreeLink => fs_do (CopyLink src dest) st'
        | TreeFolder entries =>
            (fs_do (CopyFolder src dest) ;;
             copySync_entries filter entries src dest) st'
        end
    | (Returned false, st') => (Returned tt, st')
    | (Threw message, st') => (Threw message, st')
    | (OutOfFuel, st') => (OutOfFuel, st')
    end.
Proof.
  destruct t; cbn [copySync]; unfold bind at 1;
    destruct (filter src _ st) as [[[] | message |] st']; reflexivity.
Qed.



(* ------------------------------------------------------------------ *)
(** *** The driver *)

Lemma loadsOnly_refl (st : State) : loadsOnly st st.
Proof. unfold loadsOnly. intuition. Qed.

Lemma loadsOnly_trans (a b c : State) :
  loadsOnly a b -> loadsOnly b c -> loadsOnly a c.
Proof. unfold loadsOnly. intuition congruence. Qed.

Lemma loadConfigFile_projectSetting_spec
  (projectSetting : IDeployScenarioProjectJson) (st : State) :
  loadConfigFile_projectSetting projectSetting st =
    if isSome (getProjectByName R (projectName projectSetting)) then
      (Returned tt,
       set_projectJsonsByName
         (Map_set (projectName projectSetting) projectSetting
            (_deployScenarioProjectJsonsByName st)) st)
    else
      (Threw ("The " +++ quoted "projectSettings"
                +++ " section refers to the project name "
                +++ quoted (projectName projectSetting)
                +++ " which was not found in rush.json"),
       st).
Proof.
  unfold loadConfigFile_projectSetting.
  destruct (isSome (getProjectByName R (projectName projectSetting)));
    cbn [negb]; [|reflexivity].
  unfold bind.
  assert (Hloop : forall names,
            forOf names (fun _ : string => ret tt) st = (Returned tt, st)).
  { induction names as [|name names IH]; [reflexivity|].
    rewrite forOf_cons. exact IH. }
  rewrite Hloop. reflexivity.
Qed.

Lemma loadConfigFile_settings_loadsOnly
  (settings : list IDeployScenarioProjectJson) (st : State) :
  fst (forOf settings loadConfigFile_projectSetting st) <> OutOfFuel
  /\ loadsOnly st (snd (forOf settings loadConfigFile_projectSetting st))
  /\ _deployScenarioJson
       (snd (forOf settings loadConfigFile_projectSetting st))
     = _deployScenarioJson st.
Proof.
  revert st. induction settings as [|setting settings IH]; intros st.
  - cbn [forOf ret fst snd].
    split; [discriminate|]. split; [apply loadsOnly_refl | reflexivity].
  - rewrite forOf_cons, loadConfigFile_projectSetting_spec.
    destruct (isSome (getProjectByName R (projectName setting))).
    + destruct (IH (set_projectJsonsByName
                      (Map_set (projectName setting) setting
                         (_deployScenarioProjectJsonsByName st)) st))
        as (Hfuel & Honly & Hjson).
      split; [exact Hfuel|]. split; [|exact Hjson].
      eapply loadsOnly_trans; [|exact Honly].
      unfold loadsOnly. cbn. intuition.
    + cbn [fst snd].
      split; [discriminate|]. split; [apply loadsOnly_refl | reflexivity].
Qed.

Lemma loadConfigFile_eq (scenarioName : string) (st : State) :
  loadConfigFile scenarioName st =
    if FileSystem_exists F (disk st) (scenarioPath scenarioName) then
      match JsonFile_load_scenario F (disk st) (scenarioPath scenarioName) with
      | Some json =>
          forOf (orEmpty (projectSettings json)) loadConfigFile_projectSetting
            (set_deployScenarioJson json st)
      | None => (Threw ("JsonFile.load: " +++ scenarioPath scenarioName), st)
      end
    else
      (Threw ("The scenario config file was not found: "
                +++ scenarioPath scenarioName),
       st).
Proof.
  unfold loadConfigFile. fold (scenarioPath scenarioName).
  unfold bind at 1. unfold get.
  destruct (FileSystem_exists F (disk st) (scenarioPath scenarioName));
    cbn [negb]; [|reflexivity].
  destruct (JsonFile_load_scenario F (disk st) (scenarioPath scenarioName));
    reflexivity.
Qed.

(** Scenario loading: it never writes to the disk, and when it returns the
    scenario file exists and is the scenario now held. *)
Lemma loadConfigFile_spec (scenarioName : string) (st : State) :
  fst (loadConfigFile scenarioName st) <> OutOfFuel
  /\ loadsOnly st (snd (loadConfigFile scenarioName st))
  /\ (fst (loadConfigFile scenarioName st) = Returned tt ->
      JsonFile_load_scenario F (disk st) (scenarioPath scenarioName)
      = Some (_deployScenarioJson (snd (loadConfigFile scenarioName st)))).
Proof.
  rewrite loadConfigFile_eq.
  destruct (FileSystem_exists F (disk st) (scenarioPath scenarioName)).
  - destruct (JsonFile_load_scenario F (disk st) (scenarioPath scenarioName))
      as [json|].
    + destruct (loadConfigFile_settings_loadsOnly (orEmpty (projectSettings json))
                  (set_deployScenarioJson json st))
        as (Hfuel & Honly & Hjson).
      split; [exact Hfuel|]. split.
      * eapply loadsOnly_trans; [|exact Honly].
        unfold loadsOnly. cbn. intuition.
      * intros _. rewrite Hjson. reflexivity.
    + cbn [fst snd].
      split; [discriminate|]. split; [apply loadsOnly_refl | discriminate].
  - cbn [fst snd].
    split; [discriminate|]. split; [apply loadsOnly_refl | discriminate].
Qed.

Lemma deployScenario_target_eq (targetFolderParameter : option string)
  (st : State) :
  deployScenario_target targetFolderParameter st =
    let st1 := set_targetRootFolder (targetRootOf targetFolderParameter) st in
    if truthy targetFolderParameter
       && negb (FileSystem_exists F (disk st)
                  (targetRootOf targetFolderParameter))
    then
      (Threw ("The specified target folder does not exist: "
                +++ JSON_stringify H (orEmptyString targetFolderParameter)),
       st1)
    else
      (Returned tt,
       set_console
         (console st
            ++ ["Deploying to target folder: "
                  +++ targetRootOf targetFolderParameter])
         (set_sourceRootFolder (rushJsonFolder R) st1)).
Proof.
  unfold deployScenario_target, targetRootOf.
  destruct (truthy targetFolderParameter); cbn [andb].
  - unfold bind, modify, get. cbn [_targetRootFolder set_targetRootFolder disk].
    destruct (FileSystem_exists F (disk st) _); reflexivity.
  - reflexivity.
Qed.

Lemma deployScenario_prepare_eq (overwriteExisting : bool) (st : State) :
  deployScenario_prepare overwriteExisting st =
    let target := _targetRootFolder st in
    match fs_apply F (EnsureFolder target) (disk st) with
    | None => (Threw "file system error", st)
    | Some d1 =>
        let st1 := set_disk d1 (EnsureFolder target) st in
        if Nat.ltb 0 (List.length (FileSystem_readFolder F d1 target)) then
          if overwriteExisting then
            let st2 :=
              set_console
                (console st
                   ++ ["Deleting folder contents because "
                         +++ quoted "--overwrite" +++ " was specified..."])
                st1 in
            match fs_apply F (EnsureEmptyFolder target) d1 with
            | None => (Threw "file system error", st2)
            | Some d2 => (Returned tt, set_disk d2 (EnsureEmptyFolder target) st2)
            end
          else
            (Threw ("The deploy target folder is not empty. You can specify "
                      +++ quoted "--overwrite"
                      +++ " to recursively delete all folder contents."),
             st1)
        else (Returned tt, st1)
    end.
Proof.
  unfold deployScenario_prepare, bind, get. unfold fs_do at 1.
  destruct (fs_apply F (EnsureFolder (_targetRootFolder st)) (disk st))
    as [d1|]; [|reflexivity].
  cbn [disk set_disk _targetRootFolder].
  destruct (Nat.ltb 0 _); [|reflexivity].
  destruct overwriteExisting; [|reflexivity].
  unfold console_log, modify, fs_do. cbn [disk set_disk set_console console].
  destruct (fs_apply F (EnsureEmptyFolder (_targetRootFolder st)) d1);
    reflexivity.
Qed.

Lemma length_nonempty {A : Type} (l : list A) :
  l <> [] -> Nat.ltb 0 (List.length l) = true.
Proof. destruct l; [congruence | reflexivity]. Qed.

(** The state in which line 321 is reached, when it is reached. *)
Lemma deployScenario_target_reached (scenarioName : string)
  (targetFolderParameter : option string) (st st2 : State) :
  (loadConfigFile scenarioName ;; deployScenario_target targetFolderParameter)
    st = (Returned tt, st2) ->
  disk st2 = disk st
  /\ trace st2 = trace st
  /\ _targetRootFolder st2 = targetRootOf targetFolderParameter
  /\ _sourceRootFolder st2 = rushJsonFolder R
  /\ JsonFile_load_scenario F (disk st) (scenarioPath scenarioName)
     = Some (_deployScenarioJson st2).
Proof.
  unfold bind.
  pose proof (loadConfigFile_spec scenarioName st) as (_ & Honly & Hjson).
  destruct (loadConfigFile scenarioName st) as [[[] | message |] st1];
    try discriminate.
  cbn [fst snd] in *. rewrite deployScenario_target_eq. cbv zeta.
  destruct (truthy targetFolderParameter && _); [discriminate|].
  intros Heq. inversion Heq; subst st2. clear Heq.
  destruct Honly as (Hdisk & Htrace & _). cbn.
  repeat split; try assumption. now apply Hjson.
Qed.

Ltac guard_done Htrace :=
  split; [reflexivity|]; cbn; rewrite Htrace, ?app_nil_r, <- ?app_assoc;
  split; [reflexivity | repeat constructor].

(** C9.  When the target folder, once line 321 has made sure it is there,
    is not empty: without the overwrite flag the run ends with an error and
    has made no write call other than that [ensureFolder] (no copy, no
    deletion); with the flag, once the scenario is loaded and the target is
    settled, the run calls [ensureEmptyFolder] on the target and goes on to
    the subdeployments from there (as long as the two calls go through). *)
Theorem nonempty_target_guard (fuel : nat) (scenarioName : string)
  (overwriteExisting : bool) (targetFolderParameter : option string)
  (st : State) :
  (forall d1,
     fs_apply F (EnsureFolder (targetRootOf targetFolderParameter)) (disk st)
     = Some d1 ->
     FileSystem_readFolder F d1 (targetRootOf targetFolderParameter) <> []) ->
  (overwriteExisting = false ->
   exists (message : string) (ops : list FsOp),
     fst (deployScenario fuel scenarioName overwriteExisting
            targetFolderParameter st) = Threw message
     /\ trace (snd (deployScenario fuel scenarioName overwriteExisting
                      targetFolderParameter st)) = trace st ++ ops
     /\ Forall
          (fun op => op = EnsureFolder (targetRootOf targetFolderParameter))
          ops)
  /\ (overwriteExisting = true ->
      forall (st2 : State) (d1 d2 : Disk F),
        (loadConfigFile scenarioName ;;
         deployScenario_target targetFolderParameter) st = (Returned tt, st2) ->
        fs_apply F (EnsureFolder (targetRootOf targetFolderParameter)) (disk st)
        = Some d1 ->
        fs_apply F (EnsureEmptyFolder (targetRootOf targetFolderParameter)) d1
        = Some d2 ->
        exists st3 : State,
          deployScenario fuel scenarioName overwriteExisting
            targetFolderParameter st = deployScenario_deploy fuel st3
          /\ disk st3 = d2
          /\ trace st3 =
               trace st
                 ++ [EnsureFolder (targetRootOf targetFolderParameter);
                     EnsureEmptyFolder (targetRootOf targetFolderParameter)]
          /\ _deployScenarioJson st3 = _deployScenarioJson st2
          /\ _deployScenarioProjectJsonsByName st3
             = _deployScenarioProjectJsonsByName st2).
Proof.
  intros Hnonempty. split; intros ->.
  - assert (Hrun : exists (message : string) (st' : State) (ops : list FsOp),
               deployScenario fuel scenarioName false targetFolderParameter st
               = (Threw message, st')
               /\ trace st' = trace st ++ ops
               /\ Forall
                    (fun op =>
                       op = EnsureFolder (targetRootOf targetFolderParameter))
                    ops).
    { pose proof (loadConfigFile_spec scenarioName st) as (Hfuel & Honly & _).
      unfold deployScenario. unfold bind at 1.
      destruct (loadConfigFile scenarioName st) as [[[] | message |] st1];
        cbn [fst snd] in *; destruct Honly as (Hdisk & Htrace & _).
      + unfold bind at 1. rewrite deployScenario_target_eq. cbv zeta.
        destruct (truthy targetFolderParameter && _).
        * eexists. eexists. exists []. guard_done Htrace.
        * unfold bind at 1. rewrite deployScenario_prepare_eq.
          cbn [_targetRootFolder set_console set_sourceRootFolder
                 set_targetRootFolder disk]. cbv zeta.
          rewrite Hdisk.
          destruct (fs_apply F
                      (EnsureFolder (targetRootOf targetFolderParameter))
                      (disk st)) as [d1|] eqn:Hensure.
          -- rewrite (length_nonempty _ (Hnonempty d1 eq_refl)).
             eexists. eexists.
             exists [EnsureFolder (targetRootOf targetFolderParameter)].
             guard_done Htrace.
          -- eexists. eexists. exists []. guard_done Htrace.
      + eexists. eexists. exists []. guard_done Htrace.
      + contradiction. }
    destruct Hrun as (message & st' & ops & -> & Htrace & Hops).
    exists message, ops. cbn [fst snd]. auto.
  - intros st2 d1 d2 Hreached Hensure Hempty.
    destruct (deployScenario_target_reached _ _ _ _ Hreached)
      as (Hdisk & Htrace & Htarget & _ & _).
    unfold deployScenario. unfold bind in Hreached. unfold bind at 1.
    destruct (loadConfigFile scenarioName st) as [[[] | message |] st1];
      try discriminate.
    unfold bind at 1. rewrite Hreached.
    unfold bind at 1. rewrite deployScenario_prepare_eq. cbv zeta.
    rewrite Htarget, Hdisk, Hensure.
    rewrite (length_nonempty _ (Hnonempty d1 Hensure)), Hempty.
    eexists. split; [reflexivity|].
    cbn. rewrite Htrace, <- app_assoc. repeat split; reflexivity.
Qed.

(** The subdeployment phase with subdeployments enabled and no subdeployment
    project: nothing is deployed, "SUCCESS" is printed. *)
Lemma deployScenario_deploy_nothing (fuel : nat) (st : State)
  (sub : IDeploySubdeploymentsJson) :
  subdeployments (_deployScenarioJson st) = Some sub ->
  truthyBool (enabled sub) = true ->
  orEmpty (subdeploymentProjects sub) = [] ->
  deployScenario_deploy fuel st
  = (Returned tt, set_console (console st ++ ["SUCCESS"]) st).
Proof.
  intros Hsub Henabled Hnone. unfold deployScenario_deploy, bind, get.
  rewrite Hsub, Henabled, Hnone. reflexivity.
Qed.

(** C10.  With [subdeployments.enabled] true and [subdeploymentProjects]
    empty or absent in the scenario file, a run whose scenario loads and
    whose target folder is made ready returns normally, whatever
    [projectSettings] holds (the "No projects were specified" check is not
    reached): "SUCCESS" is the last line printed, the write calls of the
    whole run are the [ensureFolder] of the target and, for a non-empty
    target under the overwrite flag, its [ensureEmptyFolder], and nothing is
    copied or linked. *)
Theorem empty_subdeployments_succeed (fuel : nat) (scenarioName : string)
  (overwriteExisting : bool) (targetFolderParameter : option string)
  (st st3 : State) (json : IDeployScenarioJson)
  (sub : IDeploySubdeploymentsJson) :
  JsonFile_load_scenario F (disk st) (scenarioPath scenarioName) = Some json ->
  subdeployments json = Some sub ->
  enabled sub = Some true ->
  subdeploymentProjects sub = None \/ subdeploymentProjects sub = Some [] ->
  (loadConfigFile scenarioName ;;
   deployScenario_target targetFolderParameter ;;
   deployScenario_prepare overwriteExisting) st = (Returned tt, st3) ->
  deployScenario fuel scenarioName overwriteExisting targetFolderParameter st
  = (Returned tt, set_console (console st3 ++ ["SUCCESS"]) st3)
  /\ (trace st3
      = trace st ++ [EnsureFolder (targetRootOf targetFolderParameter)]
      /\ FileSystem_readFolder F (disk st3)
           (targetRootOf targetFolderParameter) = []
      \/ overwriteExisting = true
         /\ trace st3
            = trace st
                ++ [EnsureFolder (targetRootOf targetFolderParameter);
                    EnsureEmptyFolder (targetRootOf targetFolderParameter)]).
Proof.
  intros Hfile Hsub Henabled Hprojects Hready.
  assert (Hsplit : exists st2,
             (loadConfigFile scenarioName ;;
              deployScenario_target targetFolderParameter) st
             = (Returned tt, st2)
             /\ deployScenario_prepare overwriteExisting st2
                = (Returned tt, st3)).
  { unfold bind in Hready |- *.
    destruct (loadConfigFile scenarioName st) as [[[] | message |] st1];
      try discriminate.
    destruct (deployScenario_target targetFolderParameter st1)
      as [[[] | message |] st2]; try discriminate.
    exists st2. split; [reflexivity | exact Hready]. }
  destruct Hsplit as (st2 & Hreached & Hprepare).
  destruct (deployScenario_target_reached _ _ _ _ Hreached)
    as (Hdisk & Htrace & Htarget & _ & Hloaded).
  rewrite deployScenario_prepare_eq in Hprepare. cbv zeta in Hprepare.
  rewrite Htarget, Hdisk in Hprepare.
  assert (Hjson : _deployScenarioJson st3 = json
                  /\ (trace st3
                      = trace st
                          ++ [EnsureFolder (targetRootOf targetFolderParameter)]
                      /\ FileSystem_readFolder F (disk st3)
                           (targetRootOf targetFolderParameter) = []
                      \/ overwriteExisting = true
                         /\ trace st3
                            = trace st
                                ++ [EnsureFolder
                                      (targetRootOf targetFolderParameter);
                                    EnsureEmptyFolder
                                      (targetRootOf targetFolderParameter)])).
  { assert (Hj2 : _deployScenarioJson st2 = json) by congruence.
    destruct (fs_apply F (EnsureFolder (targetRootOf targetFolderParameter))
                (disk st)) as [d1|]; [|discriminate].
    destruct (FileSystem_readFolder F d1 (targetRootOf targetFolderParameter))
      as [|entry entries] eqn:Hread; cbn [List.length Nat.ltb Nat.leb] in Hprepare.
    - inversion Hprepare; subst st3. cbn. split; [assumption|].
      left. rewrite Htrace. split; [reflexivity | assumption].
    - destruct overwriteExisting; [|discriminate].
      destruct (fs_apply F
                  (EnsureEmptyFolder (targetRootOf targetFolderParameter)) d1)
        as [d2|]; [|discriminate].
      inversion Hprepare; subst st3. cbn. split; [assumption|].
      right. rewrite Htrace, <- app_assoc. split; reflexivity. }
  destruct Hjson as (Hjson & Hcalls). split; [|exact Hcalls].
  unfold deployScenario. unfold bind in Hready |- *.
  destruct (loadConfigFile scenarioName st) as [[[] | message |] st1];
    try discriminate.
  destruct (deployScenario_target targetFolderParameter st1)
    as [[[] | message |] st2']; try discriminate.
  rewrite Hready.
  apply (deployScenario_deploy_nothing fuel st3 sub).
  - rewrite Hjson. exact Hsub.
  - rewrite Henabled. reflexivity.
  - destruct Hprojects as [-> | ->]; reflexivity.
Qed.

(* ------------------------------------------------------------------ *)
(** *** What the resolver records *)

Lemma forOf_preserves_In {A : Type} (Rel : State -> State -> Prop)
  (body : A -> M unit) :
  (forall st, Rel st st) ->
  (forall a b c, Rel a b -> Rel b c -> Rel a c) ->
  forall xs,
    (forall x st, In x xs -> Rel st (snd (body x st))) ->
    forall st, Rel st (snd (forOf xs body st)).
Proof.
  intros Hrefl Htrans xs.
  induction xs as [|x xs IH]; intros Hbody st.
  - apply Hrefl.
  - rewrite forOf_cons.
    pose proof (Hbody x st (or_introl eq_refl)) as Hx.
    destruct (body x st) as [[u | message |] st']; cbn [snd] in *;
      [|assumption|assumption].
    eapply Htrans; [exact Hx|]. apply IH.
    intros y st0 Hy. apply Hbody. now right.
Qed.

(** One turn of the loop over the names: either the state only gains the
    paths shown to the recorder (and the turn returns only if the name did
    not resolve), or the name resolves to a manifest [q] and the turn is the
    recursive call on [q]. *)
Lemma collectDependency_cases (recurse : string -> M unit)
  (packageJsonPath folder : string) (lenient : list string) (name : string)
  (st : State) :
  (exists o,
     collectDependency recurse packageJsonPath folder lenient name st
     = (o, analyzePaths (fst (resolve_sync F (disk st) name folder)) st)
     /\ (o = Returned tt ->
         exists result,
           snd (resolve_sync F (disk st) name folder) = ResolveReturned result
           /\ truthy result = false))
  \/ (exists resolved q,
        snd (resolve_sync F (disk st) name folder)
        = ResolveReturned (Some resolved)
        /\ resolved <> EmptyString
        /\ tryGetPackageJsonFilePathFor F (disk st) resolved = Some q
        /\ q <> EmptyString
        /\ collectDependency recurse packageJsonPath folder lenient name st
           = recurse q
               (analyzePaths (fst (resolve_sync F (disk st) name folder)) st)).
Proof.
  unfold collectDependency, bind, get.
  destruct (resolve_sync F (disk st) name folder) as [analyzed result].
  unfold modify. cbn [fst snd].
  destruct result as [resolved | message].
  - destruct resolved as [resolved|]; cbn [truthy].
    + destruct (resolved =? EmptyString) eqn:Hresolved; cbn [negb].
      * left. destruct (Set_has name lenient); eexists;
          (split; [reflexivity|]); intros Hret; try discriminate.
        exists (Some resolved). cbn. rewrite Hresolved. auto.
      * cbn [orEmptyString].
        destruct (tryGetPackageJsonFilePathFor F (disk st) resolved)
          as [q|] eqn:Hlookup; cbn [truthy].
        -- destruct (q =? EmptyString) eqn:Hq; cbn [negb].
           ++ left. eexists. split; [reflexivity | discriminate].
           ++ right. exists resolved, q. cbn [orEmptyString].
              apply String.eqb_neq in Hresolved, Hq. auto.
        -- left. eexists. split; [reflexivity | discriminate].
    + left. destruct (Set_has name lenient); eexists;
        (split; [reflexivity|]); intros Hret; try discriminate.
      exists None. auto.
  - left. eexists. split; [reflexivity | discriminate].
Qed.

(** X1.  Whatever way [_collectFoldersRecursive] ends (returning, throwing
    in the middle of the graph, or stopped by the bound), the folder of the
    manifest it was called on is in [foldersToCopy], every folder that was
    there before is still there, and the disk, the write calls made and the
    lines printed are as before: the resolver only reads. *)
Theorem resolver_only_records (fuel : nat) (packageJsonPath : string)
  (st : State) :
  In (path_dirname H packageJsonPath)
    (foldersToCopy
       (subdemploymentState
          (snd (collectFoldersRecursive (S fuel) packageJsonPath st))))
  /\ incl (foldersToCopy (subdemploymentState st))
       (foldersToCopy
          (subdemploymentState
             (snd (collectFoldersRecursive (S fuel) packageJsonPath st))))
  /\ disk (snd (collectFoldersRecursive (S fuel) packageJsonPath st)) = disk st
  /\ trace (snd (collectFoldersRecursive (S fuel) packageJsonPath st))
     = trace st
  /\ console (snd (collectFoldersRecursive (S fuel) packageJsonPath st))
     = console st.
Proof.
  pose proof (collectFoldersRecursive_extends (S fuel) packageJsonPath st)
    as (Hdisk & Htrace & Hconsole & _ & _ & _ & _ & _ & Hincl & _).
  repeat split; try assumption.
  destruct (Set_has (path_dirname H packageJsonPath)
              (foldersToCopy (subdemploymentState st))) eqn:Hhas.
  - apply Hincl, Set_has_In, Hhas.
  - assert (Hadd : extends (foldersToCopy_add (path_dirname H packageJsonPath) st)
                     (snd (collectFoldersRecursive (S fuel) packageJsonPath st))).
    { destruct (JsonFile_load_package F (disk st) packageJsonPath)
        as [packageJson|] eqn:Hload.
      - rewrite (collectFoldersRecursive_descend fuel _ packageJson st Hhas
                   Hload).
        apply forOf_preserves; [apply extends_refl | apply extends_trans |].
        intros name st'.
        apply collectDependency_extends, collectFoldersRecursive_extends.
      - cbn [collectFoldersRecursive]. unfold bind, get. rewrite Hhas.
        cbn [negb]. unfold modify. rewrite Hload. apply extends_refl. }
    destruct Hadd as (_ & _ & _ & _ & _ & _ & _ & _ & Hincl' & _).
    apply Hincl'. cbn. apply Set_add_In. now left.
Qed.

Lemma reaches_trans (d : Disk F) (includeDev : bool) (p q r : string) :
  reaches d includeDev p q -> reaches d includeDev q r ->
  reaches d includeDev p r.
Proof.
  intros Hpq Hqr. induction Hqr as [|r s Hqr IH Hedge]; [assumption|].
  eapply reaches_step; eassumption.
Qed.

Lemma onlyReachable_refl (d : Disk F) (includeDev : bool) (p : string)
  (st : State) : onlyReachable d includeDev p st st.
Proof. intros Hd Hdev. auto. Qed.

Lemma onlyReachable_trans (d : Disk F) (includeDev : bool) (p : string)
  (a b c : State) :
  onlyReachable d includeDev p a b -> onlyReachable d includeDev p b c ->
  onlyReachable d includeDev p a c.
Proof.
  intros Hab Hbc Hd Hdev.
  destruct (Hab Hd Hdev) as (Hd' & Hdev' & Hfolders).
  destruct (Hbc Hd' Hdev') as (Hd'' & Hdev'' & Hfolders').
  repeat split; try assumption.
  intros f Hf. destruct (Hfolders' f Hf) as [Hb | Hreach]; auto.
Qed.

Lemma onlyReachable_extends (d : Disk F) (includeDev : bool) (p : string)
  (st st' : State) :
  extends st st' ->
  foldersToCopy (subdemploymentState st')
  = foldersToCopy (subdemploymentState st) ->
  onlyReachable d includeDev p st st'.
Proof.
  intros (Hdisk & _ & _ & _ & _ & Hjson & _) Hsame Hd Hdev.
  unfold includesDev in *. rewrite Hdisk, Hjson, Hsame. auto.
Qed.

Lemma collectFoldersRecursive_onlyReachable (d : Disk F) (includeDev : bool)
  (fuel : nat) :
  forall p st,
    onlyReachable d includeDev p st (snd (collectFoldersRecursive fuel p st)).
Proof.
  induction fuel as [|fuel IH]; intros p st; [apply onlyReachable_refl|].
  destruct (Set_has (path_dirname H p)
              (foldersToCopy (subdemploymentState st))) eqn:Hhas.
  - rewrite collectFoldersRecursive_present by assumption.
    apply onlyReachable_refl.
  - assert (Hadd : onlyReachable d includeDev p st
                     (foldersToCopy_add (path_dirname H p) st)).
    { intros Hd Hdev. repeat split; try assumption.
      intros f Hf. cbn in Hf. apply Set_add_In in Hf.
      destruct Hf as [-> | Hf]; [right | now left].
      exists p. split; [constructor | reflexivity]. }
    destruct (JsonFile_load_package F (disk st) p) as [packageJson|] eqn:Hload.
    + rewrite (collectFoldersRecursive_descend fuel p packageJson st Hhas Hload).
      eapply onlyReachable_trans; [exact Hadd|].
      intros Hd1 Hdev1.
      assert (Hd : disk st = d) by exact Hd1.
      assert (Hdev : includesDev st = includeDev) by exact Hdev1.
      revert Hd1 Hdev1.
      change (onlyReachable d includeDev p
                (foldersToCopy_add (path_dirname H p) st)
                (snd (forOf
                        (allDependencyNames
                           (truthyBool
                              (includeDevDependencies (_deployScenarioJson st)))
                           packageJson)
                        (collectDependency (collectFoldersRecursive fuel) p
                           (path_dirname H p)
                           (optionalDependencyNames packageJson))
                        (foldersToCopy_add (path_dirname H p) st)))).
      apply forOf_preserves_In;
        [apply onlyReachable_refl | apply onlyReachable_trans |].
      intros name st' Hname.
      destruct (collectDependency_cases (collectFoldersRecursive fuel) p
                  (path_dirname H p) (optionalDependencyNames packageJson)
                  name st')
        as [(o & -> & _) | (resolved & q & Hres & Hresolved & Hlookup & Hq & ->)].
      * apply onlyReachable_extends;
          [apply extends_analyzePaths | reflexivity].
      * intros Hd' Hdev'.
        assert (Hedge : dependsOn d includeDev p q).
        { exists packageJson, name,
            (fst (resolve_sync F (disk st') name (path_dirname H p))),
            resolved.
          rewrite <- Hd at 1. rewrite Hload.
          rewrite <- Hdev. unfold includesDev.
          rewrite <- Hd'.
          destruct (resolve_sync F (disk st') name (path_dirname H p))
            as [analyzed result]. cbn [fst snd] in *. subst result.
          repeat split; assumption. }
        destruct (IH q (analyzePaths
                          (fst (resolve_sync F (disk st') name
                                  (path_dirname H p))) st')
                    Hd' Hdev') as (Hd'' & Hdev'' & Hfolders).
        repeat split; try assumption.
        intros f Hf. destruct (Hfolders f Hf) as [Hold | (r & Hreach & ->)].
        -- now left.
        -- right. exists r. split; [|reflexivity].
           eapply reaches_trans; [|exact Hreach].
           eapply reaches_step; [constructor | exact Hedge].
    + cbn [collectFoldersRecursive]. unfold bind, get. rewrite Hhas.
      cbn [negb]. unfold modify. rewrite Hload. exact Hadd.
Qed.

(** X2.  Whatever way it ends, [_collectFoldersRecursive] adds to
    [foldersToCopy] nothing but folders of manifests that can be come to
    from the manifest it was called on, along dependency names that resolve
    (the dev dependencies counting only under [includeDevDependencies]). *)
Theorem resolver_records_only_reachable (fuel : nat) (packageJsonPath : string)
  (st : State) (folder : string) :
  In folder
    (foldersToCopy
       (subdemploymentState
          (snd (collectFoldersRecursive fuel packageJsonPath st)))) ->
  In folder (foldersToCopy (subdemploymentState st))
  \/ exists q,
       reaches (disk st) (includesDev st) packageJsonPath q
       /\ folder = path_dirname H q.
Proof.
  intros Hin.
  destruct (collectFoldersRecursive_onlyReachable (disk st) (includesDev st)
              fuel packageJsonPath st eq_refl eq_refl) as (_ & _ & Hfolders).
  apply Hfolders, Hin.
Qed.

Lemma collectDependencies_close (d : Disk F) (includeDev : bool)
  (roots : list string) (fuel : nat) (p : string) (lenient : list string) :
  (forall q st st',
     disk st = d -> includesDev st = includeDev -> isManifest d roots q ->
     collectFoldersRecursive fuel q st = (Returned tt, st') ->
     closesNew d includeDev roots q st st') ->
  forall names st st',
    disk st = d -> includesDev st = includeDev ->
    forOf names
      (collectDependency (collectFoldersRecursive fuel) p (path_dirname H p)
         lenient) st = (Returned tt, st') ->
    (forall name,
       In name names ->
       forall analyzed resolved q,
         resolve_sync F d name (path_dirname H p)
         = (analyzed, ResolveReturned (Some resolved)) ->
         resolved <> EmptyString ->
         tryGetPackageJsonFilePathFor F d resolved = Some q ->
         q <> EmptyString ->
         In (path_dirname H q) (foldersToCopy (subdemploymentState st')))
    /\ (forall q,
          isManifest d roots q ->
          In (path_dirname H q) (foldersToCopy (subdemploymentState st')) ->
          ~ In (path_dirname H q) (foldersToCopy (subdemploymentState st)) ->
          forall r,
            dependsOn d includeDev q r ->
            In (path_dirname H r) (foldersToCopy (subdemploymentState st'))).
Proof.
  intros IH names.
  induction names as [|name names IHnames]; intros st st' Hd Hdev Hrun.
  - cbn in Hrun. inversion Hrun; subst st'. split.
    + intros name [].
    + intros q _ Hin Hnot. contradiction.
  - rewrite forOf_cons in Hrun.
    destruct (collectDependency_cases (collectFoldersRecursive fuel) p
                (path_dirname H p) lenient name st)
      as [(o & Hbody & Hret)
         | (resolved & q & Hres & Hresolved & Hlookup & Hq & Hbody)];
      rewrite Hbody in Hrun; clear Hbody.
    + destruct o as [[] | message |]; try discriminate.
      destruct (Hret eq_refl) as (result & Hresult & Hfalsy).
      pose proof (fun a b => IHnames _ _ a b Hrun) as Hrest.
      destruct (Hrest Hd Hdev) as (Hnames & Hnew).
      split; [|exact Hnew].
      intros name' [<- | Hin] analyzed resolved q Hres Hresolved Hlookup Hq.
      * rewrite Hd, Hres in Hresult. cbn in Hresult.
        inversion Hresult; subst result. cbn in Hfalsy.
        apply String.eqb_neq in Hresolved. rewrite Hresolved in Hfalsy.
        discriminate.
      * eapply Hnames; eassumption.
    + pose proof (collectFoldersRecursive_extends fuel q
                    (analyzePaths
                       (fst (resolve_sync F (disk st) name (path_dirname H p)))
                       st)) as Hext.
      destruct (collectFoldersRecursive fuel q
                  (analyzePaths
                     (fst (resolve_sync F (disk st) name (path_dirname H p)))
                     st)) as [[[] | message |] sb] eqn:Hrec;
        try discriminate.
      cbn [snd] in Hext.
      destruct Hext as (Hdisk & _ & _ & _ & _ & Hjson & _).
      cbn in Hdisk, Hjson.
      assert (Hdb : disk sb = d) by congruence.
      assert (Hdevb : includesDev sb = includeDev).
      { unfold includesDev in *. congruence. }
      assert (Hmanifest : isManifest d roots q).
      { right. exists resolved. congruence. }
      pose proof (fun a b => IH q _ sb a b Hmanifest Hrec) as Hcall.
      destruct (Hcall Hd Hdev) as (Hqin & Hqnew).
      destruct (IHnames _ _ Hdb Hdevb Hrun) as (Hnames & Hnew).
      assert (Hincl : incl (foldersToCopy (subdemploymentState sb))
                        (foldersToCopy (subdemploymentState st'))).
      { pose proof (forOf_preserves extends
                      (collectDependency (collectFoldersRecursive fuel) p
                         (path_dirname H p) lenient)
                      extends_refl extends_trans
                      (fun x s =>
                         collectDependency_extends _ p (path_dirname H p)
                           lenient x (collectFoldersRecursive_extends fuel) s)
                      names sb) as Hloop.
        rewrite Hrun in Hloop. apply Hloop. }
      split.
      * intros name' [<- | Hin] analyzed resolved' q' Hres' Hresolved' Hlookup'
          Hq'.
        -- rewrite Hd, Hres' in Hres. cbn in Hres.
           inversion Hres; subst resolved'.
           rewrite Hd, Hlookup' in Hlookup. inversion Hlookup; subst q'.
           apply Hincl, Hqin.
        -- eapply Hnames; eassumption.
      * intros q0 Hq0 Hin Hnot r Hedge.
        destruct (Set_has (path_dirname H q0)
                    (foldersToCopy (subdemploymentState sb))) eqn:Hsb.
        -- apply Hincl. apply (Hqnew q0 Hq0); [|exact Hnot|exact Hedge].
           apply Set_has_In, Hsb.
        -- apply (Hnew q0 Hq0 Hin); [|exact Hedge].
           apply Set_has_not_In, Hsb.
Qed.

Lemma collectFoldersRecursive_closes (d : Disk F) (includeDev : bool)
  (roots : list string) :
  manifestsByFolder d roots ->
  forall fuel p st st',
    disk st = d -> includesDev st = includeDev -> isManifest d roots p ->
    collectFoldersRecursive fuel p st = (Returned tt, st') ->
    closesNew d includeDev roots p st st'.
Proof.
  intros Hinj fuel.
  induction fuel as [|fuel IH]; intros p st st' Hd Hdev Hp Hrun;
    [discriminate|].
  destruct (Set_has (path_dirname H p)
              (foldersToCopy (subdemploymentState st))) eqn:Hhas.
  - rewrite collectFoldersRecursive_present in Hrun by assumption.
    inversion Hrun; subst st'. split.
    + apply Set_has_In, Hhas.
    + intros q _ Hin Hnot. contradiction.
  - destruct (JsonFile_load_package F (disk st) p) as [packageJson|] eqn:Hload.
    + rewrite (collectFoldersRecursive_descend fuel p packageJson st Hhas Hload)
        in Hrun.
      assert (Hincl : incl (foldersToCopy
                              (subdemploymentState
                                 (foldersToCopy_add (path_dirname H p) st)))
                        (foldersToCopy (subdemploymentState st'))).
      { pose proof (forOf_preserves extends
                      (collectDependency (collectFoldersRecursive fuel) p
                         (path_dirname H p)
                         (optionalDependencyNames packageJson))
                      extends_refl extends_trans
                      (fun x s =>
                         collectDependency_extends _ p (path_dirname H p)
                           (optionalDependencyNames packageJson) x
                           (collectFoldersRecursive_extends fuel) s)
                      (allDependencyNames
                         (truthyBool
                            (includeDevDependencies (_deployScenarioJson st)))
                         packageJson)
                      (foldersToCopy_add (path_dirname H p) st)) as Hloop.
        rewrite Hrun in Hloop. apply Hloop. }
      pose proof (fun a b =>
                    collectDependencies_close d includeDev roots fuel p
                      (optionalDependencyNames packageJson) IH _ _ _ a b Hrun)
        as Hloop.
      destruct (Hloop Hd Hdev) as (Hnames & Hnew).
      assert (Hpin : In (path_dirname H p)
                       (foldersToCopy (subdemploymentState st'))).
      { apply Hincl. cbn. apply Set_add_In. now left. }
      split; [exact Hpin|].
      intros q Hq Hin Hnot r Hedge.
      destruct (String.eqb (path_dirname H q) (path_dirname H p)) eqn:Hsame.
      * apply String.eqb_eq in Hsame.
        assert (q = p) by (apply Hinj; assumption). subst q.
        destruct Hedge
          as (packageJson' & name & analyzed & resolved & Hload' & Hname
              & Hres & Hresolved & Hlookup & Hr).
        rewrite <- Hd, Hload in Hload'. inversion Hload'; subst packageJson'.
        eapply Hnames; try eassumption.
        rewrite <- Hdev in Hname. exact Hname.
      * apply String.eqb_neq in Hsame.
        apply (Hnew q Hq Hin); [|exact Hedge].
        cbn. rewrite Set_add_In. intros [Heq | Hold]; contradiction.
    + cbn [collectFoldersRecursive] in Hrun. unfold bind, get in Hrun.
      rewrite Hhas in Hrun. cbn [negb] in Hrun. unfold modify in Hrun.
      rewrite Hload in Hrun. discriminate.
Qed.

Lemma reaches_isManifest (d : Disk F) (includeDev : bool)
  (roots : list string) (p q : string) :
  In p roots -> reaches d includeDev p q -> isManifest d roots q.
Proof.
  intros Hp Hreach. destruct Hreach as [|q r _ Hedge]; [now left|].
  destruct Hedge as (_ & _ & _ & resolved & _ & _ & _ & _ & Hlookup & _).
  right. now exists resolved.
Qed.

(** X3.  On a disk where a folder holds one manifest, when
    [_collectFoldersRecursive] returns from a set of folders that is closed
    under the dependency edges (the empty set of a new subdeployment, or what
    earlier calls left), the set it leaves is closed again and holds the
    folder of every manifest that can be come to from the manifest it was
    called on. *)
Theorem resolver_records_all_reachable (fuel : nat) (roots : list string)
  (packageJsonPath : string) (st st' : State) :
  manifestsByFolder (disk st) roots ->
  In packageJsonPath roots ->
  closedUnder (disk st) (includesDev st) roots
    (foldersToCopy (subdemploymentState st)) ->
  collectFoldersRecursive fuel packageJsonPath st = (Returned tt, st') ->
  closedUnder (disk st) (includesDev st) roots
    (foldersToCopy (subdemploymentState st'))
  /\ forall q,
       reaches (disk st) (includesDev st) packageJsonPath q ->
       In (path_dirname H q) (foldersToCopy (subdemploymentState st')).
Proof.
  intros Hinj Hroot Hclosed Hrun.
  destruct (collectFoldersRecursive_closes (disk st) (includesDev st) roots
              Hinj fuel packageJsonPath st st' eq_refl eq_refl
              (or_introl Hroot) Hrun) as (Hpin & Hnew).
  assert (Hincl : incl (foldersToCopy (subdemploymentState st))
                    (foldersToCopy (subdemploymentState st'))).
  { pose proof (collectFoldersRecursive_extends fuel packageJsonPath st)
      as Hext.
    rewrite Hrun in Hext. apply Hext. }
  assert (Hclosed' : closedUnder (disk st) (includesDev st) roots
                       (foldersToCopy (subdemploymentState st'))).
  { intros q Hq Hin r Hedge.
    destruct (Set_has (path_dirname H q)
                (foldersToCopy (subdemploymentState st))) eqn:Hold.
    - apply Hincl. apply (Hclosed q Hq); [|exact Hedge].
      apply Set_has_In, Hold.
    - apply (Hnew q Hq Hin); [|exact Hedge]. apply Set_has_not_In, Hold. }
  split; [exact Hclosed'|].
  intros q Hreach. induction Hreach as [|q r Hreach IH Hedge]; [exact Hpin|].
  eapply Hclosed'; [|exact IH|exact Hedge].
  eapply reaches_isManifest; eassumption.
Qed.

(* ------------------------------------------------------------------ *)
(** *** The projects of a subdeployment *)

Lemma Set_addAll_NoDup (names : list string) :
  forall s, NoDup s -> NoDup (Set_addAll names s).
Proof.
  unfold Set_addAll. induction names as [|n names IH]; intros s Hs; cbn.
  - exact Hs.
  - apply IH, Set_add_NoDup, Hs.
Qed.

Lemma includedProjectNamesSet_fold
  (byName : list (string * IDeployScenarioProjectJson)) (names : list string) :
  forall acc n,
    (In n
       (fold_left
          (fun acc projectName =>
             let acc := Set_add projectName acc in
             match Map_get projectName byName with
             | Some projectSettings =>
                 match additionalProjectsToInclude projectSettings with
                 | Some additional => Set_addAll additional acc
                 | None => acc
                 end
             | None => acc
             end) names acc)
     <-> In n acc \/ In n names \/ additionalOf byName names n)
    /\ (NoDup acc ->
        NoDup
          (fold_left
             (fun acc projectName =>
                let acc := Set_add projectName acc in
                match Map_get projectName byName with
                | Some projectSettings =>
                    match additionalProjectsToInclude projectSettings with
                    | Some additional => Set_addAll additional acc
                    | None => acc
                    end
                | None => acc
                end) names acc)).
Proof.
  induction names as [|p names IH]; intros acc n; cbn [fold_left].
  - split; [|auto]. split; [auto|].
    intros [Hacc | [[] | (p & s & l & [] & _)]]. exact Hacc.
  - cbv zeta.
    assert (Hshift : forall P : Prop,
              (P \/ In n names
               \/ additionalOf byName names n) ->
              (P <-> In n acc \/ n = p
                     \/ (exists s l,
                           Map_get p byName = Some s
                           /\ additionalProjectsToInclude s = Some l
                           /\ In n l)) ->
              In n acc \/ In n (p :: names)
              \/ additionalOf byName (p :: names) n).
    { intros P [HP | [Hn | (q & s & l & Hq & Hs & Hl & Hnl)]] HPiff.
      - apply HPiff in HP.
        destruct HP as [Hacc | [-> | (s & l & Hs & Hl & Hnl)]].
        + now left.
        + right. left. now left.
        + right. right. exists p, s, l. cbn. auto.
      - right. left. now right.
      - right. right. exists q, s, l. cbn. auto. }
    assert (Hback : forall P : Prop,
              (P <-> In n acc \/ n = p
                     \/ (exists s l,
                           Map_get p byName = Some s
                           /\ additionalProjectsToInclude s = Some l
                           /\ In n l)) ->
              In n acc \/ In n (p :: names)
              \/ additionalOf byName (p :: names) n ->
              P \/ In n names \/ additionalOf byName names n).
    { intros P HPiff [Hacc | [[<- | Hn] | (q & s & l & [<- | Hq] & Hs & Hl & Hnl)]].
      - left. apply HPiff. now left.
      - left. apply HPiff. right. now left.
      - right. now left.
      - left. apply HPiff. right. right. exists s, l. auto.
      - right. right. exists q, s, l. auto. }
    destruct (Map_get p byName) as [settings|] eqn:Hget.
    + destruct (additionalProjectsToInclude settings) as [additional|] eqn:Hadd.
      * destruct (IH (Set_addAll additional (Set_add p acc)) n)
          as (Hin & Hnodup).
        assert (Hstep : In n (Set_addAll additional (Set_add p acc))
                        <-> In n acc \/ n = p
                            \/ (exists s l,
                                  Some settings = Some s
                                  /\ additionalProjectsToInclude s = Some l
                                  /\ In n l)).
        { rewrite Set_addAll_In, Set_add_In. split.
          - intros [Hl | [-> | Hacc]]; auto.
            right. right. exists settings, additional. auto.
          - intros [Hacc | [-> | (s & l & Hs & Hl & Hnl)]]; auto.
            inversion Hs; subst s. rewrite Hadd in Hl.
            inversion Hl; subst l. auto. }
        split.
        -- rewrite Hin. split.
           ++ intros Hn. exact (Hshift _ Hn Hstep).
           ++ intros Hn. exact (Hback _ Hstep Hn).
        -- intros Hacc. apply Hnodup, Set_addAll_NoDup, Set_add_NoDup, Hacc.
      * destruct (IH (Set_add p acc) n) as (Hin & Hnodup).
        assert (Hstep : In n (Set_add p acc)
                        <-> In n acc \/ n = p
                            \/ (exists s l,
                                  Some settings = Some s
                                  /\ additionalProjectsToInclude s = Some l
                                  /\ In n l)).
        { rewrite Set_add_In. split.
          - intros [-> | Hacc]; auto.
          - intros [Hacc | [-> | (s & l & Hs & Hl & Hnl)]]; auto.
            inversion Hs; subst s. congruence. }
        split.
        -- rewrite Hin. split.
           ++ intros Hn. exact (Hshift _ Hn Hstep).
           ++ intros Hn. exact (Hback _ Hstep Hn).
        -- intros Hacc. apply Hnodup, Set_add_NoDup, Hacc.
    + destruct (IH (Set_add p acc) n) as (Hin & Hnodup).
      assert (Hstep : In n (Set_add p acc)
                      <-> In n acc \/ n = p
                          \/ (exists s l,
                                None = Some s
                                /\ additionalProjectsToInclude s = Some l
                                /\ In n l)).
      { rewrite Set_add_In. split.
        - intros [-> | Hacc]; auto.
        - intros [Hacc | [-> | (s & l & Hs & _)]]; auto. discriminate. }
      split.
      * rewrite Hin. split.
        -- intros Hn. exact (Hshift _ Hn Hstep).
        -- intros Hn. exact (Hback _ Hstep Hn).
      * intros Hacc. apply Hnodup, Set_add_NoDup, Hacc.
Qed.

(** X4.  The projects a subdeployment analyses ([includedProjectNamesSet],
    lines 257-268) are the projects it was given and the
    [additionalProjectsToInclude] of those among them that have a project
    setting, each once; what an additional project asks for in turn is not
    followed. *)
Theorem included_projects (byName : list (string * IDeployScenarioProjectJson))
  (includedProjectNames : list string) (n : string) :
  (In n (includedProjectNamesSet byName includedProjectNames)
   <-> In n includedProjectNames
       \/ additionalOf byName includedProjectNames n)
  /\ NoDup (includedProjectNamesSet byName includedProjectNames).
Proof.
  unfold includedProjectNamesSet.
  destruct (includedProjectNamesSet_fold byName includedProjectNames [] n)
    as (Hin & Hnodup).
  split; [|apply Hnodup; constructor].
  rewrite Hin. cbn. tauto.
Qed.

(* ------------------------------------------------------------------ *)
(** *** Scenario loading *)

Lemma Map_get_set_same {V : Type} (k : string) (v : V)
  (m : list (string * V)) :
  Map_get k (Map_set k v m) = Some v.
Proof.
  induction m as [|[k' v'] m IH]; cbn.
  - now rewrite String.eqb_refl.
  - destruct (k =? k') eqn:Hk; cbn.
    + now rewrite String.eqb_refl.
    + now rewrite Hk.
Qed.

Lemma Map_get_set_other {V : Type} (k k' : string) (v : V)
  (m : list (string * V)) :
  k' <> k -> Map_get k' (Map_set k v m) = Map_get k' m.
Proof.
  intros Hneq. apply String.eqb_neq in Hneq.
  induction m as [|[k0 v0] m IH]; cbn.
  - now rewrite Hneq.
  - destruct (k =? k0) eqn:Hk; cbn.
    + apply String.eqb_eq in Hk. subst k0. now rewrite Hneq.
    + destruct (k' =? k0); [reflexivity | exact IH].
Qed.

Lemma find_app {A : Type} (f : A -> bool) (l1 l2 : list A) :
  find f (l1 ++ l2)
  = match find f l1 with
    | Some x => Some x
    | None => find f l2
    end.
Proof.
  induction l1 as [|x l1 IH]; cbn; [reflexivity|].
  destruct (f x); [reflexivity | exact IH].
Qed.

Lemma loadConfigFile_settings_returned
  (settings : list IDeployScenarioProjectJson) :
  forall st,
    fst (forOf settings loadConfigFile_projectSetting st) = Returned tt
    <-> Forall (fun setting => registered (projectName setting)) settings.
Proof.
  induction settings as [|setting settings IH]; intros st.
  - cbn. split; [constructor | reflexivity].
  - rewrite forOf_cons, loadConfigFile_projectSetting_spec.
    destruct (isSome (getProjectByName R (projectName setting))) eqn:Hreg.
    + rewrite IH. split.
      * intros Hrest. constructor; assumption.
      * intros Hall. inversion Hall; assumption.
    + cbn [fst]. split; [discriminate|].
      intros Hall. inversion Hall as [|? ? Hhead]. unfold registered in Hhead.
      congruence.
Qed.

(** X5.  [_loadConfigFile] returns normally exactly when the scenario file
    exists, loads, and every [projectSettings] entry names a project of
    rush.json. *)
Theorem scenario_loads_iff (scenarioName : string) (st : State) :
  fst (loadConfigFile scenarioName st) = Returned tt
  <-> FileSystem_exists F (disk st) (scenarioPath scenarioName) = true
      /\ exists json,
           JsonFile_load_scenario F (disk st) (scenarioPath scenarioName)
           = Some json
           /\ Forall (fun setting => registered (projectName setting))
                (orEmpty (projectSettings json)).
Proof.
  rewrite loadConfigFile_eq.
  destruct (FileSystem_exists F (disk st) (scenarioPath scenarioName)).
  - destruct (JsonFile_load_scenario F (disk st) (scenarioPath scenarioName))
      as [json|].
    + rewrite loadConfigFile_settings_returned. split.
      * intros Hall. split; [reflexivity|]. exists json. auto.
      * intros (_ & json' & Heq & Hall). inversion Heq; subst json'.
        exact Hall.
    + cbn [fst]. split; [discriminate|].
      intros (_ & json & Heq & _). discriminate.
  - cbn [fst]. split; [discriminate|]. intros (Hfalse & _). discriminate.
Qed.

Lemma loadConfigFile_settings_first_unknown
  (good : list IDeployScenarioProjectJson) (bad : IDeployScenarioProjectJson)
  (rest : list IDeployScenarioProjectJson) :
  Forall (fun setting => registered (projectName setting)) good ->
  ~ registered (projectName bad) ->
  forall st,
    fst (forOf (good ++ bad :: rest) loadConfigFile_projectSetting st)
    = Threw (unknownProjectSetting (projectName bad))
    /\ forall name,
         Map_get name
           (_deployScenarioProjectJsonsByName
              (snd (forOf (good ++ bad :: rest) loadConfigFile_projectSetting
                      st)))
         = match lastSettingFor name good with
           | Some setting => Some setting
           | None => Map_get name (_deployScenarioProjectJsonsByName st)
           end.
Proof.
  intros Hgood Hbad.
  induction good as [|setting good IH]; intros st; cbn [app].
  - rewrite forOf_cons, loadConfigFile_projectSetting_spec.
    unfold registered in Hbad.
    destruct (isSome (getProjectByName R (projectName bad)));
      [congruence|].
    split; reflexivity.
  - inversion Hgood as [|? ? Hhead Htail]; subst.
    rewrite forOf_cons, loadConfigFile_projectSetting_spec.
    unfold registered in Hhead. rewrite Hhead.
    destruct (IH Htail
                (set_projectJsonsByName
                   (Map_set (projectName setting) setting
                      (_deployScenarioProjectJsonsByName st)) st))
      as (Hthrew & Hmap).
    split; [exact Hthrew|].
    intros name. rewrite Hmap. unfold lastSettingFor. cbn [rev].
    rewrite find_app.
    destruct (find (fun s => projectName s =? name) (rev good));
      [reflexivity|].
    cbn [find _deployScenarioProjectJsonsByName set_projectJsonsByName].
    destruct (projectName setting =? name) eqn:Hname.
    + apply String.eqb_eq in Hname. subst name. apply Map_get_set_same.
    + apply String.eqb_neq in Hname. apply Map_get_set_other. congruence.
Qed.

(** X6.  When some [projectSettings] entries name unknown projects,
    [_loadConfigFile] throws the error of line 75 for the first of them; the
    entries before it have been put in the map by then. *)
Theorem scenario_first_unknown_project (scenarioName : string) (st : State)
  (json : IDeployScenarioJson)
  (good : list IDeployScenarioProjectJson) (bad : IDeployScenarioProjectJson)
  (rest : list IDeployScenarioProjectJson) :
  FileSystem_exists F (disk st) (scenarioPath scenarioName) = true ->
  JsonFile_load_scenario F (disk st) (scenarioPath scenarioName) = Some json ->
  projectSettings json = Some (good ++ bad :: rest) ->
  Forall (fun setting => registered (projectName setting)) good ->
  ~ registered (projectName bad) ->
  fst (loadConfigFile scenarioName st)
  = Threw (unknownProjectSetting (projectName bad))
  /\ forall name,
       Map_get name
         (_deployScenarioProjectJsonsByName
            (snd (loadConfigFile scenarioName st)))
       = match lastSettingFor name good with
         | Some setting => Some setting
         | None => Map_get name (_deployScenarioProjectJsonsByName st)
         end.
Proof.
  intros Hexists Hload Hsettings Hgood Hbad.
  rewrite loadConfigFile_eq, Hexists, Hload, Hsettings. cbn [orEmpty].
  apply (loadConfigFile_settings_first_unknown good bad rest Hgood Hbad
           (set_deployScenarioJson json st)).
Qed.

Lemma loadConfigFile_settings_map
  (settings : list IDeployScenarioProjectJson) :
  forall st,
    fst (forOf settings loadConfigFile_projectSetting st) = Returned tt ->
    forall name,
      Map_get name
        (_deployScenarioProjectJsonsByName
           (snd (forOf settings loadConfigFile_projectSetting st)))
      = match lastSettingFor name settings with
        | Some setting => Some setting
        | None => Map_get name (_deployScenarioProjectJsonsByName st)
        end.
Proof.
  induction settings as [|setting settings IH]; intros st Hret name.
  - reflexivity.
  - rewrite forOf_cons, loadConfigFile_projectSetting_spec in *.
    destruct (isSome (getProjectByName R (projectName setting)));
      [|discriminate].
    rewrite (IH _ Hret). unfold lastSettingFor. cbn [rev].
    rewrite find_app.
    destruct (find (fun s => projectName s =? name) (rev settings));
      [reflexivity|].
    cbn [find _deployScenarioProjectJsonsByName set_projectJsonsByName].
    destruct (projectName setting =? name) eqn:Hname.
    + apply String.eqb_eq in Hname. subst name. apply Map_get_set_same.
    + apply String.eqb_neq in Hname. apply Map_get_set_other. congruence.
Qed.

(** X7.  After [_loadConfigFile] has returned, looking a project up in
    [_deployScenarioProjectJsonsByName] gives the last [projectSettings]
    entry of the scenario for that project (a later entry replaces an
    earlier one), and for a project without an entry what the map held
    before; the scenario held is the one of the file. *)
Theorem scenario_settings_by_name (scenarioName : string) (st : State)
  (json : IDeployScenarioJson) :
  JsonFile_load_scenario F (disk st) (scenarioPath scenarioName) = Some json ->
  fst (loadConfigFile scenarioName st) = Returned tt ->
  _deployScenarioJson (snd (loadConfigFile scenarioName st)) = json
  /\ forall name,
       Map_get name
         (_deployScenarioProjectJsonsByName
            (snd (loadConfigFile scenarioName st)))
       = match lastSettingFor name (orEmpty (projectSettings json)) with
         | Some setting => Some setting
         | None => Map_get name (_deployScenarioProjectJsonsByName st)
         end.
Proof.
  intros Hload. rewrite loadConfigFile_eq, Hload.
  destruct (FileSystem_exists F (disk st) (scenarioPath scenarioName));
    [|discriminate].
  intros Hret. split.
  - destruct (loadConfigFile_settings_loadsOnly (orEmpty (projectSettings json))
                (set_deployScenarioJson json st)) as (_ & _ & Hjson).
    exact Hjson.
  - intros name.
    apply (loadConfigFile_settings_map _ (set_deployScenarioJson json st) Hret).
Qed.

(* ------------------------------------------------------------------ *)
(** *** The phases of a subdeployment *)

Lemma writes_refl (P : FsOp -> Prop) (st : State) : writes P st st.
Proof.
  split; [|auto]. exists []. rewrite app_nil_r. auto.
Qed.

Lemma writes_trans (P : FsOp -> Prop) (a b c : State) :
  writes P a b -> writes P b c -> writes P a c.
Proof.
  intros ((ops1 & Ht1 & Hp1) & Ha1 & Hb1 & Hc1 & Hd1)
         ((ops2 & Ht2 & Hp2) & Ha2 & Hb2 & Hc2 & Hd2).
  split; [|repeat split; congruence].
  exists (ops1 ++ ops2). rewrite Ht2, Ht1, app_assoc.
  split; [reflexivity | now apply Forall_app].
Qed.

Lemma writes_weaken (P Q : FsOp -> Prop) (st st' : State) :
  (forall op, P op -> Q op) -> writes P st st' -> writes Q st st'.
Proof.
  intros HPQ ((ops & Ht & Hp) & Hrest). split; [|exact Hrest].
  exists ops. split; [exact Ht|]. eapply Forall_impl; eassumption.
Qed.

(** Same trace, same manager: no write call at all. *)
Lemma writes_nothing (P : FsOp -> Prop) (st st' : State) :
  trace st' = trace st ->
  _targetRootFolder st' = _targetRootFolder st ->
  _sourceRootFolder st' = _sourceRootFolder st ->
  _deployScenarioJson st' = _deployScenarioJson st ->
  _deployScenarioProjectJsonsByName st' = _deployScenarioProjectJsonsByName st ->
  writes P st st'.
Proof.
  intros Ht Ha Hb Hc Hd. split; [|auto].
  exists []. rewrite app_nil_r. auto.
Qed.

Lemma writes_fs_do (P : FsOp -> Prop) (op : FsOp) (st : State) :
  P op -> writes P st (snd (fs_do op st)).
Proof.
  intros Hop. unfold fs_do. destruct (fs_apply F op (disk st)) as [d|].
  - split; [|cbn; auto]. exists [op]. cbn. auto.
  - apply writes_refl.
Qed.

Lemma writes_bind {A B : Type} (P : FsOp -> Prop) (m : M A) (k : A -> M B)
  (st : State) :
  writes P st (snd (m st)) ->
  (forall a s, writes P s (snd (k a s))) ->
  writes P st (snd (bind m k st)).
Proof.
  intros Hm Hk. unfold bind.
  destruct (m st) as [[a | message |] s]; cbn [snd] in *; try assumption.
  eapply writes_trans; [exact Hm | apply Hk].
Qed.

Lemma writes_extends (P : FsOp -> Prop) (st st' : State) :
  extends st st' -> writes P st st'.
Proof.
  intros (_ & Ht & _ & Ha & Hb & Hc & Hd & _).
  apply writes_nothing; assumption.
Qed.

Lemma copySync_writes (ignore : string) :
  (forall t src dest st,
     writes isCopyCall st
       (snd (copySync (deployFolder_filter ignore) t src dest st)))
  /\ (forall entries src dest st,
        writes isCopyCall st
          (snd (copySync_entries (deployFolder_filter ignore) entries src dest
                  st))).
Proof.
  apply DirTree_mutind.
  - intros src dest st. rewrite copySync_unfold, deployFolder_filter_eq.
    cbn [isSymbolicLink].
    destruct (Path_isUnderOrEqual H src ignore); [apply writes_refl|].
    apply writes_fs_do. exact I.
  - intros src dest st. rewrite copySync_unfold, deployFolder_filter_eq.
    cbn [isSymbolicLink].
    destruct (Path_isUnderOrEqual H src ignore); [apply writes_refl|].
    apply writes_nothing; reflexivity.
  - intros entries IH src dest st.
    rewrite copySync_unfold, deployFolder_filter_eq. cbn [isSymbolicLink].
    destruct (Path_isUnderOrEqual H src ignore); [apply writes_refl|].
    apply writes_bind; [apply writes_fs_do; exact I|].
    intros _ s. apply IH.
  - intros src dest st. apply writes_refl.
  - intros name child IHchild rest IHrest src dest st.
    cbn [copySync_entries]. apply writes_bind; [apply IHchild|].
    intros _ s. apply IHrest.
Qed.

Lemma deployFolder_writes (sourceFolderPath : string) (st : State) :
  writes isCopyCall st (snd (deployFolder sourceFolderPath st)).
Proof.
  unfold deployFolder. unfold bind at 1.
  destruct (Path_isUnderOrEqual H sourceFolderPath (_sourceRootFolder st))
    eqn:Hunder.
  - rewrite (remapPathForDeployFolder_under _ _ Hunder).
    unfold bind, get.
    destruct (fs_tree F (disk st) sourceFolderPath) as [tree|].
    + apply (proj1 (copySync_writes _)).
    + apply writes_refl.
  - rewrite (remapPathForDeployFolder_outside _ _ Hunder). apply writes_refl.
Qed.

Lemma deploySymlink_writes (l : ILinkInfo) (st : State) :
  writes isLinkCall st (snd (deploySymlink l st)).
Proof.
  destruct (Path_isUnderOrEqual H (linkPath l) (_sourceRootFolder st))
    eqn:Hlink.
  - destruct (Path_isUnderOrEqual H (targetPath l) (_sourceRootFolder st))
      eqn:Htarget.
    + rewrite (deploySymlink_remapped l st Hlink Htarget).
      destruct (FileSystem_exists F (disk st) (remapped st (targetPath l)));
        cbn [negb]; [|apply writes_refl].
      destruct (fs_apply F _ (disk st)) as [d1|]; [|apply writes_refl].
      cbv zeta.
      assert (Hcall : forall k rel p, isLinkCall (deploySymlink_call k rel p)).
      { intros k rel p. unfold deploySymlink_call.
        destruct (process_platform H =? "win32"), k; exact I. }
      match goal with
      | |- context [fs_apply F ?op d1] =>
          destruct (fs_apply F op d1) as [d2|] eqn:Hcreate
      end.
      * split; [|cbn; auto]. eexists. cbn. rewrite <- app_assoc.
        split; [reflexivity|]. repeat constructor. apply Hcall.
      * split; [|cbn; auto]. eexists. cbn.
        split; [reflexivity|]. repeat constructor.
    + unfold deploySymlink. unfold bind at 1.
      rewrite (remapPathForDeployFolder_under _ _ Hlink).
      unfold bind at 1.
      rewrite (remapPathForDeployFolder_outside _ _ Htarget).
      apply writes_refl.
  - unfold deploySymlink. unfold bind at 1.
    rewrite (remapPathForDeployFolder_outside _ _ Hlink). apply writes_refl.
Qed.

(** The analysis of one project (lines 277-284). *)
Lemma analysis_writes (fuel : nat) (projectName : string) (st : State) :
  writes (fun _ => False) st
    (snd ((console_log ("Analyzing project " +++ quoted projectName) ;;
           match getProjectByName R projectName with
           | None =>
               throw ("The project " +++ projectName
                        +++ " is not defined in rush.json")
           | Some project =>
               collectFoldersRecursive fuel
                 (path_join H (projectFolder project) "package.json")
           end) st)).
Proof.
  apply writes_bind; [apply writes_nothing; reflexivity|].
  intros _ s. destruct (getProjectByName R projectName) as [project|].
  - apply writes_extends, collectFoldersRecursive_extends.
  - apply writes_refl.
Qed.

(** The link phase of one link (lines 298-300). *)
Lemma link_writes (linkToCopy : ILinkInfo) (st : State) :
  writes isLinkCall st
    (snd ((deployed <- deploySymlink linkToCopy ;;
           if negb deployed then
             throw ("Target does not exist: "
                      +++ JSON_stringify_link H linkToCopy)
           else ret tt) st)).
Proof.
  apply writes_bind; [apply deploySymlink_writes|].
  intros deployed s. destruct deployed; apply writes_refl.
Qed.

(** A subdeployment: a copy phase, then a link phase. *)
Lemma deploySubdeployment_phases (fuel : nat)
  (includedProjectNames : list string)
  (subdeploymentFolderName : option string) (st : State) :
  exists mid,
    writes isCopyCall st mid
    /\ writes isLinkCall mid
         (snd (deploySubdeployment fuel includedProjectNames
                 subdeploymentFolderName st)).
Proof.
  unfold deploySubdeployment. unfold bind at 1. unfold get at 1.
  unfold bind at 1. unfold modify at 1.
  set (s1 := set_subdemploymentState _ st).
  assert (H1 : writes isCopyCall st s1)
    by (apply writes_nothing; reflexivity).
  unfold bind at 1.
  match goal with
  | |- context [forOf ?names ?body s1] =>
      pose proof (forOf_preserves (writes isCopyCall) body
                    (writes_refl _) (writes_trans _)
                    (fun x s =>
                       writes_weaken _ _ _ _ (fun op (Hop : False) =>
                                                match Hop with end)
                         (analysis_writes fuel x s))
                    names s1) as H2;
      destruct (forOf names body s1) as [[[] | message |] s2]
  end; cbn [snd] in H2;
    [| exists s2; split; [exact (writes_trans _ _ _ _ H1 H2)
                         | apply writes_refl] ..].
  unfold bind at 1. unfold modify at 1.
  unfold bind at 1. unfold console_log at 1. unfold modify at 1.
  unfold bind at 1. unfold get at 1.
  set (s3 := set_console _ (sortFoldersToCopy s2)).
  assert (H3 : writes isCopyCall s2 s3)
    by (apply writes_nothing; reflexivity).
  unfold bind at 1.
  pose proof (forOf_preserves (writes isCopyCall) deployFolder
                (writes_refl _) (writes_trans _) deployFolder_writes
                (foldersToCopy (subdemploymentState s3)) s3) as H4.
  destruct (forOf (foldersToCopy (subdemploymentState s3)) deployFolder s3)
    as [[[] | message |] s4]; cbn [snd] in H4;
    [| exists s4; split;
       [exact (writes_trans _ _ _ _
                 (writes_trans _ _ _ _ (writes_trans _ _ _ _ H1 H2) H3) H4)
       | apply writes_refl] ..].
  exists s4. split.
  - exact (writes_trans _ _ _ _
             (writes_trans _ _ _ _ (writes_trans _ _ _ _ H1 H2) H3) H4).
  - apply writes_bind; [apply writes_nothing; reflexivity|].
    intros _ s5. apply writes_bind; [apply writes_refl|].
    intros s6 s7.
    apply forOf_preserves;
      [apply writes_refl | apply writes_trans | apply link_writes].
Qed.

(** X8.  In a subdeployment every folder copy comes before every link
    re-creation: the write calls [_deploySubdeployment] makes, however it
    ends, are calls of the copy (folders and files) followed by calls of the
    link phase ([ensureFolder] and link creations); the analysis makes none. *)
Theorem copies_before_links (fuel : nat) (includedProjectNames : list string)
  (subdeploymentFolderName : option string) (st : State) :
  exists copies links,
    trace (snd (deploySubdeployment fuel includedProjectNames
                  subdeploymentFolderName st))
    = trace st ++ copies ++ links
    /\ Forall isCopyCall copies
    /\ Forall isLinkCall links.
Proof.
  destruct (deploySubdeployment_phases fuel includedProjectNames
              subdeploymentFolderName st)
    as (mid & ((copies & Hc & Hcopies) & _) & ((links & Hl & Hlinks) & _)).
  exists copies, links. rewrite Hl, Hc, app_assoc. auto.
Qed.

(** The analysis of a list of projects one of which is not in rush.json
    does not return; it never writes. *)
Lemma analysis_reads (fuel : nat) (names : list string) :
  forall st,
    disk (snd (forOf names
                 (fun projectName =>
                    console_log ("Analyzing project " +++ quoted projectName) ;;
                    match getProjectByName R projectName with
                    | None =>
                        throw ("The project " +++ projectName
                                 +++ " is not defined in rush.json")
                    | Some project =>
                        collectFoldersRecursive fuel
                          (path_join H (projectFolder project) "package.json")
                    end) st)) = disk st
    /\ ((exists n, In n names /\ getProjectByName R n = None) ->
        fst (forOf names
               (fun projectName =>
                  console_log ("Analyzing project " +++ quoted projectName) ;;
                  match getProjectByName R projectName with
                  | None =>
                      throw ("The project " +++ projectName
                               +++ " is not defined in rush.json")
                  | Some project =>
                      collectFoldersRecursive fuel
                        (path_join H (projectFolder project) "package.json")
                  end) st) <> Returned tt).
Proof.
  induction names as [|name names IH]; intros st.
  - split; [reflexivity|]. intros (n & [] & _).
  - rewrite forOf_cons. unfold bind at 1 3. unfold console_log, modify.
    destruct (getProjectByName R name) as [project|] eqn:Hname.
    + pose proof (collectFoldersRecursive_extends fuel
                    (path_join H (projectFolder project) "package.json")
                    (set_console
                       (console st ++ ["Analyzing project " +++ quoted name])
                       st)) as (Hdisk & _).
      destruct (collectFoldersRecursive fuel _ _) as [[[] | message |] s];
        cbn [fst snd] in *.
      * destruct (IH s) as (Hd & Hunknown).
        split; [etransitivity; [exact Hd | exact Hdisk]|].
        intros (n & [<- | Hn] & Hnone); [congruence|].
        apply Hunknown. now exists n.
      * split; [exact Hdisk | discriminate].
      * split; [exact Hdisk | discriminate].
    + split; [reflexivity | discriminate].
Qed.

(** X9.  A subdeployment one of whose projects (given, or asked for by
    [additionalProjectsToInclude]) is not in rush.json does not return, and
    ends before anything is written: no write call is made and the disk is
    as it was. *)
Theorem unknown_project_stops_subdeployment (fuel : nat)
  (includedProjectNames : list string)
  (subdeploymentFolderName : option string) (st : State) (n : string) :
  In n (includedProjectNamesSet (_deployScenarioProjectJsonsByName st)
          includedProjectNames) ->
  getProjectByName R n = None ->
  fst (deploySubdeployment fuel includedProjectNames subdeploymentFolderName st)
    <> Returned tt
  /\ trace (snd (deploySubdeployment fuel includedProjectNames
                   subdeploymentFolderName st)) = trace st
  /\ disk (snd (deploySubdeployment fuel includedProjectNames
                  subdeploymentFolderName st)) = disk st.
Proof.
  intros Hin Hnone.
  assert (Hrun : exists o st',
             deploySubdeployment fuel includedProjectNames
               subdeploymentFolderName st = (o, st')
             /\ o <> Returned tt
             /\ trace st' = trace st
             /\ disk st' = disk st).
  { unfold deploySubdeployment. unfold bind at 1. unfold get at 1.
    unfold bind at 1. unfold modify at 1.
    set (s1 := set_subdemploymentState _ st).
    unfold bind at 1.
    match goal with
    | |- context [forOf ?names ?body s1] =>
        pose proof (analysis_reads fuel names s1) as (Hdisk & Hunknown);
        pose proof (forOf_preserves (writes (fun _ => False)) body
                      (writes_refl _) (writes_trans _)
                      (analysis_writes fuel) names s1)
          as ((ops & Htrace & Hops) & _);
        destruct (forOf names body s1) as [[[] | message |] s2]
    end; cbn [fst snd] in *.
    - exfalso. apply Hunknown; [|reflexivity]. now exists n.
    - destruct ops as [|op ops]; [|inversion Hops; contradiction].
      rewrite app_nil_r in Htrace.
      eexists. eexists. split; [reflexivity|].
      repeat split; [discriminate | | ]; assumption.
    - destruct ops as [|op ops]; [|inversion Hops; contradiction].
      rewrite app_nil_r in Htrace.
      eexists. eexists. split; [reflexivity|].
      repeat split; [discriminate | | ]; assumption. }
  destruct Hrun as (o & st' & -> & Ho & Htrace & Hdisk).
  cbn [fst snd]. auto.
Qed.

(* ------------------------------------------------------------------ *)
(** *** The subdeployments of a scenario *)

Lemma deploySubdeployment_keeps_map (fuel : nat)
  (includedProjectNames : list string)
  (subdeploymentFolderName : option string) (st : State) :
  _deployScenarioProjectJsonsByName
    (snd (deploySubdeployment fuel includedProjectNames
            subdeploymentFolderName st))
  = _deployScenarioProjectJsonsByName st.
Proof.
  destruct (deploySubdeployment_phases fuel includedProjectNames
              subdeploymentFolderName st)
    as (mid & (_ & _ & _ & _ & Hmid) & (_ & _ & _ & _ & Hend)).
  congruence.
Qed.

(** X10.  When the loop over [subdeploymentProjects] (lines 336-362)
    returns, every one of the projects is in rush.json and their folder
    names (the [subdeploymentFolderName] of the project's setting, or else
    its unscoped name) are all different, and different from the names used
    before: no two subdeployments of a run that succeeds share a folder. *)
Theorem subdeployment_folders_distinct (fuel : nat) (names : list string) :
  forall (used : list string) (st st' : State),
    deployScenario_subdeployments fuel names used st = (Returned tt, st') ->
    Forall registered names
    /\ NoDup (map (subdeploymentFolderNameOf
                     (_deployScenarioProjectJsonsByName st)) names)
    /\ forall n,
         In n names ->
         ~ In (subdeploymentFolderNameOf
                 (_deployScenarioProjectJsonsByName st) n) used.
Proof.
  induction names as [|name names IH]; intros used st st' Hrun.
  - repeat split; [constructor | constructor | intros n []].
  - cbn [deployScenario_subdeployments] in Hrun.
    destruct (getProjectByName R name) as [rushProject|] eqn:Hname;
      [|discriminate].
    unfold bind at 1 in Hrun. unfold get at 1 in Hrun.
    fold (subdeploymentFolderNameOf (_deployScenarioProjectJsonsByName st) name)
      in Hrun.
    set (folder := subdeploymentFolderNameOf
                     (_deployScenarioProjectJsonsByName st) name) in *.
    destruct (Set_has folder used) eqn:Hused; [discriminate|].
    unfold bind at 1 in Hrun. unfold console_log, modify in Hrun.
    unfold bind at 1 in Hrun.
    pose proof (deploySubdeployment_keeps_map fuel [name] (Some folder)
                  (set_console
                     (console st
                        ++ [newline +++ "Preparing subdeployment for "
                              +++ quoted folder]) st)) as Hmap.
    destruct (deploySubdeployment fuel [name] (Some folder) _)
      as [[[] | message |] s2]; try discriminate.
    cbn in Hmap.
    destruct (IH _ _ _ Hrun) as (Hreg & Hnodup & Hfresh).
    rewrite Hmap in Hnodup, Hfresh.
    split; [|split].
    + constructor; [|exact Hreg]. unfold registered. now rewrite Hname.
    + cbn [map]. constructor; [|exact Hnodup].
      intros Hin. apply in_map_iff in Hin.
      destruct Hin as (n & Heq & Hn).
      apply (Hfresh n Hn). rewrite Heq. apply Set_add_In. now left.
    + intros n [<- | Hn].
      * apply Set_has_not_In, Hused.
      * intros Hin. apply (Hfresh n Hn). apply Set_add_In. now right.
Qed.

(* ------------------------------------------------------------------ *)
(** *** The target folder and the project list *)

(** X11.  When a target folder is given and does not exist, the run throws
    and has written nothing (no write call, the disk as it was); if the
    scenario loaded, the error is the one of line 312. *)
Theorem missing_target_folder (fuel : nat) (scenarioName : string)
  (overwriteExisting : bool) (targetFolderParameter : option string)
  (st : State) :
  truthy targetFolderParameter = true ->
  FileSystem_exists F (disk st)
    (path_resolve H (orEmptyString targetFolderParameter)) = false ->
  exists (message : string) (st' : State),
    deployScenario fuel scenarioName overwriteExisting targetFolderParameter st
    = (Threw message, st')
    /\ trace st' = trace st
    /\ disk st' = disk st
    /\ (fst (loadConfigFile scenarioName st) = Returned tt ->
        message
        = "The specified target folder does not exist: "
            +++ JSON_stringify H (orEmptyString targetFolderParameter)).
Proof.
  intros Hgiven Hmissing.
  pose proof (loadConfigFile_spec scenarioName st) as (Hfuel & Honly & _).
  unfold deployScenario. unfold bind at 1.
  destruct (loadConfigFile scenarioName st) as [[[] | message |] st1];
    cbn [fst snd] in *; destruct Honly as (Hdisk & Htrace & _).
  - unfold bind at 1. rewrite deployScenario_target_eq. cbv zeta.
    unfold targetRootOf. rewrite Hgiven, Hdisk, Hmissing. cbn [andb negb].
    eexists. eexists. split; [reflexivity|]. cbn. auto.
  - exists message, st1. repeat split; try assumption. discriminate.
  - contradiction.
Qed.

(** Once the scenario is loaded and the target folder is ready, what is
    left of [deployScenario] is the subdeployment phase; the write calls
    made so far are the [ensureFolder] of the target and, for a target that
    was not empty, its [ensureEmptyFolder]. *)
Lemma deployScenario_prepared (fuel : nat) (scenarioName : string)
  (overwriteExisting : bool) (targetFolderParameter : option string)
  (st st3 : State) :
  (loadConfigFile scenarioName ;;
   deployScenario_target targetFolderParameter ;;
   deployScenario_prepare overwriteExisting) st = (Returned tt, st3) ->
  deployScenario fuel scenarioName overwriteExisting targetFolderParameter st
  = deployScenario_deploy fuel st3
  /\ JsonFile_load_scenario F (disk st) (scenarioPath scenarioName)
     = Some (_deployScenarioJson st3)
  /\ (trace st3
      = trace st ++ [EnsureFolder (targetRootOf targetFolderParameter)]
      \/ overwriteExisting = true
         /\ trace st3
            = trace st
                ++ [EnsureFolder (targetRootOf targetFolderParameter);
                    EnsureEmptyFolder (targetRootOf targetFolderParameter)]).
Proof.
  intros Hready.
  assert (Hsplit : exists st2,
             (loadConfigFile scenarioName ;;
              deployScenario_target targetFolderParameter) st
             = (Returned tt, st2)
             /\ deployScenario_prepare overwriteExisting st2
                = (Returned tt, st3)).
  { unfold bind in Hready |- *.
    destruct (loadConfigFile scenarioName st) as [[[] | message |] st1];
      try discriminate.
    destruct (deployScenario_target targetFolderParameter st1)
      as [[[] | message |] st2]; try discriminate.
    exists st2. split; [reflexivity | exact Hready]. }
  destruct Hsplit as (st2 & Hreached & Hprepare).
  destruct (deployScenario_target_reached _ _ _ _ Hreached)
    as (Hdisk & Htrace & Htarget & _ & Hloaded).
  split; [|split].
  - unfold deployScenario. unfold bind in Hready |- *.
    destruct (loadConfigFile scenarioName st) as [[[] | message |] st1];
      try discriminate.
    destruct (deployScenario_target targetFolderParameter st1)
      as [[[] | message |] st2']; try discriminate.
    now rewrite Hready.
  - rewrite deployScenario_prepare_eq in Hprepare. cbv zeta in Hprepare.
    destruct (fs_apply F (EnsureFolder (_targetRootFolder st2)) (disk st2))
      as [d1|]; [|discriminate].
    destruct (Nat.ltb 0 _) in Hprepare.
    + destruct overwriteExisting; [|discriminate].
      destruct (fs_apply F (EnsureEmptyFolder (_targetRootFolder st2)) d1);
        [|discriminate].
      inversion Hprepare; subst st3. exact Hloaded.
    + inversion Hprepare; subst st3. exact Hloaded.
  - rewrite deployScenario_prepare_eq in Hprepare. cbv zeta in Hprepare.
    rewrite Htarget in Hprepare.
    destruct (fs_apply F (EnsureFolder (targetRootOf targetFolderParameter))
                (disk st2)) as [d1|]; [|discriminate].
    destruct (Nat.ltb 0 _) in Hprepare.
    + destruct overwriteExisting; [|discriminate].
      destruct (fs_apply F
                  (EnsureEmptyFolder (targetRootOf targetFolderParameter)) d1);
        [|discriminate].
      inversion Hprepare; subst st3. right. split; [reflexivity|].
      cbn. rewrite Htrace, <- app_assoc. reflexivity.
    + inversion Hprepare; subst st3. left. cbn. now rewrite Htrace.
Qed.

(** X12.  With subdeployments absent or not enabled and [projectSettings]
    absent or empty, a run whose scenario loads and whose target folder is
    made ready throws "No projects were specified"; the check comes after
    the target folder has been prepared, so [ensureFolder] and, for a
    non-empty target under the overwrite flag, [ensureEmptyFolder] have
    already been called on it. *)
Theorem no_projects_specified (fuel : nat) (scenarioName : string)
  (overwriteExisting : bool) (targetFolderParameter : option string)
  (st st3 : State) (json : IDeployScenarioJson) :
  JsonFile_load_scenario F (disk st) (scenarioPath scenarioName) = Some json ->
  match subdeployments json with
  | Some sub => truthyBool (enabled sub) = false
  | None => True
  end ->
  projectSettings json = None \/ projectSettings json = Some [] ->
  (loadConfigFile scenarioName ;;
   deployScenario_target targetFolderParameter ;;
   deployScenario_prepare overwriteExisting) st = (Returned tt, st3) ->
  deployScenario fuel scenarioName overwriteExisting targetFolderParameter st
  = (Threw ("No projects were specified to be deployed."
              +++ " If subdeployments.enabled is false,"
              +++ " then the " +++ quoted "projectSettings"
              +++ " section must specify at least one project."),
     st3)
  /\ (trace st3
      = trace st ++ [EnsureFolder (targetRootOf targetFolderParameter)]
      \/ overwriteExisting = true
         /\ trace st3
            = trace st
                ++ [EnsureFolder (targetRootOf targetFolderParameter);
                    EnsureEmptyFolder (targetRootOf targetFolderParameter)]).
Proof.
  intros Hfile Hdisabled Hnone Hready.
  destruct (deployScenario_prepared fuel _ _ _ _ _ Hready)
    as (Hrun & Hloaded & Hcalls).
  split; [|exact Hcalls].
  rewrite Hrun. rewrite Hfile in Hloaded. inversion Hloaded as [Hjson].
  unfold deployScenario_deploy, bind, get. rewrite <- Hjson.
  assert (Hoff : match subdeployments json with
                 | Some sub => truthyBool (enabled sub)
                 | None => false
                 end = false).
  { destruct (subdeployments json); [exact Hdisabled | reflexivity]. }
  rewrite Hoff. destruct Hnone as [-> | ->]; reflexivity.
Qed.

(* ------------------------------------------------------------------ *)
(** *** The names the resolver goes through *)

(** C5.  For a manifest that loads and whose folder is new, what
    [_collectFoldersRecursive] does after recording the folder is the loop of
    lines 118-158 over a set of names, each name once, with a set of lenient
    names for the test of line 144.  The names gone through are those under
    [dependencies], under [devDependencies] when [includeDevDependencies] is
    on, under [peerDependencies] and under [optionalDependencies], and no
    other; the lenient names are those under [peerDependencies] or
    [optionalDependencies], and no other.  So a name found both under
    [dependencies] and under [peerDependencies] is gone through and counts as
    lenient: a falsy result of its resolution is passed over. *)
Theorem resolver_dependency_names (fuel : nat) (packageJsonPath : string)
  (packageJson : IPackageJson) (st : State) :
  Set_has (path_dirname H packageJsonPath)
    (foldersToCopy (subdemploymentState st)) = false ->
  JsonFile_load_package F (disk st) packageJsonPath = Some packageJson ->
  exists names lenient : list string,
    collectFoldersRecursive (S fuel) packageJsonPath st
    = forOf names
        (collectDependency (collectFoldersRecursive fuel) packageJsonPath
           (path_dirname H packageJsonPath) lenient)
        (foldersToCopy_add (path_dirname H packageJsonPath) st)
    /\ NoDup names
    /\ (forall name,
          In name names <->
          In name (Object_keys (dependencies packageJson))
          \/ (includesDev st = true
              /\ In name (Object_keys (devDependencies packageJson)))
          \/ In name (Object_keys (peerDependencies packageJson))
          \/ In name (Object_keys (optionalDependencies packageJson)))
    /\ (forall name,
          Set_has name lenient = true <->
          In name (Object_keys (peerDependencies packageJson))
          \/ In name (Object_keys (optionalDependencies packageJson)))
    /\ (forall name,
          In name (Object_keys (dependencies packageJson)) ->
          In name (Object_keys (peerDependencies packageJson)) ->
          In name names
          /\ forall (rest analyzed : list string) (st1 : State)
               (resolvedDependency : option string),
               resolve_sync F (disk st1) name (path_dirname H packageJsonPath)
               = (analyzed, ResolveReturned resolvedDependency) ->
               truthy resolvedDependency = false ->
               forOf (name :: rest)
                 (collectDependency (collectFoldersRecursive fuel)
                    packageJsonPath (path_dirname H packageJsonPath) lenient)
                 st1
               = forOf rest
                   (collectDependency (collectFoldersRecursive fuel)
                      packageJsonPath (path_dirname H packageJsonPath) lenient)
                   (analyzePaths analyzed st1)).
Proof.
  intros Hnew Hload.
  exists (allDependencyNames (includesDev st) packageJson),
    (optionalDependencyNames packageJson).
  split; [exact (collectFoldersRecursive_descend fuel _ _ st Hnew Hload)|].
  split.
  { unfold allDependencyNames.
    apply Set_addAll_NoDup, Set_addAll_NoDup.
    destruct (includesDev st); repeat apply Set_addAll_NoDup; constructor. }
  split; [intros name; apply dependency_names_membership|].
  split.
  { intros name. rewrite Set_has_In.
    apply (dependency_names_membership (includesDev st) packageJson name). }
  intros name Hdep Hpeer.
  destruct (dependency_names_membership (includesDev st) packageJson name)
    as (_ & _ & Hboth).
  destruct (Hboth (conj Hdep Hpeer)) as (Hin & Hhas).
  split; [exact Hin|].
  intros rest analyzed st1 resolvedDependency Hresolve Hfalsy.
  rewrite (falsy_resolution fuel packageJsonPath _ name rest st1 analyzed
             resolvedDependency Hresolve Hfalsy).
  now rewrite Hhas.
Qed.

End DeployManager.

(* ================================================================== *)
(** ** The class on the sample workspace *)

Import Samples.

Lemma Map_get_In {V : Type} (k : string) (v : V) (m : list (string * V)) :
  Map_get k m = Some v -> In (k, v) m.
Proof.
  induction m as [|[k' v'] m IH]; cbn; [discriminate|].
  destruct (k =? k') eqn:Hk.
  - apply String.eqb_eq in Hk. intros Heq. inversion Heq; subst. now left.
  - intros Hget. right. now apply IH.
Qed.

Lemma workspace_manifests_within :
  manifests_within posixHost posixFs freshDisk packageFolders.
Proof.
  intros resolved p Hlookup. apply Map_get_In in Hlookup.
  cbn in Hlookup.
  destruct Hlookup as [Heq | [Heq | [Heq | []]]]; inversion Heq; subst;
    vm_compute; tauto.
Qed.

(** [app] and [lib] depend on each other: the resolver ends, whatever bound
    above 5 the recursion is given. *)
Lemma resolver_terminates_witness :
  manifests_within posixHost posixFs freshDisk packageFolders
  /\ List.length packageFolders + 2 <= 7
  /\ fst (collectFoldersRecursive posixHost posixFs
            (List.length packageFolders + 2) "/repo/apps/app/package.json"
            (newDeployManager posixFs freshDisk)) <> OutOfFuel
  /\ collectFoldersRecursive posixHost posixFs 7 "/repo/apps/app/package.json"
       (newDeployManager posixFs freshDisk)
     = collectFoldersRecursive posixHost posixFs
         (List.length packageFolders + 2) "/repo/apps/app/package.json"
         (newDeployManager posixFs freshDisk).
Proof.
  assert (Hfuel : List.length packageFolders + 2 <= 7) by (vm_compute; lia).
  split; [exact workspace_manifests_within|]. split; [exact Hfuel|].
  destruct (resolver_terminates posixHost posixFs packageFolders 7
              "/repo/apps/app/package.json"
              (newDeployManager posixFs freshDisk)
              workspace_manifests_within Hfuel) as (Hend & Hsame & _).
  split; [exact Hend | exact Hsame].
Defined.

(** The cycle is entered once: each folder is there once. *)
Example resolver_on_cycle :
  collectFoldersRecursive posixHost posixFs 5 "/repo/apps/app/package.json"
    (newDeployManager posixFs freshDisk)
  = (Returned tt,
     mkState posixFs freshDisk [] [] EmptyString EmptyString
       (mkScenarioJson None None None None None) []
       (mkSubdeploymentState EmptyString ["/repo/apps/app/node_modules/lib"]
          packageFolders)).
Proof. vm_compute. reflexivity. Qed.

(** With [lib] deployed, the folder of the link is made and the link to it
    is created, by its relative path. *)
Example deploySymlink_on_posix :
  deploySymlink posixHost posixFs libLink
    (mkState posixFs ["/deploy/libs/lib"] [] [] "/deploy" "/repo"
       ghostScenario [] (mkSubdeploymentState "/deploy" [] []))
  = (Returned true,
     mkState posixFs
       ["/deploy/libs/lib"; "/deploy/apps/app/node_modules";
        "/deploy/apps/app/node_modules/lib"]
       [EnsureFolder "/deploy/apps/app/node_modules";
        CreateSymbolicLinkFolder "../../../libs/lib"
          "/deploy/apps/app/node_modules/lib"]
       [] "/deploy" "/repo" ghostScenario []
       (mkSubdeploymentState "/deploy" [] [])).
Proof. vm_compute. reflexivity. Qed.

(** Remapping on the sample workspace. *)
Example remap_on_posix :
  remapPathForDeployFolder posixHost posixFs "/repo/apps/app/src"
    (mkState posixFs [] [] [] "/deploy" "/repo" ghostScenario []
       (mkSubdeploymentState "/deploy/one" [] []))
  = (Returned "/deploy/one/apps/app/src",
     mkState posixFs [] [] [] "/deploy" "/repo" ghostScenario []
       (mkSubdeploymentState "/deploy/one" [] []))
  /\ fst (remapPathForDeployFolder posixHost posixFs "/elsewhere/app"
            (mkState posixFs [] [] [] "/deploy" "/repo" ghostScenario []
               (mkSubdeploymentState "/deploy/one" [] [])))
     = Threw ("Source path is not under /repo" +++ newline
                +++ "/elsewhere/app").
Proof. vm_compute. split; reflexivity. Qed.


(** What that copy does: [node_modules] and what is in it is left out, the
    link [README.md] goes to the recorder and is not copied. *)
Example deployFolder_on_app :
  deployFolder posixHost posixFs "/repo/apps/app"
    (mkState posixFs [] [] [] "/deploy" "/repo" ghostScenario []
       (mkSubdeploymentState "/deploy" [] []))
  = (Returned tt,
     mkState posixFs
       ["/deploy/apps/app"; "/deploy/apps/app/package.json";
        "/deploy/apps/app/src"; "/deploy/apps/app/src/index.js"]
       [CopyFolder "/repo/apps/app" "/deploy/apps/app";
        CopyFile "/repo/apps/app/package.json" "/deploy/apps/app/package.json";
        CopyFolder "/repo/apps/app/src" "/deploy/apps/app/src";
        CopyFile "/repo/apps/app/src/index.js" "/deploy/apps/app/src/index.js"]
       [] "/deploy" "/repo" ghostScenario []
       (mkSubdeploymentState "/deploy" ["/repo/apps/app/README.md"] [])).
Proof. vm_compute. reflexivity. Qed.

(** A deploy folder left over from an earlier run, no overwrite flag. *)
Lemma nonempty_target_guard_witness :
  (forall d1,
     fs_apply posixFs (EnsureFolder (targetRootOf posixHost rush None))
       (disk posixFs (newDeployManager posixFs usedDisk)) = Some d1 ->
     FileSystem_readFolder posixFs d1 (targetRootOf posixHost rush None) <> [])
  /\ exists (message : string) (ops : list FsOp),
       fst (deployScenario posixHost posixFs rush 9 "ghost" false None
              (newDeployManager posixFs usedDisk)) = Threw message
       /\ trace posixFs
            (snd (deployScenario posixHost posixFs rush 9 "ghost" false None
                    (newDeployManager posixFs usedDisk)))
          = trace posixFs (newDeployManager posixFs usedDisk) ++ ops
       /\ Forall
            (fun op => op = EnsureFolder (targetRootOf posixHost rush None))
            ops.
Proof.
  assert (Hnonempty :
            forall d1,
              fs_apply posixFs (EnsureFolder (targetRootOf posixHost rush None))
                (disk posixFs (newDeployManager posixFs usedDisk)) = Some d1 ->
              FileSystem_readFolder posixFs d1
                (targetRootOf posixHost rush None) <> []).
  { intros d1 Hd1. vm_compute in Hd1. injection Hd1 as <-.
    vm_compute. discriminate. }
  split; [exact Hnonempty|].
  exact (proj1
           (nonempty_target_guard posixHost posixFs rush 9 "ghost" false None
              (newDeployManager posixFs usedDisk) Hnonempty)
           eq_refl).
Defined.

(** The same run, evaluated, and the run with the overwrite flag on the
    scenario with nothing to deploy. *)
Example deployScenario_on_used_target :
  fst (deployScenario posixHost posixFs rush 9 "ghost" false None
         (newDeployManager posixFs usedDisk))
  = Threw ("The deploy target folder is not empty. You can specify "
             +++ quoted "--overwrite"
             +++ " to recursively delete all folder contents.")
  /\ trace posixFs
       (snd (deployScenario posixHost posixFs rush 9 "ghost" false None
               (newDeployManager posixFs usedDisk)))
     = [EnsureFolder "/repo/common/deploy"].
Proof. vm_compute. split; reflexivity. Qed.

(** Subdeployments enabled and none listed, no project setting either. *)
Lemma empty_subdeployments_succeed_witness :
  JsonFile_load_scenario posixFs
    (disk posixFs (newDeployManager posixFs usedDisk))
    (scenarioPath posixHost rush "empty") = Some emptyScenario
  /\ subdeployments emptyScenario
     = Some (mkSubdeploymentsJson (Some true) None)
  /\ enabled (mkSubdeploymentsJson (Some true) None) = Some true
  /\ (subdeploymentProjects (mkSubdeploymentsJson (Some true) None) = None
      \/ subdeploymentProjects (mkSubdeploymentsJson (Some true) None)
         = Some [])
  /\ fst ((bind posixFs (loadConfigFile posixHost posixFs rush "empty")
             (fun _ =>
                bind posixFs (deployScenario_target posixHost posixFs rush None)
                  (fun _ => deployScenario_prepare posixFs true)))
            (newDeployManager posixFs usedDisk)) = Returned tt
  /\ fst (deployScenario posixHost posixFs rush 9 "empty" true None
            (newDeployManager posixFs usedDisk)) = Returned tt.
Proof.
  split; [reflexivity|]. split; [reflexivity|]. split; [reflexivity|].
  split; [left; reflexivity|]. split; [reflexivity|].
  rewrite (proj1
             (empty_subdeployments_succeed posixHost posixFs rush 9 "empty"
                true None (newDeployManager posixFs usedDisk)
                (snd ((bind posixFs (loadConfigFile posixHost posixFs rush "empty")
                         (fun _ =>
                            bind posixFs
                              (deployScenario_target posixHost posixFs rush None)
                              (fun _ => deployScenario_prepare posixFs true)))
                        (newDeployManager posixFs usedDisk)))
                emptyScenario (mkSubdeploymentsJson (Some true) None)
                eq_refl eq_refl eq_refl (or_introl eq_refl) eq_refl)).
  reflexivity.
Defined.

Example deployScenario_on_empty_scenario :
  fst (deployScenario posixHost posixFs rush 9 "empty" true None
         (newDeployManager posixFs usedDisk)) = Returned tt
  /\ trace posixFs
       (snd (deployScenario posixHost posixFs rush 9 "empty" true None
               (newDeployManager posixFs usedDisk)))
     = [EnsureFolder "/repo/common/deploy";
        EnsureEmptyFolder "/repo/common/deploy"]
  /\ last (console posixFs
             (snd (deployScenario posixHost posixFs rush 9 "empty" true None
                     (newDeployManager posixFs usedDisk)))) EmptyString
     = "SUCCESS".
Proof. vm_compute. repeat split; reflexivity. Qed.

(* ------------------------------------------------------------------ *)
(** *** Where the code leaves what it sets out to do *)

(** C1.  On Windows, for the file link [toolLink] whose remapped target
    [C:\deploy\libs\lib\tool.cmd] exists, the hard link is created with the
    path of the target relative to the folder of the link as its
    [linkTargetPath], not with the remapped target path: line 232 passes
    [relativeTargetPath] under the note "We cannot use the relative path for
    hard links".  The system reads such a path from the working directory:
    here the process runs in the folder of [app], where the path names the
    tool of the source tree, so the call goes through and the link is made to
    that file and not to the deployed one. *)
Theorem hard_link_target_is_relative :
  process_platform win32HostInApp = "win32"
  /\ kind toolLink = fileLink
  /\ FileSystem_exists win32FsInApp win32Disk
       (remapped win32HostInApp win32FsInApp
          (mkState win32FsInApp win32Disk [] [] "C:\deploy" "C:\repo"
             ghostScenario [] (mkSubdeploymentState "C:\deploy" [] []))
          (targetPath toolLink)) = true
  /\ remapped win32HostInApp win32FsInApp
       (mkState win32FsInApp win32Disk [] [] "C:\deploy" "C:\repo"
          ghostScenario [] (mkSubdeploymentState "C:\deploy" [] []))
       (targetPath toolLink) = "C:\deploy\libs\lib\tool.cmd"
  /\ fst (deploySymlink win32HostInApp win32FsInApp toolLink
            (mkState win32FsInApp win32Disk [] [] "C:\deploy" "C:\repo"
               ghostScenario [] (mkSubdeploymentState "C:\deploy" [] [])))
     = Returned true
  /\ trace win32FsInApp
       (snd (deploySymlink win32HostInApp win32FsInApp toolLink
               (mkState win32FsInApp win32Disk [] [] "C:\deploy" "C:\repo"
                  ghostScenario [] (mkSubdeploymentState "C:\deploy" [] []))))
     = [EnsureFolder "C:\deploy\apps\app";
        CreateHardLink "..\..\libs\lib\tool.cmd" "C:\deploy\apps\app\tool.cmd"]
  /\ path_resolve win32HostInApp "..\..\libs\lib\tool.cmd"
     = "C:\repo\libs\lib\tool.cmd".
Proof. repeat split; vm_compute; reflexivity. Qed.

(** C2.  [widget] lists [react] under [peerDependencies] and [fsevents]
    under [optionalDependencies]; neither is installed, so both are in
    [optionalDependencyNames] and [resolve.sync] throws for both.  Nothing
    between lines 119 and 149 catches that exception: the resolver, started
    on [widget], ends on [react] with the error of [resolve.sync], the test
    of line 143 is not reached, and the same happens to the loop when it
    comes to [fsevents]. *)
Theorem missing_lenient_dependency_aborts :
  In "react" (Object_keys (peerDependencies widgetManifest))
  /\ In "fsevents" (Object_keys (optionalDependencies widgetManifest))
  /\ Set_has "react" (optionalDependencyNames widgetManifest) = true
  /\ Set_has "fsevents" (optionalDependencyNames widgetManifest) = true
  /\ resolve_sync posixFs freshDisk "react"
       (path_dirname posixHost "/repo/libs/widget/package.json")
     = ([], ResolveThrew "Cannot find module 'react' from '/repo/libs/widget'")
  /\ fst (collectFoldersRecursive posixHost posixFs 5
            "/repo/libs/widget/package.json"
            (newDeployManager posixFs freshDisk))
     = Threw "Cannot find module 'react' from '/repo/libs/widget'"
  /\ foldersToCopy
       (subdemploymentState posixFs
          (snd (collectFoldersRecursive posixHost posixFs 5
                  "/repo/libs/widget/package.json"
                  (newDeployManager posixFs freshDisk))))
     = ["/repo/libs/widget"; "/repo/common/temp/node_modules/left-pad"]
  /\ forOf posixFs ["fsevents"]
       (collectDependency posixFs (collectFoldersRecursive posixHost posixFs 4)
          "/repo/libs/widget/package.json"
          (path_dirname posixHost "/repo/libs/widget/package.json")
          (optionalDependencyNames widgetManifest))
       (newDeployManager posixFs freshDisk)
     = (Threw "Cannot find module 'fsevents' from '/repo/libs/widget'",
        newDeployManager posixFs freshDisk).
Proof.
  split; [left; reflexivity|]. split; [left; reflexivity|].
  split; [reflexivity|]. split; [reflexivity|]. split; [reflexivity|].
  split; [vm_compute; reflexivity|]. split; [vm_compute; reflexivity|].
  exact (resolution_failure_aborts posixFs
           (collectFoldersRecursive posixHost posixFs 4)
           "/repo/libs/widget/package.json"
           (path_dirname posixHost "/repo/libs/widget/package.json")
           (optionalDependencyNames widgetManifest) "fsevents" []
           (newDeployManager posixFs freshDisk) []
           "Cannot find module 'fsevents' from '/repo/libs/widget'" eq_refl).
Qed.

(** [widget], whose [react] is both a dependency and a peer. *)
Lemma resolver_dependency_names_witness :
  Set_has (path_dirname posixHost "/repo/libs/widget/package.json")
    (foldersToCopy
       (subdemploymentState posixFs (newDeployManager posixFs freshDisk)))
  = false
  /\ JsonFile_load_package posixFs
       (disk posixFs (newDeployManager posixFs freshDisk))
       "/repo/libs/widget/package.json" = Some widgetManifest
  /\ exists names lenient : list string,
       collectFoldersRecursive posixHost posixFs 5
         "/repo/libs/widget/package.json" (newDeployManager posixFs freshDisk)
       = forOf posixFs names
           (collectDependency posixFs
              (collectFoldersRecursive posixHost posixFs 4)
              "/repo/libs/widget/package.json"
              (path_dirname posixHost "/repo/libs/widget/package.json")
              lenient)
           (foldersToCopy_add posixFs
              (path_dirname posixHost "/repo/libs/widget/package.json")
              (newDeployManager posixFs freshDisk))
       /\ (forall name,
             In name names <->
             In name ["left-pad"; "react"; "fsevents"])
       /\ Set_has "react" lenient = true
       /\ Set_has "left-pad" lenient = false.
Proof.
  split; [reflexivity|]. split; [reflexivity|].
  destruct (resolver_dependency_names posixHost posixFs 4
              "/repo/libs/widget/package.json" widgetManifest
              (newDeployManager posixFs freshDisk) eq_refl eq_refl)
    as (names & lenient & Hrun & _ & Hnames & Hlenient & _).
  exists names, lenient. split; [exact Hrun|]. split.
  - intros name. rewrite (Hnames name). cbn. intuition congruence.
  - split.
    + apply Hlenient. left. left. reflexivity.
    + destruct (Set_has "left-pad" lenient) eqn:Hhas; [|reflexivity].
      apply Hlenient in Hhas. cbn in Hhas.
      destruct Hhas as [[Heq | []] | [Heq | []]]; discriminate.
Defined.

(** C6.  The same file link for a process started in [C:\], with the
    remapped target [C:\deploy\libs\lib\tool.cmd] on the disk: the folder of
    the link is made, then [createHardLink] is handed the relative path of
    line 232, which names no file from the working directory; the call
    throws, [_deploySymlink] does not return [true] and no link is there
    afterwards.  With the remapped target path the same call would have gone
    through. *)
Theorem hard_link_is_not_created :
  process_platform win32Host = "win32"
  /\ kind toolLink = fileLink
  /\ FileSystem_exists win32Fs win32Disk
       (remapped win32Host win32Fs
          (mkState win32Fs win32Disk [] [] "C:\deploy" "C:\repo"
             ghostScenario [] (mkSubdeploymentState "C:\deploy" [] []))
          (targetPath toolLink)) = true
  /\ fst (deploySymlink win32Host win32Fs toolLink
            (mkState win32Fs win32Disk [] [] "C:\deploy" "C:\repo"
               ghostScenario [] (mkSubdeploymentState "C:\deploy" [] [])))
     = Threw "file system error"
  /\ trace win32Fs
       (snd (deploySymlink win32Host win32Fs toolLink
               (mkState win32Fs win32Disk [] [] "C:\deploy" "C:\repo"
                  ghostScenario [] (mkSubdeploymentState "C:\deploy" [] []))))
     = [EnsureFolder "C:\deploy\apps\app"]
  /\ disk win32Fs
       (snd (deploySymlink win32Host win32Fs toolLink
               (mkState win32Fs win32Disk [] [] "C:\deploy" "C:\repo"
                  ghostScenario [] (mkSubdeploymentState "C:\deploy" [] []))))
     = win32Disk ++ ["C:\deploy\apps\app"]
  /\ FileSystem_exists win32Fs (win32Disk ++ ["C:\deploy\apps\app"])
       "C:\deploy\apps\app\tool.cmd" = false
  /\ fs_apply win32Fs
       (CreateHardLink "..\..\libs\lib\tool.cmd" "C:\deploy\apps\app\tool.cmd")
       (win32Disk ++ ["C:\deploy\apps\app"]) = None
  /\ fs_apply win32Fs
       (CreateHardLink "C:\deploy\libs\lib\tool.cmd"
          "C:\deploy\apps\app\tool.cmd")
       (win32Disk ++ ["C:\deploy\apps\app"])
     = Some (win32Disk ++ ["C:\deploy\apps\app";
                           "C:\deploy\apps\app\tool.cmd"]).
Proof. repeat split; vm_compute; reflexivity. Qed.

(** C7.  The source root is a folder named [...], the path is its parent
    [/repo].  The parent is not under the root, yet [Path.isUnderOrEqual]
    answers [true], since the way from the path to the root is made of dots
    only; [_remapPathForDeployFolder] does not throw and hands back the
    parent of the target folder, a path that is not under the target
    folder.  A path elsewhere is refused as it should be. *)
Theorem remap_accepts_parent_of_source_root :
  InMemory.liesUnderOrEqual InMemory.posix "/repo" "/repo/..." = false
  /\ Path_isUnderOrEqual posixHost "/repo" "/repo/..." = true
  /\ fst (remapPathForDeployFolder posixHost posixFs "/repo"
            (mkState posixFs [] [] [] "/deploy" "/repo/..." ghostScenario []
               (mkSubdeploymentState "/deploy/out" [] [])))
     = Returned "/deploy"
  /\ InMemory.liesUnderOrEqual InMemory.posix "/deploy" "/deploy/out" = false
  /\ InMemory.liesUnderOrEqual InMemory.posix "/elsewhere" "/repo/..." = false
  /\ fst (remapPathForDeployFolder posixHost posixFs "/elsewhere"
            (mkState posixFs [] [] [] "/deploy" "/repo/..." ghostScenario []
               (mkSubdeploymentState "/deploy/out" [] [])))
     = Threw ("Source path is not under /repo/..." +++ newline
                +++ "/elsewhere").
Proof. repeat split; vm_compute; reflexivity. Qed.

(** C3.  The scenario [ghost] asks, under [additionalProjectsToInclude], for
    a project that the registry does not know.  [_loadConfigFile] returns
    normally all the same (line 79 looks up [projectSetting.projectName]
    again); the run fails only in [_deploySubdeployment], after the target
    folder has been emptied. *)
Theorem additional_project_not_validated :
  getProjectByName rush "ghost" = None
  /\ fst (loadConfigFile posixHost posixFs rush "ghost"
            (newDeployManager posixFs usedDisk)) = Returned tt
  /\ fst (deployScenario posixHost posixFs rush 9 "ghost" true None
            (newDeployManager posixFs usedDisk))
     = Threw "The project ghost is not defined in rush.json"
  /\ trace posixFs
       (snd (deployScenario posixHost posixFs rush 9 "ghost" true None
               (newDeployManager posixFs usedDisk)))
     = [EnsureFolder "/repo/common/deploy";
        EnsureEmptyFolder "/repo/common/deploy"].
Proof. vm_compute. repeat split; reflexivity. Qed.

(* ------------------------------------------------------------------ *)
(** *** The resolver, the scenario and the subdeployments on the samples *)

Lemma resolver_records_only_reachable_witness :
  In "/repo/libs/lib"
    (foldersToCopy
       (subdemploymentState posixFs
          (snd (collectFoldersRecursive posixHost posixFs 5
                  "/repo/apps/app/package.json"
                  (newDeployManager posixFs freshDisk)))))
  /\ (In "/repo/libs/lib" []
      \/ exists q,
           reaches posixHost posixFs freshDisk false
             "/repo/apps/app/package.json" q
           /\ "/repo/libs/lib" = path_dirname posixHost q).
Proof.
  assert (Hin : In "/repo/libs/lib"
                  (foldersToCopy
                     (subdemploymentState posixFs
                        (snd (collectFoldersRecursive posixHost posixFs 5
                                "/repo/apps/app/package.json"
                                (newDeployManager posixFs freshDisk))))))
    by (vm_compute; tauto).
  split; [exact Hin|].
  exact (resolver_records_only_reachable posixHost posixFs 5
           "/repo/apps/app/package.json" (newDeployManager posixFs freshDisk)
           "/repo/libs/lib" Hin).
Defined.

Lemma workspace_manifestsByFolder :
  manifestsByFolder posixHost posixFs freshDisk ["/repo/apps/app/package.json"].
Proof.
  assert (Hknown : forall q,
             isManifest posixFs freshDisk ["/repo/apps/app/package.json"] q ->
             q = "/repo/apps/app/package.json"
             \/ q = "/repo/libs/lib/package.json"
             \/ q = "/repo/common/temp/node_modules/left-pad/package.json").
  { intros q [[<- | []] | (resolved & Hlookup)]; [now left|].
    apply Map_get_In in Hlookup. cbn in Hlookup.
    destruct Hlookup as [Heq | [Heq | [Heq | []]]]; inversion Heq; subst;
      tauto. }
  intros q q' Hq Hq' Hsame.
  destruct (Hknown q Hq) as [-> | [-> | ->]];
    destruct (Hknown q' Hq') as [-> | [-> | ->]];
    first [reflexivity | vm_compute in Hsame; discriminate].
Qed.

(** From the empty set of a new subdeployment, the resolver started on
    [app] records [lib] and [left-pad]. *)
Lemma resolver_records_all_reachable_witness :
  manifestsByFolder posixHost posixFs freshDisk ["/repo/apps/app/package.json"]
  /\ In "/repo/apps/app/package.json" ["/repo/apps/app/package.json"]
  /\ closedUnder posixHost posixFs freshDisk false
       ["/repo/apps/app/package.json"] []
  /\ fst (collectFoldersRecursive posixHost posixFs 5
            "/repo/apps/app/package.json" (newDeployManager posixFs freshDisk))
     = Returned tt
  /\ forall q,
       reaches posixHost posixFs freshDisk false
         "/repo/apps/app/package.json" q ->
       In (path_dirname posixHost q) packageFolders.
Proof.
  assert (Hroot : In "/repo/apps/app/package.json"
                    ["/repo/apps/app/package.json"]) by (left; reflexivity).
  assert (Hclosed : closedUnder posixHost posixFs freshDisk false
                      ["/repo/apps/app/package.json"] [])
    by (intros q _ []).
  split; [exact workspace_manifestsByFolder|]. split; [exact Hroot|].
  split; [exact Hclosed|]. split; [reflexivity|].
  intros q Hq.
  destruct (resolver_records_all_reachable posixHost posixFs 5
              ["/repo/apps/app/package.json"] "/repo/apps/app/package.json"
              (newDeployManager posixFs freshDisk)
              (snd (collectFoldersRecursive posixHost posixFs 5
                      "/repo/apps/app/package.json"
                      (newDeployManager posixFs freshDisk)))
              workspace_manifestsByFolder Hroot Hclosed eq_refl)
    as (_ & Hall).
  specialize (Hall q Hq). vm_compute in Hall. vm_compute. tauto.
Defined.

(** [stray] is the first unknown project of the settings; [lib], which comes
    after it, is not in the map. *)
Lemma scenario_first_unknown_project_witness :
  FileSystem_exists plainFs plainDisk (scenarioPath posixHost rush "stray")
  = true
  /\ JsonFile_load_scenario plainFs plainDisk
       (scenarioPath posixHost rush "stray") = Some strayScenario
  /\ projectSettings strayScenario
     = Some ([mkProjectJson "app" None None]
               ++ mkProjectJson "stray" None None
               :: [mkProjectJson "lib" None None])
  /\ Forall (fun setting => registered rush (projectName setting))
       [mkProjectJson "app" None None]
  /\ ~ registered rush "stray"
  /\ fst (loadConfigFile posixHost plainFs rush "stray"
            (newDeployManager plainFs plainDisk))
     = Threw (unknownProjectSetting "stray")
  /\ Map_get "lib"
       (_deployScenarioProjectJsonsByName plainFs
          (snd (loadConfigFile posixHost plainFs rush "stray"
                  (newDeployManager plainFs plainDisk))))
     = None.
Proof.
  assert (Hgood : Forall (fun setting => registered rush (projectName setting))
                    [mkProjectJson "app" None None])
    by (repeat constructor).
  assert (Hbad : ~ registered rush "stray") by (vm_compute; discriminate).
  split; [reflexivity|]. split; [reflexivity|]. split; [reflexivity|].
  split; [exact Hgood|]. split; [exact Hbad|].
  destruct (scenario_first_unknown_project posixHost plainFs rush "stray"
              (newDeployManager plainFs plainDisk) strayScenario
              [mkProjectJson "app" None None] (mkProjectJson "stray" None None)
              [mkProjectJson "lib" None None] eq_refl eq_refl eq_refl
              Hgood Hbad) as (Hthrows & Hmap).
  split; [exact Hthrows|]. exact (Hmap "lib").
Defined.

Lemma scenario_settings_by_name_witness :
  JsonFile_load_scenario posixFs freshDisk (scenarioPath posixHost rush "ghost")
  = Some ghostScenario
  /\ fst (loadConfigFile posixHost posixFs rush "ghost"
            (newDeployManager posixFs freshDisk)) = Returned tt
  /\ Map_get "app"
       (_deployScenarioProjectJsonsByName posixFs
          (snd (loadConfigFile posixHost posixFs rush "ghost"
                  (newDeployManager posixFs freshDisk))))
     = Some (mkProjectJson "app" None (Some ["ghost"])).
Proof.
  split; [reflexivity|]. split; [reflexivity|].
  exact (proj2
           (scenario_settings_by_name posixHost posixFs rush "ghost"
              (newDeployManager posixFs freshDisk) ghostScenario
              eq_refl eq_refl) "app").
Defined.

(** [app] asks for the additional project [ghost]: its subdeployment stops
    before the copy. *)
Lemma unknown_project_stops_subdeployment_witness :
  In "ghost"
    (includedProjectNamesSet
       (_deployScenarioProjectJsonsByName posixFs
          (snd (loadConfigFile posixHost posixFs rush "ghost"
                  (newDeployManager posixFs freshDisk))))
       ["app"])
  /\ getProjectByName rush "ghost" = None
  /\ trace posixFs
       (snd (deploySubdeployment posixHost posixFs rush 5 ["app"] None
               (snd (loadConfigFile posixHost posixFs rush "ghost"
                       (newDeployManager posixFs freshDisk)))))
     = [].
Proof.
  assert (Hin : In "ghost"
                  (includedProjectNamesSet
                     (_deployScenarioProjectJsonsByName posixFs
                        (snd (loadConfigFile posixHost posixFs rush "ghost"
                                (newDeployManager posixFs freshDisk))))
                     ["app"]))
    by (vm_compute; tauto).
  split; [exact Hin|]. split; [reflexivity|].
  exact (proj1 (proj2
           (unknown_project_stops_subdeployment posixHost posixFs rush 5
              ["app"] None
              (snd (loadConfigFile posixHost posixFs rush "ghost"
                      (newDeployManager posixFs freshDisk)))
              "ghost" Hin eq_refl))).
Defined.

(** The subdeployments of [app] and [lib] go to the folders [app] and
    [lib]. *)
Lemma subdeployment_folders_distinct_witness :
  fst (deployScenario_subdeployments posixHost plainFs rush 3 ["app"; "lib"] []
         (mkState plainFs plainDisk [] [] "/repo/common/deploy" "/repo"
            bareScenario [] (mkSubdeploymentState EmptyString [] [])))
  = Returned tt
  /\ NoDup (map (subdeploymentFolderNameOf rush []) ["app"; "lib"]).
Proof.
  assert (Hrun : deployScenario_subdeployments posixHost plainFs rush 3
                   ["app"; "lib"] []
                   (mkState plainFs plainDisk [] [] "/repo/common/deploy"
                      "/repo" bareScenario []
                      (mkSubdeploymentState EmptyString [] []))
                 = (Returned tt,
                    snd (deployScenario_subdeployments posixHost plainFs rush 3
                           ["app"; "lib"] []
                           (mkState plainFs plainDisk [] []
                              "/repo/common/deploy" "/repo" bareScenario []
                              (mkSubdeploymentState EmptyString [] [])))))
    by (vm_compute; reflexivity).
  split; [vm_compute; reflexivity|].
  exact (proj1 (proj2
           (subdeployment_folders_distinct posixHost plainFs rush 3
              ["app"; "lib"] [] _ _ Hrun))).
Defined.

Lemma missing_target_folder_witness :
  truthy (Some "/nowhere") = true
  /\ FileSystem_exists posixFs usedDisk
       (path_resolve posixHost (orEmptyString (Some "/nowhere"))) = false
  /\ exists message st',
       deployScenario posixHost posixFs rush 9 "empty" true (Some "/nowhere")
         (newDeployManager posixFs usedDisk) = (Threw message, st')
       /\ trace posixFs st' = []
       /\ disk posixFs st' = usedDisk
       /\ (fst (loadConfigFile posixHost posixFs rush "empty"
                  (newDeployManager posixFs usedDisk)) = Returned tt ->
           message
           = "The specified target folder does not exist: "
               +++ JSON_stringify posixHost (orEmptyString (Some "/nowhere"))).
Proof.
  split; [reflexivity|]. split; [reflexivity|].
  exact (missing_target_folder posixHost posixFs rush 9 "empty" true
           (Some "/nowhere") (newDeployManager posixFs usedDisk)
           eq_refl eq_refl).
Defined.

(** The bare scenario names no project: the run fails after the target
    folder has been ensured. *)
Lemma no_projects_specified_witness :
  JsonFile_load_scenario plainFs plainDisk (scenarioPath posixHost rush "bare")
  = Some bareScenario
  /\ (projectSettings bareScenario = None
      \/ projectSettings bareScenario = Some [])
  /\ fst ((bind plainFs (loadConfigFile posixHost plainFs rush "bare")
             (fun _ =>
                bind plainFs (deployScenario_target posixHost plainFs rush None)
                  (fun _ => deployScenario_prepare plainFs false)))
            (newDeployManager plainFs plainDisk)) = Returned tt
  /\ fst (deployScenario posixHost plainFs rush 9 "bare" false None
            (newDeployManager plainFs plainDisk))
     = Threw ("No projects were specified to be deployed."
                +++ " If subdeployments.enabled is false,"
                +++ " then the " +++ quoted "projectSettings"
                +++ " section must specify at least one project.").
Proof.
  split; [reflexivity|]. split; [left; reflexivity|]. split; [reflexivity|].
  rewrite (proj1
             (no_projects_specified posixHost plainFs rush 9 "bare" false None
                (newDeployManager plainFs plainDisk)
                (snd ((bind plainFs (loadConfigFile posixHost plainFs rush "bare")
                         (fun _ =>
                            bind plainFs
                              (deployScenario_target posixHost plainFs rush None)
                              (fun _ => deployScenario_prepare plainFs false)))
                        (newDeployManager plainFs plainDisk)))
                bareScenario eq_refl I (or_introl eq_refl) eq_refl)).
  reflexivity.
Defined.

Example deployScenario_on_bare_scenario :
  trace plainFs
    (snd (deployScenario posixHost plainFs rush 9 "bare" false None
            (newDeployManager plainFs plainDisk)))
  = [EnsureFolder "/repo/common/deploy"].
Proof. vm_compute. reflexivity. Qed.

(* ================================================================== *)
(** ** lockfile-explorer: properties *)

Import LockfileExplorer.

Lemma length_append (a b : string) :
  String.length (a +++ b) = String.length a + String.length b.
Proof. induction a as [|c a IH]; cbn; [reflexivity | now rewrite IH]. Qed.

Lemma substring_all (s : string) : substring 0 (String.length s) s = s.
Proof. induction s as [|c s IH]; cbn; [reflexivity | now rewrite IH]. Qed.

Lemma substring_app_left (a b : string) :
  substring 0 (String.length a) (a +++ b) = a.
Proof.
  induction a as [|c a IH]; cbn.
  - destruct b; reflexivity.
  - now rewrite IH.
Qed.

Lemma substring_app_right (a b : string) (n : nat) :
  substring (String.length a) n (a +++ b) = substring 0 n b.
Proof. induction a as [|c a IH]; cbn; [reflexivity | exact IH]. Qed.

Lemma substring_nothing (s : string) (n : nat) : substring n 0 s = EmptyString.
Proof.
  revert n. induction s as [|c s IH]; intros [|n]; cbn; try reflexivity.
  apply IH.
Qed.

(** Searching from the end of a prefix is searching what follows it. *)
Lemma index_app_shift (a b search : string) :
  index (String.length a) search (a +++ b)
  = option_map (fun i => String.length a + i) (index 0 search b).
Proof.
  induction a as [|c a IH]; cbn [String.length append].
  - destruct (index 0 search b); reflexivity.
  - cbn [index]. rewrite IH. destruct (index 0 search b); reflexivity.
Qed.

Lemma index_first_char (c : ascii) (pre post : string) :
  contains c pre = false ->
  index 0 (String c EmptyString) (pre +++ String c EmptyString +++ post)
  = Some (String.length pre).
Proof.
  change (String c EmptyString +++ post) with (String c post).
  induction pre as [|c' pre IH]; cbn [contains append]; intros Hnot.
  - cbn. destruct (ascii_dec c c); [|congruence]. now destruct post.
  - apply Bool.orb_false_iff in Hnot. destruct Hnot as (Hc & Hpre).
    cbn [index prefix].
    destruct (ascii_dec c c') as [-> | Hneq].
    + rewrite Ascii.eqb_refl in Hc. discriminate.
    + rewrite (IH Hpre). reflexivity.
Qed.

Lemma index_no_char (c : ascii) (s : string) :
  contains c s = false -> index 0 (String c EmptyString) s = None.
Proof.
  induction s as [|c' s IH]; cbn [contains]; intros Hnot; [reflexivity|].
  apply Bool.orb_false_iff in Hnot. destruct Hnot as (Hc & Hs).
  cbn [index prefix].
  destruct (ascii_dec c c') as [-> | Hneq].
  - rewrite Ascii.eqb_refl in Hc. discriminate.
  - now rewrite (IH Hs).
Qed.

(** A found position is inside the string, at or after the start of the
    search, and holds the pattern. *)
Lemma index_found (search s : string) :
  forall from i,
    index from search s = Some i ->
    from <= i
    /\ i + String.length search <= String.length s
    /\ s = substring 0 i s +++ search
             +++ substring (i + String.length search)
                   (String.length s - (i + String.length search)) s.
Proof.
  induction s as [|c s IH]; intros from i Hfound.
  - destruct from; [|discriminate]. destruct search; [|discriminate].
    inversion Hfound; subst. cbn. auto.
  - destruct from as [|from]; cbn [index] in Hfound.
    + destruct (prefix search (String c s)) eqn:Hprefix.
      * inversion Hfound; subst i. clear Hfound.
        apply prefix_correct in Hprefix.
        assert (Hlen : String.length search <= String.length (String c s)).
        { destruct (Nat.le_gt_cases (String.length search)
                      (String.length (String c s))) as [Hle | Hgt];
            [exact Hle|].
          exfalso.
          assert (Hget : String.get (String.length (String c s))
                           (substring 0 (String.length search) (String c s))
                         = String.get (String.length (String c s)) search)
            by now rewrite Hprefix.
          rewrite substring_correct1 in Hget by exact Hgt.
          rewrite Nat.add_0_r in Hget.
          assert (Hnone : forall t, String.get (String.length t) t = None).
          { induction t as [|c0 t IHt]; [reflexivity | exact IHt]. }
          rewrite Hnone in Hget.
          assert (Hsome : forall t n, n < String.length t -> String.get n t <> None).
          { induction t as [|c0 t IHt]; intros n Hn; cbn in Hn; [lia|].
            destruct n; cbn; [discriminate | apply IHt; lia]. }
          symmetry in Hget. exact (Hsome _ _ Hgt Hget). }
        split; [lia|]. split; [exact Hlen|].
        cbn [Nat.add]. rewrite substring_nothing. cbn [append].
        assert (Hsplit : forall t n,
                  n <= String.length t ->
                  t = substring 0 n t
                        +++ substring n (String.length t - n) t).
        { induction t as [|c0 t IHt]; intros n Hn.
          - destruct n; reflexivity.
          - destruct n as [|n]; cbn [substring String.length Nat.sub append].
            + now rewrite substring_all.
            + cbn in Hn. rewrite <- IHt by lia. reflexivity. }
        pose proof (Hsplit (String c s) (String.length search) Hlen) as Hs.
        rewrite Hprefix in Hs. exact Hs.
      * destruct (index 0 search s) as [j|] eqn:Hrest; [|discriminate].
        inversion Hfound; subst i. clear Hfound.
        destruct (IH 0 j Hrest) as (_ & Hlen & Heq).
        split; [lia|]. split; [cbn; lia|].
        cbn [substring Nat.add String.length Nat.sub append].
        rewrite <- Heq. reflexivity.
    + destruct (index from search s) as [j|] eqn:Hrest; [|discriminate].
      inversion Hfound; subst i. clear Hfound.
      destruct (IH from j Hrest) as (Hfrom & Hlen & Heq).
      split; [lia|]. split; [cbn; lia|].
      cbn [substring Nat.add String.length Nat.sub append].
      rewrite <- Heq. reflexivity.
Qed.

(** [substring] with both ends inside the string. *)
Lemma String_substring_prefix (s : string) (i : nat) :
  i <= String.length s ->
  String_substring 0 (Some (Z.of_nat i)) s = substring 0 i s.
Proof.
  intros Hi. unfold String_substring. cbv zeta.
  replace (Z.to_nat (Z.min (Z.min (Z.max 0 0) (Z.of_nat (String.length s)))
                       (Z.min (Z.max (Z.of_nat i) 0)
                          (Z.of_nat (String.length s))))) with 0 by lia.
  replace (Z.to_nat _) with i by lia. reflexivity.
Qed.

Lemma String_substring_suffix (s : string) (i : nat) :
  i <= String.length s ->
  String_substring (Z.of_nat i) None s
  = substring i (String.length s - i) s.
Proof.
  intros Hi. unfold String_substring. cbv zeta.
  replace (Z.to_nat (Z.min (Z.min (Z.max (Z.of_nat i) 0)
                              (Z.of_nat (String.length s)))
                       (Z.of_nat (String.length s)))) with i by lia.
  replace (Z.to_nat _) with (String.length s - i) by lia. reflexivity.
Qed.

Lemma String_substring_negative_end (s : string) :
  String_substring 0 (Some (-1)%Z) s = EmptyString.
Proof.
  unfold String_substring. cbv zeta.
  replace (Z.to_nat (Z.max _ _ - Z.min _ _)) with 0 by lia.
  apply substring_nothing.
Qed.

(** X13.  Whatever [convertLockfileV6DepPathToV5DepPath] is given, what it
    returns is the path itself, or the path with one of its [@] replaced by
    [/], or (when no [@] is found after the first [/@]) the path with a [/]
    put in front. *)
Theorem convert_shape (dp : DependencyPathApi) (newDepPath : string) :
  convertLockfileV6DepPathToV5DepPath dp newDepPath = newDepPath
  \/ convertLockfileV6DepPathToV5DepPath dp newDepPath = "/" +++ newDepPath
  \/ exists pre post,
       newDepPath = pre +++ "@" +++ post
       /\ convertLockfileV6DepPathToV5DepPath dp newDepPath
          = pre +++ "/" +++ post.
Proof.
  unfold convertLockfileV6DepPathToV5DepPath.
  destruct (negb (String_includes "@" 2 newDepPath)
            || String_startsWith "file:" newDepPath); [now left|].
  cbv zeta.
  destruct (String_includes "(" 0 newDepPath && _); [now left|].
  right. set (from := (String_indexOf "/@" 0 newDepPath + 2)%Z).
  unfold String_indexOf.
  destruct (index (Z.to_nat (Z.max 0 from)) "@" newDepPath) as [i|] eqn:Hindex.
  - right. destruct (index_found _ _ _ _ Hindex) as (_ & Hlen & Heq).
    cbn [String.length] in Hlen, Heq.
    exists (substring 0 i newDepPath),
      (substring (i + 1) (String.length newDepPath - (i + 1)) newDepPath).
    split; [exact Heq|].
    rewrite String_substring_prefix by lia.
    replace (Z.of_nat i + 1)%Z with (Z.of_nat (i + 1)) by lia.
    rewrite String_substring_suffix by lia. reflexivity.
  - left. rewrite String_substring_negative_end.
    change (-1 + 1)%Z with (Z.of_nat 0).
    rewrite String_substring_suffix by lia.
    rewrite Nat.sub_0_r, substring_all. reflexivity.
Qed.

Lemma append_assoc3 (a b c : string) : (a +++ b) +++ c = a +++ b +++ c.
Proof. induction a as [|x a IH]; cbn; [reflexivity | now rewrite IH]. Qed.

Lemma contains_append (c : ascii) (a b : string) :
  contains c (a +++ b) = contains c a || contains c b.
Proof.
  induction a as [|x a IH]; cbn; [reflexivity|].
  rewrite IH. apply Bool.orb_assoc.
Qed.

(** The conversion when the [@] that is found is the one after [pre]. *)
Lemma convert_at (dp : DependencyPathApi) (pre post : string) :
  String_includes "@" 2 (pre +++ "@" +++ post) = true ->
  String_startsWith "file:" (pre +++ "@" +++ post) = false ->
  String_indexOf "@" (String_indexOf "/@" 0 (pre +++ "@" +++ post) + 2)
    (pre +++ "@" +++ post) = Z.of_nat (String.length pre) ->
  String_includes "(" 0 (pre +++ "@" +++ post) = false
  \/ (Z.of_nat (String.length pre)
      <= dp_indexOfPeersSuffix dp (pre +++ "@" +++ post))%Z ->
  convertLockfileV6DepPathToV5DepPath dp (pre +++ "@" +++ post)
  = pre +++ "/" +++ post.
Proof.
  intros Hincludes Hfile Hindex Hguard.
  unfold convertLockfileV6DepPathToV5DepPath.
  rewrite Hincludes, Hfile. cbn [negb orb]. cbv zeta. rewrite Hindex.
  assert (Hoff : String_includes "(" 0 (pre +++ "@" +++ post)
                 && (dp_indexOfPeersSuffix dp (pre +++ "@" +++ post)
                     <? Z.of_nat (String.length pre))%Z = false).
  { destruct Hguard as [-> | Hle]; [reflexivity|].
    apply Bool.andb_false_iff. right. apply Z.ltb_ge, Hle. }
  rewrite Hoff.
  assert (Hlen : String.length (pre +++ "@" +++ post)
                 = String.length pre + 1 + String.length post).
  { rewrite !length_append. cbn. lia. }
  rewrite String_substring_prefix by lia.
  rewrite substring_app_left.
  replace (Z.of_nat (String.length pre) + 1)%Z
    with (Z.of_nat (String.length pre + 1)) by lia.
  rewrite String_substring_suffix by lia.
  rewrite Hlen.
  replace (String.length pre + 1) with (String.length (pre +++ "@"))
    by (rewrite length_append; reflexivity).
  rewrite <- (append_assoc3 pre "@" post).
  rewrite substring_app_right.
  replace (String.length (pre +++ "@") + String.length post
           - String.length (pre +++ "@")) with (String.length post) by lia.
  now rewrite substring_all.
Qed.

Lemma String_indexOf_shift (a b search : string) :
  String_indexOf search (Z.of_nat (String.length a)) (a +++ b)
  = match index 0 search b with
    | Some i => Z.of_nat (String.length a + i)
    | None => (-1)%Z
    end.
Proof.
  unfold String_indexOf.
  replace (Z.to_nat (Z.max 0 (Z.of_nat (String.length a))))
    with (String.length a) by lia.
  rewrite index_app_shift. destruct (index 0 search b); reflexivity.
Qed.

(** X14.  A version-6 path [/name@version] that holds no [/@] and whose
    name is not empty and holds no [@] becomes [/name/version], as long as
    the path has no [(] or its peers suffix does not start before the [@]. *)
Theorem convert_unscoped (dp : DependencyPathApi) (name version : string) :
  name <> EmptyString ->
  contains "@" name = false ->
  String_indexOf "/@" 0 ("/" +++ name +++ "@" +++ version) = (-1)%Z ->
  String_includes "(" 0 ("/" +++ name +++ "@" +++ version) = false
  \/ (Z.of_nat (String.length name) + 1
      <= dp_indexOfPeersSuffix dp ("/" +++ name +++ "@" +++ version))%Z ->
  convertLockfileV6DepPathToV5DepPath dp ("/" +++ name +++ "@" +++ version)
  = "/" +++ name +++ "/" +++ version.
Proof.
  intros Hname Hat Hscope Hguard.
  rewrite <- (append_assoc3 "/" name ("@" +++ version)) in *.
  rewrite <- (append_assoc3 "/" name ("/" +++ version)).
  apply convert_at.
  - destruct name as [|c name]; [congruence|].
    cbn [contains] in Hat. apply Bool.orb_false_iff in Hat.
    destruct Hat as (_ & Hat).
    change (("/" +++ String c name) +++ "@" +++ version)
      with (String "/" (String c EmptyString) +++ name +++ "@" +++ version).
    unfold String_includes.
    change 2%Z
      with (Z.of_nat (String.length (String "/" (String c EmptyString)))).
    rewrite String_indexOf_shift.
    rewrite (index_first_char "@"%char name version Hat).
    apply Bool.negb_true_iff, Z.eqb_neq. lia.
  - reflexivity.
  - rewrite Hscope. change (-1 + 2)%Z with (Z.of_nat (String.length "/")).
    rewrite (append_assoc3 "/" name ("@" +++ version)).
    rewrite String_indexOf_shift.
    rewrite (index_first_char "@"%char name version Hat).
    rewrite length_append. reflexivity.
  - destruct Hguard as [Hnone | Hle]; [now left | right].
    rewrite length_append. cbn [String.length]. lia.
Qed.

(** X15.  A version-6 path [/@scope/name@version] whose scope and name hold
    no [@] becomes [/@scope/name/version], as long as the path has no [(] or
    its peers suffix does not start before that [@]. *)
Theorem convert_scoped (dp : DependencyPathApi) (scope name version : string) :
  contains "@" scope = false ->
  contains "@" name = false ->
  String_includes "(" 0 ("/@" +++ scope +++ "/" +++ name +++ "@" +++ version)
  = false
  \/ (Z.of_nat (String.length scope + String.length name) + 3
      <= dp_indexOfPeersSuffix dp
           ("/@" +++ scope +++ "/" +++ name +++ "@" +++ version))%Z ->
  convertLockfileV6DepPathToV5DepPath dp
    ("/@" +++ scope +++ "/" +++ name +++ "@" +++ version)
  = "/@" +++ scope +++ "/" +++ name +++ "/" +++ version.
Proof.
  intros Hscope Hname Hguard.
  assert (Hshape : forall tail,
            "/@" +++ scope +++ "/" +++ name +++ tail
            = ("/@" +++ scope +++ "/" +++ name) +++ tail).
  { intros tail.
    rewrite <- (append_assoc3 scope "/" (name +++ tail)).
    rewrite <- (append_assoc3 (scope +++ "/") name tail).
    rewrite <- (append_assoc3 "/@" ((scope +++ "/") +++ name) tail).
    rewrite (append_assoc3 scope "/" name). reflexivity. }
  rewrite (Hshape ("@" +++ version)) in *. rewrite (Hshape ("/" +++ version)).
  assert (Hinner : contains "@" (scope +++ "/" +++ name) = false).
  { rewrite !contains_append, Hscope, Hname. reflexivity. }
  assert (Hfrom2 : String_indexOf "@" 2
                     (("/@" +++ scope +++ "/" +++ name) +++ "@" +++ version)
                   = Z.of_nat (String.length ("/@" +++ scope +++ "/" +++ name))).
  { rewrite (append_assoc3 "/@" (scope +++ "/" +++ name) ("@" +++ version)).
    change 2%Z with (Z.of_nat (String.length "/@")).
    rewrite String_indexOf_shift.
    rewrite (index_first_char "@"%char (scope +++ "/" +++ name) version Hinner).
    rewrite !length_append. cbn [String.length]. lia. }
  apply convert_at.
  - unfold String_includes. rewrite Hfrom2.
    apply Bool.negb_true_iff, Z.eqb_neq. lia.
  - reflexivity.
  - assert (Hat0 : String_indexOf "/@" 0
                     (("/@" +++ scope +++ "/" +++ name) +++ "@" +++ version)
                   = 0%Z).
    { assert (Hempty : forall s, prefix EmptyString s = true)
        by (intros []; reflexivity).
      unfold String_indexOf. cbn. rewrite Hempty. reflexivity. }
    rewrite Hat0. exact Hfrom2.
  - destruct Hguard as [Hnone | Hle]; [now left | right].
    rewrite !length_append. cbn [String.length]. lia.
Qed.

(* ------------------------------------------------------------------ *)
(** *** [getShrinkwrapFileMajorVersion] *)

(** X16.  When [getShrinkwrapFileMajorVersion] returns, what it returns is
    5, 6 or NaN: the range check of line 46 stops every other number, and
    lets NaN through. *)
Theorem major_version_range (lockfileVersion : LockfileVersion)
  (major : JsIntegral) :
  getShrinkwrapFileMajorVersion lockfileVersion = Normal major ->
  major = Integer 5 \/ major = Integer 6 \/ major = NaN.
Proof.
  unfold getShrinkwrapFileMajorVersion. cbv zeta.
  match goal with
  | |- (if lessThan ?v 5 || greaterThan ?v 6 then _ else _) = _ -> _ =>
      generalize v
  end.
  intros v. destruct v as [|negative|z]; cbn [lessThan greaterThan].
  - intros Heq. inversion Heq. auto.
  - destruct negative; discriminate.
  - destruct (z <? 5)%Z eqn:Hlow; [discriminate|].
    destruct (6 <? z)%Z eqn:Hhigh; [discriminate|].
    intros Heq. inversion Heq; subst major.
    apply Z.ltb_ge in Hlow, Hhigh.
    assert (z = 5 \/ z = 6)%Z as [-> | ->] by lia; auto.
Qed.

(** X17.  For a finite number the result is its floor when the number is
    at least 5 and below 7, and the error otherwise. *)
Theorem major_version_of_number (q : QArith_base.Q) :
  (QArith_base.Qle (QArith_base.inject_Z 5) q
   /\ QArith_base.Qlt q (QArith_base.inject_Z 7) ->
   getShrinkwrapFileMajorVersion (VersionNumber (NumberFinite q))
   = Normal (Integer (Qround.Qfloor q))
   /\ (Qround.Qfloor q = 5 \/ Qround.Qfloor q = 6)%Z)
  /\ (QArith_base.Qlt q (QArith_base.inject_Z 5)
      \/ QArith_base.Qle (QArith_base.inject_Z 7) q ->
      getShrinkwrapFileMajorVersion (VersionNumber (NumberFinite q))
      = Abrupt notSupported).
Proof.
  unfold getShrinkwrapFileMajorVersion. cbn [Math_floor lessThan greaterThan].
  pose proof (Qround.Qfloor_le q) as Hfloor.
  pose proof (Qround.Qlt_floor q) as Hnext.
  split.
  - intros (Hlow & Hhigh).
    assert (H5 : (5 <= Qround.Qfloor q)%Z).
    { rewrite <- (Qround.Qfloor_Z 5). now apply Qround.Qfloor_resp_le. }
    assert (H7 : (Qround.Qfloor q < 7)%Z).
    { rewrite QArith_base.Zlt_Qlt.
      eapply QArith_base.Qle_lt_trans; eassumption. }
    assert (Hl : (Qround.Qfloor q <? 5)%Z = false) by (apply Z.ltb_ge; lia).
    assert (Hh : (6 <? Qround.Qfloor q)%Z = false) by (apply Z.ltb_ge; lia).
    rewrite Hl, Hh. split; [reflexivity | lia].
  - intros [Hlow | Hhigh].
    + assert (H5 : (Qround.Qfloor q < 5)%Z).
      { rewrite QArith_base.Zlt_Qlt.
        eapply QArith_base.Qle_lt_trans; eassumption. }
      apply Z.ltb_lt in H5. rewrite H5. reflexivity.
    + assert (H7 : (7 <= Qround.Qfloor q)%Z).
      { rewrite <- (Qround.Qfloor_Z 7). now apply Qround.Qfloor_resp_le. }
      assert (Hh : (6 <? Qround.Qfloor q)%Z = true) by (apply Z.ltb_lt; lia).
      rewrite Hh, Bool.orb_true_r. reflexivity.
Qed.

Lemma digit_is_plain (c : ascii) :
  isDigit c = true ->
  isStrWhiteSpaceChar c = false
  /\ Ascii.eqb c "-"%char = false
  /\ Ascii.eqb c "+"%char = false
  /\ Ascii.eqb c "."%char = false.
Proof.
  unfold isDigit, digitValue, isStrWhiteSpaceChar. cbv zeta.
  destruct (Nat.leb 48 (nat_of_ascii c) && Nat.leb (nat_of_ascii c) 57)
    eqn:Hrange; [|discriminate].
  intros _. apply Bool.andb_true_iff in Hrange. destruct Hrange as (Hlow & Hhigh).
  apply Nat.leb_le in Hlow, Hhigh.
  assert (Hother : forall c', nat_of_ascii c' < 48 -> Ascii.eqb c c' = false).
  { intros c' Hc'. destruct (Ascii.eqb c c') eqn:Heq; [|reflexivity].
    apply Ascii.eqb_eq in Heq. subst c'. lia. }
  repeat split.
  - assert (H13 : Nat.leb (nat_of_ascii c) 13 = false) by (apply Nat.leb_gt; lia).
    assert (H32 : Nat.eqb (nat_of_ascii c) 32 = false) by (apply Nat.eqb_neq; lia).
    assert (H160 : Nat.eqb (nat_of_ascii c) 160 = false) by (apply Nat.eqb_neq; lia).
    rewrite H13, H32, H160, Bool.andb_false_r. reflexivity.
  - apply Hother. cbn. lia.
  - apply Hother. cbn. lia.
  - apply Hother. cbn. lia.
Qed.

Lemma digits_hold_no_dot (digits : string) :
  allDigits digits = true -> contains "."%char digits = false.
Proof.
  induction digits as [|c digits IH]; cbn [allDigits contains];
    [reflexivity|].
  intros Hall. apply Bool.andb_true_iff in Hall. destruct Hall as (Hc & Hrest).
  destruct (digit_is_plain c Hc) as (_ & _ & _ & Hdot).
  rewrite Hdot, (IH Hrest). reflexivity.
Qed.

Lemma parseDigits_all (digits : string) :
  allDigits digits = true ->
  forall a,
    parseDigits digits (Some a)
    = Some (fold_left
              (fun acc c =>
                 (10 * acc
                  + match digitValue c with Some d => d | None => 0 end)%Z)
              (list_ascii_of_string digits) a).
Proof.
  induction digits as [|c digits IH]; cbn [allDigits]; intros Hall a;
    [reflexivity|].
  apply Bool.andb_true_iff in Hall. destruct Hall as (Hc & Hrest).
  cbn [parseDigits list_ascii_of_string fold_left].
  unfold isDigit in Hc. destruct (digitValue c) as [d|]; [|discriminate].
  apply (IH Hrest).
Qed.

Lemma parseInt10_digits (digits : string) :
  digits <> EmptyString -> allDigits digits = true ->
  parseInt10 digits = Integer (decimalValue digits).
Proof.
  intros Hnonempty Hall. destruct digits as [|c digits]; [congruence|].
  cbn [allDigits] in Hall. apply Bool.andb_true_iff in Hall.
  destruct Hall as (Hc & Hrest).
  destruct (digit_is_plain c Hc) as (Hspace & Hminus & Hplus & _).
  unfold parseInt10. cbn [trimStart]. rewrite Hspace, Hminus, Hplus.
  unfold decimalValue. cbn [parseDigits list_ascii_of_string fold_left].
  unfold isDigit in Hc. destruct (digitValue c) as [d|]; [|discriminate].
  rewrite (parseDigits_all digits Hrest). now rewrite Z.mul_1_l.
Qed.

(** The part of a version string before its first dot. *)
Lemma major_part_without_dot (s : string) :
  contains "."%char s = false ->
  String_substring 0
    (if String_includes "." 0 s then Some (String_indexOf "." 0 s) else None) s
  = s.
Proof.
  intros Hnone. unfold String_includes, String_indexOf.
  change (Z.to_nat (Z.max 0 0)) with 0.
  rewrite (index_no_char "."%char s Hnone). cbn [Z.eqb negb].
  change 0%Z with (Z.of_nat 0).
  rewrite String_substring_suffix by lia.
  now rewrite Nat.sub_0_r, substring_all.
Qed.

Lemma major_part_with_dot (digits rest : string) :
  contains "."%char digits = false ->
  String_substring 0
    (if String_includes "." 0 (digits +++ "." +++ rest)
     then Some (String_indexOf "." 0 (digits +++ "." +++ rest))
     else None) (digits +++ "." +++ rest)
  = digits.
Proof.
  intros Hnone. unfold String_includes, String_indexOf.
  change (Z.to_nat (Z.max 0 0)) with 0.
  rewrite (index_first_char "."%char digits rest Hnone).
  assert (Hfound : (Z.of_nat (String.length digits) =? -1)%Z = false)
    by (apply Z.eqb_neq; lia).
  rewrite Hfound. cbn [negb].
  rewrite String_substring_prefix by (rewrite length_append; lia).
  apply substring_app_left.
Qed.

(** X18.  A version string made of decimal digits, alone or followed by a
    dot and anything, gives the number the digits write when that number is
    5 or 6, and the error otherwise: only what stands before the first dot
    counts. *)
Theorem major_version_of_digits (digits rest : string) :
  digits <> EmptyString ->
  allDigits digits = true ->
  getShrinkwrapFileMajorVersion (VersionString digits)
  = (if (decimalValue digits <? 5)%Z || (6 <? decimalValue digits)%Z
     then Abrupt notSupported
     else Normal (Integer (decimalValue digits)))
  /\ getShrinkwrapFileMajorVersion (VersionString (digits +++ "." +++ rest))
     = getShrinkwrapFileMajorVersion (VersionString digits).
Proof.
  intros Hnonempty Hall.
  pose proof (digits_hold_no_dot digits Hall) as Hnodot.
  unfold getShrinkwrapFileMajorVersion. cbv zeta.
  rewrite (major_part_without_dot digits Hnodot).
  rewrite (major_part_with_dot digits rest Hnodot).
  rewrite (parseInt10_digits digits Hnonempty Hall).
  split; reflexivity.
Qed.

Lemma parseInt10_no_number (c : ascii) (rest : string) :
  isStrWhiteSpaceChar c = false ->
  isDigit c = false ->
  Ascii.eqb c "-"%char = false ->
  Ascii.eqb c "+"%char = false ->
  parseInt10 (String c rest) = NaN.
Proof.
  intros Hspace Hdigit Hminus Hplus.
  unfold parseInt10. cbn [trimStart]. rewrite Hspace, Hminus, Hplus.
  cbn [parseDigits]. unfold isDigit in Hdigit.
  destruct (digitValue c); [discriminate | reflexivity].
Qed.

(** X19.  A version string that is empty, or whose first character is
    neither white space, nor a sign, nor a digit, is not rejected: the
    result is NaN, which the range check lets through. *)
Theorem major_version_not_a_number (c : ascii) (rest : string) :
  isStrWhiteSpaceChar c = false ->
  isDigit c = false ->
  Ascii.eqb c "-"%char = false ->
  Ascii.eqb c "+"%char = false ->
  getShrinkwrapFileMajorVersion (VersionString (String c rest)) = Normal NaN
  /\ getShrinkwrapFileMajorVersion (VersionString EmptyString) = Normal NaN.
Proof.
  intros Hspace Hdigit Hminus Hplus. split; [|reflexivity].
  unfold getShrinkwrapFileMajorVersion. cbv zeta.
  assert (Hmajor : String_substring 0
                     (if String_includes "." 0 (String c rest)
                      then Some (String_indexOf "." 0 (String c rest))
                      else None) (String c rest) = EmptyString
                   \/ exists tail,
                        String_substring 0
                          (if String_includes "." 0 (String c rest)
                           then Some (String_indexOf "." 0 (String c rest))
                           else None) (String c rest) = String c tail).
  { unfold String_includes, String_indexOf.
    change (Z.to_nat (Z.max 0 0)) with 0.
    destruct (index 0 "." (String c rest)) as [i|] eqn:Hindex.
    - assert (Hfound : (Z.of_nat i =? -1)%Z = false) by (apply Z.eqb_neq; lia).
      rewrite Hfound. cbn [negb].
      destruct (index_found _ _ _ _ Hindex) as (_ & Hlen & _).
      rewrite String_substring_prefix by lia.
      destruct i as [|i]; [left | right; eexists]; reflexivity.
    - cbn [Z.eqb negb]. right. change 0%Z with (Z.of_nat 0).
      rewrite String_substring_suffix by lia.
      rewrite Nat.sub_0_r, substring_all. eexists. reflexivity. }
  destruct Hmajor as [-> | (tail & ->)]; [reflexivity|].
  rewrite (parseInt10_no_number c tail Hspace Hdigit Hminus Hplus).
  reflexivity.
Qed.

(* ------------------------------------------------------------------ *)
(** *** The helpers on examples *)

Example convert_examples :
  map (convertLockfileV6DepPathToV5DepPath
         (mkDependencyPathApi (fun _ => (-1)%Z)
            (fun _ => mkDependencyPath None None None)))
    ["/foo@1.0.0"; "/@babel/core@7.0.0"; "file:../x@1"; "/foo/1.0.0"; "a@/@b"]
  = ["/foo/1.0.0"; "/@babel/core/7.0.0"; "file:../x@1"; "/foo/1.0.0";
     "/a@/@b"].
Proof. vm_compute. reflexivity. Qed.

Lemma convert_unscoped_witness :
  "foo" <> EmptyString
  /\ contains "@" "foo" = false
  /\ String_indexOf "/@" 0 ("/" +++ "foo" +++ "@" +++ "1.0.0") = (-1)%Z
  /\ String_includes "(" 0 ("/" +++ "foo" +++ "@" +++ "1.0.0") = false
  /\ convertLockfileV6DepPathToV5DepPath
       (mkDependencyPathApi (fun _ => (-1)%Z)
          (fun _ => mkDependencyPath None None None))
       "/foo@1.0.0"
     = "/foo/1.0.0".
Proof.
  assert (Hname : "foo" <> EmptyString) by discriminate.
  split; [exact Hname|]. split; [reflexivity|]. split; [reflexivity|].
  split; [reflexivity|].
  exact (convert_unscoped
           (mkDependencyPathApi (fun _ => (-1)%Z)
              (fun _ => mkDependencyPath None None None))
           "foo" "1.0.0" Hname eq_refl eq_refl (or_introl eq_refl)).
Defined.

Lemma convert_scoped_witness :
  contains "@" "babel" = false
  /\ contains "@" "core" = false
  /\ String_includes "(" 0
       ("/@" +++ "babel" +++ "/" +++ "core" +++ "@" +++ "7.0.0") = false
  /\ convertLockfileV6DepPathToV5DepPath
       (mkDependencyPathApi (fun _ => (-1)%Z)
          (fun _ => mkDependencyPath None None None))
       "/@babel/core@7.0.0"
     = "/@babel/core/7.0.0".
Proof.
  split; [reflexivity|]. split; [reflexivity|]. split; [reflexivity|].
  exact (convert_scoped
           (mkDependencyPathApi (fun _ => (-1)%Z)
              (fun _ => mkDependencyPath None None None))
           "babel" "core" "7.0.0" eq_refl eq_refl (or_introl eq_refl)).
Defined.

Lemma major_version_range_witness :
  getShrinkwrapFileMajorVersion (VersionString "6.0") = Normal (Integer 6)
  /\ (Integer 6 = Integer 5 \/ Integer 6 = Integer 6 \/ Integer 6 = NaN).
Proof.
  split; [reflexivity|].
  exact (major_version_range (VersionString "6.0") (Integer 6) eq_refl).
Defined.

Lemma major_version_of_digits_witness :
  "5" <> EmptyString
  /\ allDigits "5" = true
  /\ getShrinkwrapFileMajorVersion (VersionString "5.4") = Normal (Integer 5).
Proof.
  assert (Hdigits : "5" <> EmptyString) by discriminate.
  split; [exact Hdigits|]. split; [reflexivity|].
  exact (eq_trans (proj2 (major_version_of_digits "5" "4" Hdigits eq_refl))
           (proj1 (major_version_of_digits "5" "4" Hdigits eq_refl))).
Defined.

Lemma major_version_not_a_number_witness :
  isStrWhiteSpaceChar "v" = false
  /\ isDigit "v" = false
  /\ Ascii.eqb "v" "-" = false
  /\ Ascii.eqb "v" "+" = false
  /\ getShrinkwrapFileMajorVersion (VersionString "v6") = Normal NaN.
Proof.
  repeat (split; [reflexivity|]).
  exact (proj1 (major_version_not_a_number "v"%char "6" eq_refl eq_refl
                  eq_refl eq_refl)).
Defined.

Example major_version_examples :
  map getShrinkwrapFileMajorVersion
    [VersionString "5.4"; VersionString "6"; VersionString "7.1";
     VersionString " 6.1"; VersionString "5e3"; VersionOther;
     VersionNumber (NumberFinite (QArith_base.Qmake 27 5));
     VersionNumber (NumberFinite (QArith_base.Qmake 7 1));
     VersionNumber NumberNaN; VersionNumber (NumberInfinity false)]
  = [Normal (Integer 5); Normal (Integer 6); Abrupt notSupported;
     Normal (Integer 6); Normal (Integer 5); Abrupt notSupported;
     Normal (Integer 5); Abrupt notSupported; Normal NaN;
     Abrupt notSupported].
Proof. vm_compute. reflexivity. Qed.
